(** * mkcd: configuration resolution, path safety and action orchestration

    A shallow embedding of the Go sources of mkcd (packages [config],
    [utils], [cmd] and the detection of package [editor]) together with
    the properties its specification states about them.

    Conventions.
    - A Go [string] is a [string] of bytes; a Go [int] is a [Z] (no
      arithmetic here can leave the 64-bit range: the only operations are
      comparisons and a decrement of a byte count).
    - A Go [map[string]T] is a [gmap string T]; a nil map reads like the
      empty map.
    - A Go function returning [(T, error)] returns a [result T]; a function
      returning only [error] returns a [result unit].
    - Effects are threaded explicitly through a small state monad over the
      world: the machine outside the process and what has been printed.
      The operations of the operating system and the collaborators outside
      the core (document generator, version control, editor, interactive
      prompt) are parameters, about which nothing is assumed.

    The definitions come first, the properties after them. *)

From Stdlib Require Import ZArith Strings.String Strings.Ascii List Bool Lia.
From stdpp Require Import base option gmap strings.
Import ListNotations.

Local Open Scope string_scope.

(* ===================================================================== *)
(** * Errors and results                                                  *)
(* ===================================================================== *)

(** One constructor per [fmt.Errorf] site of the sources; [Wrap ctx e] is
    [fmt.Errorf(ctx + ": %w", e)]; [External] is an error value produced
    by the operating system or by a library outside the repository. *)
Inductive error : Type :=
| External (msg : string)
  (* fs.ErrNotExist, the error of a lookup of a path that does not exist *)
| ErrNotExist
| Wrap (ctx : string) (cause : error)
  (* package utils *)
| ErrDotDot (path : string)
| ErrEmptyPath
| ErrForbidden (absPath : string)
| ErrUnderForbidden (forbidden absPath : string)
| ErrDepth (depth maxDepth : Z) (path : string)
| ErrDangerous (message path : string)
| ErrNotADirectory (path : string)
| ErrSymlinkTarget (target : string)
  (* package config *)
| ErrHistoryLimit
| ErrMaxDepth
| ErrDefaultProfileMissing (name : string)
| ErrForbiddenNotAbsolute (path : string)
| ErrProfileNotFound (name : string)
| ErrDeleteDefault (name : string)
| ErrProfileDoesNotExist (name : string)
  (* cmd *)
| ErrInvalidConfiguration.

Inductive result (A : Type) : Type :=
| Ok (a : A)
| Err (e : error).
Arguments Ok {A} a.
Arguments Err {A} e.

Definition isOk {A} (r : result A) : bool :=
  match r with Ok _ => true | Err _ => false end.

Definition isErr {A} (r : result A) : bool := negb (isOk r).

(* ===================================================================== *)
(** * Package strings and path/filepath (Unix)                            *)
(* ===================================================================== *)

Module strings.

(** [strings.HasPrefix(s, prefix)] *)
Fixpoint HasPrefix (s prefix : string) : bool :=
  match prefix with
  | EmptyString => true
  | String c prefix' =>
      match s with
      | EmptyString => false
      | String d s' => Ascii.eqb d c && HasPrefix s' prefix'
      end
  end.

(** [strings.Contains(s, substr)] *)
Fixpoint Contains (s substr : string) : bool :=
  HasPrefix s substr
  || match s with
     | EmptyString => false
     | String _ s' => Contains s' substr
     end.

(** [strings.Count(s, string(sep))] for a one-byte separator. *)
Fixpoint Count (s : string) (sep : ascii) : Z :=
  match s with
  | EmptyString => 0
  | String c s' => (if Ascii.eqb c sep then 1 else 0) + Count s' sep
  end.

(** [strings.Split(s, string(sep))] for a one-byte separator. *)
Fixpoint Split (s : string) (sep : ascii) : list string :=
  match s with
  | EmptyString => [EmptyString]
  | String c s' =>
      if Ascii.eqb c sep then EmptyString :: Split s' sep
      else match Split s' sep with
           | x :: r => String c x :: r
           | [] => [String c EmptyString]
           end
  end.

(** [strings.Join(elems, sep)] *)
Fixpoint Join (elems : list string) (sep : string) : string :=
  match elems with
  | [] => EmptyString
  | [x] => x
  | x :: r => x ++ sep ++ Join r sep
  end.

(** [s[n:]] *)
Fixpoint drop (n : nat) (s : string) : string :=
  match n, s with
  | O, _ => s
  | S n', String _ s' => drop n' s'
  | S _, EmptyString => EmptyString
  end.

(** the last byte of [s], if any *)
Fixpoint last (s : string) : option ascii :=
  match s with
  | EmptyString => None
  | String c EmptyString => Some c
  | String _ s' => last s'
  end.

End strings.

Module filepath.

Definition Separator : ascii := "/"%char.
Definition sep : string := String Separator EmptyString.

(** [filepath.IsAbs] on Unix: the path starts with a slash. *)
Definition IsAbs (path : string) : bool := strings.HasPrefix path sep.

(** One step of the lexical scan of [filepath.Clean]: [out] is the list
    of elements written so far, last element first.  An empty element
    (doubled slash) and [.] are skipped; [..] removes the element before
    it when there is one to backtrack over, is kept at the start of a
    relative path and dropped at the start of a rooted one; any other
    element is appended. *)
Definition cleanStep (rooted : bool) (out : list string) (elem : string)
  : list string :=
  if String.eqb elem "" || String.eqb elem "." then out
  else if String.eqb elem ".." then
    match out with
    | top :: rest =>
        if String.eqb top ".." then (if rooted then out else elem :: out)
        else rest
    | [] => if rooted then [] else [elem]
    end
  else elem :: out.

(** [filepath.Clean] on Unix, after the rules of the Go library: collapse
    separators, drop [.], resolve inner [..], drop [..] at the root; the
    empty result is [.]. *)
Definition Clean (path : string) : string :=
  if String.eqb path "" then "."
  else
    let rooted := IsAbs path in
    let out := fold_left (cleanStep rooted) (strings.Split path Separator) [] in
    let body := strings.Join (rev out) sep in
    if rooted then sep ++ body
    else if String.eqb body "" then "." else body.

(** [filepath.Join] on Unix: the elements from the first non-empty one
    on, joined by slashes and cleaned; the empty string when every
    element is empty. *)
Fixpoint Join (elem : list string) : string :=
  match elem with
  | [] => ""
  | e :: r =>
      if String.eqb e "" then Join r
      else Clean (strings.Join elem sep)
  end.

End filepath.

(* ===================================================================== *)
(** * The process environment                                             *)
(* ===================================================================== *)

(** What the program reads from its process: the home directory (through
    [os.UserHomeDir] and through go-homedir's [homedir.Dir]) and the
    working directory ([os.Getwd]), each of which may fail, and the
    directory for temporary files ([os.TempDir]). *)
Record Env : Type := mkEnv {
  UserHomeDir : result string;
  homedir_Dir : result string;
  Getwd : result string;
  os_TempDir : string;
}.

Module filepathEnv.

(** [filepath.Abs] on Unix: an absolute path is cleaned, a relative one
    is joined to the working directory. *)
Definition Abs (env : Env) (path : string) : result string :=
  if filepath.IsAbs path then Ok (filepath.Clean path)
  else match Getwd env with
       | Err e => Err e
       | Ok wd => Ok (filepath.Join [wd; path])
       end.

End filepathEnv.

(* ===================================================================== *)
(** * Package utils: path sanitization and validation                     *)
(* ===================================================================== *)

Module utils.

(** [GetAbsolutePath] *)
Definition GetAbsolutePath (env : Env) (path : string) : result string :=
  let expanded :=
    if strings.HasPrefix path "~/" then
      match UserHomeDir env with
      | Err e => Err (Wrap "failed to get home directory" e)
      | Ok homeDir => Ok (filepath.Join [homeDir; strings.drop 2 path])
      end
    else Ok path in
  match expanded with
  | Err e => Err e
  | Ok path' =>
      match filepathEnv.Abs env path' with
      | Err e => Err (Wrap ("failed to get absolute path for " ++ path') e)
      | Ok absPath => Ok absPath
      end
  end.

(** [SanitizePath] *)
Definition SanitizePath (path : string) : result string :=
  let cleaned := filepath.Clean path in
  if strings.Contains cleaned ".." then Err (ErrDotDot path)
  else if String.eqb cleaned "" || String.eqb cleaned "." then Err ErrEmptyPath
  else Ok cleaned.

(** [PathValidator] (internal/utils/path.go) *)
Record PathValidator : Type := NewPathValidator {
  ForbiddenPaths : list string;
  MaxDepth : Z;
}.

(** [checkForbiddenPaths]: the first forbidden entry that equals the
    path, or that followed by a separator is a prefix of it, rejects. *)
Fixpoint checkForbidden (forbiddenPaths : list string) (absPath : string)
  : result unit :=
  match forbiddenPaths with
  | [] => Ok tt
  | forbidden :: rest =>
      if String.eqb absPath forbidden then Err (ErrForbidden absPath)
      else if strings.HasPrefix absPath (forbidden ++ filepath.sep)
      then Err (ErrUnderForbidden forbidden absPath)
      else checkForbidden rest absPath
  end.

Definition checkForbiddenPaths (pv : PathValidator) (absPath : string)
  : result unit :=
  checkForbidden (ForbiddenPaths pv) absPath.

(** the [depth] computed by [checkPathDepth]: the separators of the
    path, the root separator of an absolute path not counted *)
Definition pathDepth (path : string) : Z :=
  let depth := strings.Count path filepath.Separator in
  if filepath.IsAbs path then depth - 1 else depth.

(** [checkPathDepth] *)
Definition checkPathDepth (pv : PathValidator) (path : string) : result unit :=
  let depth := pathDepth path in
  if (depth >? MaxDepth pv)%Z then Err (ErrDepth depth (MaxDepth pv) path)
  else Ok tt.

(** The four patterns of [checkDangerousCharacters], each with the
    predicate its regular expression denotes. *)

(** [\x00] *)
Definition hasNullByte (path : string) : bool :=
  strings.Contains path (String Ascii.zero EmptyString).

(** the character class of [<], [>], [:], the double quote, [|], [?]
    and the star *)
Definition isInvalidFilenameChar (c : ascii) : bool :=
  existsb (Ascii.eqb c)
    ["<"; ">"; ":"; Ascii.ascii_of_nat 34; "|"; "?"; "*"]%char.

Fixpoint hasInvalidFilenameChar (path : string) : bool :=
  match path with
  | EmptyString => false
  | String c path' => isInvalidFilenameChar c || hasInvalidFilenameChar path'
  end.

(** the class [\s] of Go regular expressions: tab, newline, form feed,
    carriage return, space *)
Definition isSpace (c : ascii) : bool :=
  existsb (Nat.eqb (Ascii.nat_of_ascii c)) [9; 10; 12; 13; 32]%nat.

(** [^\s+|\s+$] *)
Definition hasOuterWhitespace (path : string) : bool :=
  match path with
  | EmptyString => false
  | String c _ =>
      isSpace c || match strings.last path with
                   | Some d => isSpace d
                   | None => false
                   end
  end.

(** [\.{3,}] *)
Definition hasExcessiveDots (path : string) : bool :=
  strings.Contains path "...".

Definition dangerousPatterns : list ((string -> bool) * string) :=
  [ (hasNullByte, "null byte");
    (hasInvalidFilenameChar, "invalid filename characters");
    (hasOuterWhitespace, "leading or trailing whitespace");
    (hasExcessiveDots, "excessive dots") ].

Fixpoint checkPatterns (dps : list ((string -> bool) * string)) (path : string)
  : result unit :=
  match dps with
  | [] => Ok tt
  | (matched, message) :: rest =>
      if matched path then Err (ErrDangerous message path)
      else checkPatterns rest path
  end.

Definition checkDangerousCharacters (path : string) : result unit :=
  checkPatterns dangerousPatterns path.

(** [ValidatePath] *)
Definition ValidatePath (env : Env) (pv : PathValidator) (path : string)
  : result unit :=
  match SanitizePath path with
  | Err e => Err (Wrap "path sanitization failed" e)
  | Ok cleanPath =>
      match GetAbsolutePath env cleanPath with
      | Err e => Err (Wrap "failed to resolve absolute path" e)
      | Ok absPath =>
          match checkForbiddenPaths pv absPath with
          | Err e => Err e
          | Ok _ =>
              match checkPathDepth pv cleanPath with
              | Err e => Err e
              | Ok _ => checkDangerousCharacters cleanPath
              end
          end
      end
  end.

End utils.

(* ===================================================================== *)
(** * Package config: the configuration structures                        *)
(* ===================================================================== *)

(** Each Go struct is a record in a module of its name, so that fields
    keep their names ([ProfileConfig.Git p] for [p.Git]). *)

Module CoreConfig.
Record t : Type := mk {
  DefaultProfile : string;
  Editor : string;
  ShellIntegration : bool;
  HistoryLimit : Z;
  BackupEnabled : bool;
  TempDir : string;
}.
End CoreConfig.

Module GitConfig.
Record t : Type := mk {
  AutoInit : bool;
  DefaultBranch : string;
  UserName : string;
  UserEmail : string;
  DefaultRemoteName : string;
}.
End GitConfig.

Module TemplatesConfig.
Record t : Type := mk {
  Directory : string;
  AutoUpdate : bool;
}.
End TemplatesConfig.

Module SafetyConfig.
Record t : Type := mk {
  ConfirmOverwrites : bool;
  ConfirmDeletes : bool;
  MaxDepth : Z;
  ForbiddenPaths : list string;
}.
End SafetyConfig.

Module OutputConfig.
Record t : Type := mk {
  Colors : bool;
  Icons : bool;
  ProgressBars : bool;
}.
End OutputConfig.

Module ProfileConfig.
Record t : Type := mk {
  Git : bool;
  Editor : bool;
  Readme : bool;
  Gitignore : string;
  Template : string;
  Touch : list string;
  License : string;
}.

(** the zero value [ProfileConfig{}] *)
Definition zero : t := mk false false false "" "" [] "".
End ProfileConfig.

Module Config.
Record t : Type := mk {
  Core : CoreConfig.t;
  Git : GitConfig.t;
  Templates : TemplatesConfig.t;
  Safety : SafetyConfig.t;
  Output : OutputConfig.t;
  Profiles : gmap string ProfileConfig.t;
}.

Definition withProfiles (c : t) (ps : gmap string ProfileConfig.t) : t :=
  mk (Core c) (Git c) (Templates c) (Safety c) (Output c) ps.
End Config.

Module config.

(** [DefaultConfig]; a failure of [homedir.Dir] is ignored and leaves
    the empty home directory. *)
Definition DefaultConfig (env : Env) : Config.t :=
  let homeDir := match homedir_Dir env with Ok h => h | Err _ => "" end in
  Config.mk
    (CoreConfig.mk "default" "" true 100 false "/tmp/mkcd")
    (GitConfig.mk false "main" "" "" "origin")
    (TemplatesConfig.mk
       (filepath.Join [homeDir; ".config"; "mkcd"; "templates"]) false)
    (SafetyConfig.mk true true 10 ["/"; "/usr"; "/etc"; "/var"; "/bin"; "/sbin"])
    (OutputConfig.mk true true true)
    (list_to_map
       [ ("default", ProfileConfig.mk false false false "" "" [] "");
         ("dev", ProfileConfig.mk true true true "general" "basic-dev" [] "");
         ("nodejs", ProfileConfig.mk true true false "node" "nodejs"
                      ["package.json"; "index.js"] "");
         ("python", ProfileConfig.mk true true false "python" "python"
                      ["main.py"; "requirements.txt"] "") ]).

(** [GetConfigPath] *)
Definition GetConfigPath (env : Env) : result string :=
  match homedir_Dir env with
  | Err e => Err (Wrap "failed to get home directory" e)
  | Ok homeDir =>
      let configDir := filepath.Join [homeDir; ".config"; "mkcd"] in
      Ok (filepath.Join [configDir; "mkcd.conf"])
  end.

(** the loop of [Validate] over the forbidden paths *)
Fixpoint validateForbidden (paths : list string) : result unit :=
  match paths with
  | [] => Ok tt
  | path :: rest =>
      if negb (filepath.IsAbs path) then Err (ErrForbiddenNotAbsolute path)
      else validateForbidden rest
  end.

(** [Config.Validate] *)
Definition Validate (c : Config.t) : result unit :=
  if (CoreConfig.HistoryLimit (Config.Core c) <? 0)%Z then Err ErrHistoryLimit
  else if (SafetyConfig.MaxDepth (Config.Safety c) <? 1)%Z then Err ErrMaxDepth
  else
    let name := CoreConfig.DefaultProfile (Config.Core c) in
    if negb (String.eqb name "") && negb (bool_decide (is_Some (Config.Profiles c !! name)))
    then Err (ErrDefaultProfileMissing name)
    else validateForbidden (SafetyConfig.ForbiddenPaths (Config.Safety c)).

(** [Config.GetProfile] *)
Definition GetProfile (c : Config.t) (name : string) : result ProfileConfig.t :=
  let name := if String.eqb name "" then CoreConfig.DefaultProfile (Config.Core c)
              else name in
  match Config.Profiles c !! name with
  | None => Err (ErrProfileNotFound name)
  | Some profile => Ok profile
  end.

(** [Config.SetProfile]: the receiver is updated in place, so the
    updated configuration is returned. *)
Definition SetProfile (c : Config.t) (name : string) (profile : ProfileConfig.t)
  : Config.t :=
  Config.withProfiles c (<[name := profile]> (Config.Profiles c)).

(** [Config.DeleteProfile]: returns the error and the configuration the
    receiver holds afterwards. *)
Definition DeleteProfile (c : Config.t) (name : string)
  : result unit * Config.t :=
  if String.eqb name (CoreConfig.DefaultProfile (Config.Core c))
  then (Err (ErrDeleteDefault name), c)
  else match Config.Profiles c !! name with
       | None => (Err (ErrProfileDoesNotExist name), c)
       | Some _ => (Ok tt, Config.withProfiles c (delete name (Config.Profiles c)))
       end.

End config.

(* ===================================================================== *)
(** * Package cmd: flags and the merge of profile and flags               *)
(* ===================================================================== *)

(** The persistent flags of the root command, package-level variables in
    the source. *)
Module GlobalFlags.
Record t : Type := mk {
  cfgFile : string;
  profile : string;
  dryRun : bool;
  verbose : bool;
  quiet : bool;
  debug : bool;
  force : bool;
  interactive : bool;
  backup : bool;
}.
End GlobalFlags.

(** The flags of the [mkcd] command (cmd/mkcd.go), package-level variables
    in the source. *)
Module MkcdFlags.
Record t : Type := mk {
  gitInit : bool;
  gitRemote : string;
  template : string;
  editorName : string;
  editorFlag : bool;
  touchFiles : list string;
  readme : bool;
  gitignore : string;
  license : string;
  mode : string;
  parentMode : string;
  symlink : string;
  temp : bool;
  expire : string;
}.
End MkcdFlags.

Module MkcdConfig.
Record t : Type := mk {
  Git : bool;
  GitRemote : string;
  Template : string;
  Editor : bool;
  Readme : bool;
  Gitignore : string;
  License : string;
  Touch : list string;
  Mode : string;
  ParentMode : string;
  Symlink : string;
  Temp : bool;
  Expire : string;
}.
End MkcdConfig.

(** [mergeConfigWithFlags]: the literal first, then the four fields that
    fall back to the profile when the flag left them empty. *)
Definition mergeConfigWithFlags (fl : MkcdFlags.t) (profileConfig : ProfileConfig.t)
  : MkcdConfig.t :=
  let merged :=
    MkcdConfig.mk
      (MkcdFlags.gitInit fl || ProfileConfig.Git profileConfig)
      (MkcdFlags.gitRemote fl)
      (MkcdFlags.template fl)
      (MkcdFlags.editorFlag fl || ProfileConfig.Editor profileConfig
       || negb (String.eqb (MkcdFlags.editorName fl) ""))
      (MkcdFlags.readme fl || ProfileConfig.Readme profileConfig)
      (MkcdFlags.gitignore fl)
      (MkcdFlags.license fl)
      (MkcdFlags.touchFiles fl)
      (MkcdFlags.mode fl)
      (MkcdFlags.parentMode fl)
      (MkcdFlags.symlink fl)
      (MkcdFlags.temp fl)
      (MkcdFlags.expire fl) in
  let Template := if String.eqb (MkcdConfig.Template merged) ""
                  then ProfileConfig.Template profileConfig
                  else MkcdConfig.Template merged in
  let Gitignore := if String.eqb (MkcdConfig.Gitignore merged) ""
                   then ProfileConfig.Gitignore profileConfig
                   else MkcdConfig.Gitignore merged in
  let License := if String.eqb (MkcdConfig.License merged) ""
                 then ProfileConfig.License profileConfig
                 else MkcdConfig.License merged in
  let Touch := if (Nat.eqb (List.length (MkcdConfig.Touch merged)) 0)
               then ProfileConfig.Touch profileConfig
               else MkcdConfig.Touch merged in
  MkcdConfig.mk (MkcdConfig.Git merged) (MkcdConfig.GitRemote merged) Template
    (MkcdConfig.Editor merged) (MkcdConfig.Readme merged) Gitignore License Touch
    (MkcdConfig.Mode merged) (MkcdConfig.ParentMode merged)
    (MkcdConfig.Symlink merged) (MkcdConfig.Temp merged) (MkcdConfig.Expire merged).

(* ===================================================================== *)
(** * The world: file system and terminal                                 *)
(* ===================================================================== *)

(** A call of one of pterm's printers, or a write to standard output.  The
    text is kept as the format string and its arguments, so that no
    formatting has to be modelled. *)
Inductive Printer : Type :=
| PSuccess | PInfo | PWarning | PError | PDebug
| PPlain | PGreen | PRed | PYellow | PCyan | PBulletList
| Stdout.

#[local] Set Warnings "-register-all".
Inductive Arg : Type :=
| AStr (s : string)
| AInt (n : Z)
| AErr (e : error)
  (* a string that is itself the result of [fmt.Sprintf] *)
| AFmt (format : string) (args : list Arg).

Record Text : Type := Sprintf { format : string; args : list Arg }.

Record Msg : Type := mkMsg { printer : Printer; text : Text }.

(** The state a run acts on: the machine outside the process, of an
    abstract type [F], and the calls made to the printers so far, oldest
    first.  What pterm then shows on the terminal (styling, messages it
    has been told to suppress) is not modelled. *)
Record World (F : Type) : Type := mkWorld { fs : F; out : list Msg }.
Arguments mkWorld {F} fs out.
Arguments fs {F} w.
Arguments out {F} w.

(** State monad over the world. *)
Definition M (S A : Type) : Type := S -> A * S.

Definition ret {S A} (a : A) : M S A := fun s => (a, s).

Definition bind {S A B} (m : M S A) (f : A -> M S B) : M S B :=
  fun s => let '(a, s') := m s in f a s'.

Declare Scope go_scope.
Delimit Scope go_scope with go.
Notation "'let*' x ':=' m 'in' k" := (bind m (fun x => k))
  (at level 10, x binder, m at level 100, k at level 200,
   format "'[v' 'let*'  x  ':='  m  'in' '/' k ']'") : go_scope.
Notation "m ';;' k" := (bind m (fun _ => k))
  (at level 100, k at level 200, right associativity,
   format "'[v' m ';;' '/' k ']'") : go_scope.
Local Open Scope go_scope.

(** print a message *)
Definition emit {F} (p : Printer) (fmt : string) (a : list Arg) : M (World F) unit :=
  fun w => (tt, mkWorld (fs w) (out w ++ [mkMsg p (Sprintf fmt a)])).

(** read the machine *)
Definition query {F A} (f : F -> A) : M (World F) A :=
  fun w => (f (fs w), w).

(** act on the machine *)
Definition act {F A} (f : F -> A * F) : M (World F) A :=
  fun w => let '(a, fs') := f (fs w) in (a, mkWorld fs' (out w)).

(** What a collaborator outside the core may do: act on the machine and
    print.  It neither reads nor takes back what has been printed. *)
Definition Effect (F A : Type) : Type := F -> A * F * list Msg.

Definition call {F A} (e : Effect F A) : M (World F) A :=
  fun w => let '(a, fs', printed) := e (fs w) in (a, mkWorld fs' (out w ++ printed)).

Definition effectOf {F A} (c : M (World F) A) : Effect F A :=
  fun m => let '(a, w') := c (mkWorld m []) in (a, fs w', out w').

Record FileInfo : Type := mkFileInfo { IsDir : bool; IsRegular : bool }.

(** [os.IsNotExist]; it does not look inside an error wrapped by
    [fmt.Errorf]. *)
Definition os_IsNotExist (e : error) : bool :=
  match e with
  | ErrNotExist => true
  | _ => false
  end.

(** The operations of the operating system and of the TOML decoder the
    sources call.  Nothing is assumed about them: each may fail, and a
    failing operation may still have changed the machine. *)
Class OS (F : Type) : Type := {
  os_Stat : string -> F -> result FileInfo;
  os_MkdirAll : string -> Z -> F -> result unit * F;
  (** [os.OpenFile(path, O_CREATE|O_WRONLY|O_TRUNC, mode)] *)
  os_OpenFile : string -> Z -> F -> result unit * F;
  (** [file.WriteString(content)] on the file opened at the path *)
  file_WriteString : string -> string -> F -> result unit * F;
  os_Remove : string -> F -> result unit * F;
  os_Symlink : string -> string -> F -> result unit * F;
  (** [time.Now().Format("20060102-150405")] *)
  time_Now : F -> string;
  (** [toml.DecodeFile(path, config)]: the configuration after the file
      has been decoded over it *)
  toml_DecodeFile : string -> Config.t -> F -> result Config.t;
  (** [CopyFile] of package utils, its byte-copy loop over the two
      opened files taken whole; it may print a warning *)
  CopyFile : string -> string -> Effect F (result unit);
}.

(** [GenerationContext] of package files, as far as cmd fills it. *)
Module GenerationContext.
Record t : Type := mk {
  ProjectPath : string;
  Author : string;
  Email : string;
}.
End GenerationContext.

Module FileSystemOperations.
Record t : Type := mk { DryRun : bool; Backup : bool }.
End FileSystemOperations.

Definition NewFileSystemOperations (dryRun backup : bool) : FileSystemOperations.t :=
  FileSystemOperations.mk dryRun backup.

(** The collaborators of the orchestration that lie outside the core: the
    document generator (package files), the version-control backend
    (package git, over go-git), the editor launcher (package editor) and
    pterm's interactive confirmation.  Each acts on the world and may
    fail. *)
Class Collaborators (F : Type) : Type := {
  GenerateReadme :
    FileSystemOperations.t -> bool -> bool -> GenerationContext.t ->
    Effect F (result unit);
  GenerateGitignore :
    FileSystemOperations.t -> bool -> bool -> GenerationContext.t -> string ->
    Effect F (result unit);
  GenerateLicense :
    FileSystemOperations.t -> bool -> bool -> GenerationContext.t -> string ->
    Effect F (result unit);
  (** [NewGitManager(dryRun, verbose, userName, userEmail)] and its methods *)
  InitRepository :
    bool -> bool -> string -> string -> string -> string -> Effect F (result unit);
  AddRemote :
    bool -> bool -> string -> string -> string -> string -> string ->
    Effect F (result unit);
  CreateInitialCommit :
    bool -> bool -> string -> string -> string -> string -> Effect F (result unit);
  (** [NewEditorLauncher(dryRun, verbose).Launch(options)], the options
      being the editor name, the path and [CreateMissing] *)
  Launch : bool -> bool -> string -> string -> bool -> Effect F (result unit);
  (** [pterm.DefaultInteractiveConfirm.WithDefaultValue(d).Show(prompt)] *)
  pterm_Confirm : bool -> Text -> Effect F (result bool);
}.

(* ===================================================================== *)
(** * Package utils: file-system operations                               *)
(* ===================================================================== *)

Module filepathDir.

(** the part of a path up to and including its last separator *)
Fixpoint dirPart (path : string) : string :=
  match path with
  | EmptyString => EmptyString
  | String c path' =>
      if strings.Contains path filepath.sep then String c (dirPart path')
      else EmptyString
  end.

(** [filepath.Dir] on Unix *)
Definition Dir (path : string) : string := filepath.Clean (dirPart path).

End filepathDir.

Section FileSystem.
Context {F : Type} `{!OS F}.

Local Abbreviation ST := (M (World F)).

(** [PathExists] *)
Definition PathExists (path : string) : ST bool :=
  let* r := query (os_Stat path) in ret (isOk r).

(** [FileSystemOperations.CreateDirectory] *)
Definition CreateDirectory (fsops : FileSystemOperations.t) (path : string)
    (mode : Z) : ST (result unit) :=
  if FileSystemOperations.DryRun fsops then
    emit PInfo "[DRY RUN] Would create directory: %s (mode: %o)"
         [AStr path; AInt mode];;
    ret (Ok tt)
  else
    let* st := query (os_Stat path) in
    match st with
    | Ok info =>
        if IsDir info then
          emit PDebug "Directory already exists: %s" [AStr path];;
          ret (Ok tt)
        else ret (Err (ErrNotADirectory path))
    | Err _ =>
        let* r := act (os_MkdirAll path mode) in
        match r with
        | Err e => ret (Err (Wrap ("failed to create directory " ++ path) e))
        | Ok _ =>
            emit PSuccess "Created directory: %s" [AStr path];;
            ret (Ok tt)
        end
    end.

(** [FileSystemOperations.BackupFile] *)
Definition BackupFile (fsops : FileSystemOperations.t) (path : string)
  : ST (result unit) :=
  if FileSystemOperations.DryRun fsops then
    emit PInfo "[DRY RUN] Would backup file: %s" [AStr path];;
    ret (Ok tt)
  else
    let* timestamp := query time_Now in
    let backupPath := path ++ ".backup-" ++ timestamp in
    let* r := call (CopyFile path backupPath) in
    match r with
    | Err e => ret (Err (Wrap ("failed to create backup " ++ backupPath) e))
    | Ok _ =>
        emit PInfo "Created backup: %s" [AStr backupPath];;
        ret (Ok tt)
    end.

(** the part of [CreateFile] after the backup: parent directory, open,
    write *)
Definition writeNewFile (path content : string) (mode : Z) : ST (result unit) :=
  let dir := filepathDir.Dir path in
  let* r := act (os_MkdirAll dir 493 (* 0755 *)) in
  match r with
  | Err e => ret (Err (Wrap ("failed to create parent directory " ++ dir) e))
  | Ok _ =>
      let* r := act (os_OpenFile path mode) in
      match r with
      | Err e => ret (Err (Wrap ("failed to create file " ++ path) e))
      | Ok _ =>
          let* r := act (file_WriteString path content) in
          match r with
          | Err e =>
              ret (Err (Wrap ("failed to write content to file " ++ path) e))
          | Ok _ =>
              emit PSuccess "Created file: %s" [AStr path];;
              ret (Ok tt)
          end
      end
  end.

(** [FileSystemOperations.CreateFile] *)
Definition CreateFile (fsops : FileSystemOperations.t) (path content : string)
    (mode : Z) : ST (result unit) :=
  if FileSystemOperations.DryRun fsops then
    emit PInfo "[DRY RUN] Would create file: %s (size: %d bytes)"
         [AStr path; AInt (Z.of_nat (String.length content))];;
    ret (Ok tt)
  else
    let* backed :=
      (if FileSystemOperations.Backup fsops then
         let* st := query (os_Stat path) in
         match st with
         | Ok _ =>
             let* r := BackupFile fsops path in
             match r with
             | Err e => ret (Err (Wrap "failed to backup existing file" e))
             | Ok _ => ret (Ok tt)
             end
         | Err _ => ret (Ok tt)
         end
       else ret (Ok tt)) in
    match backed with
    | Err e => ret (Err e)
    | Ok _ => writeNewFile path content mode
    end.

(** [FileSystemOperations.CreateSymlink] *)
Definition CreateSymlink (fsops : FileSystemOperations.t) (target linkPath : string)
  : ST (result unit) :=
  if FileSystemOperations.DryRun fsops then
    emit PInfo "[DRY RUN] Would create symlink: %s -> %s"
         [AStr linkPath; AStr target];;
    ret (Ok tt)
  else
    let* targetExists := PathExists target in
    if negb targetExists then ret (Err (ErrSymlinkTarget target))
    else
      let* linkExists := PathExists linkPath in
      let* removed :=
        (if linkExists then
           let* r := act (os_Remove linkPath) in
           match r with
           | Err e =>
               ret (Err (Wrap ("failed to remove existing symlink " ++ linkPath) e))
           | Ok _ => ret (Ok tt)
           end
         else ret (Ok tt)) in
      match removed with
      | Err e => ret (Err e)
      | Ok _ =>
          let* r := act (os_Symlink target linkPath) in
          match r with
          | Err e =>
              ret (Err (Wrap ("failed to create symlink " ++ linkPath
                               ++ " -> " ++ target) e))
          | Ok _ =>
              emit PSuccess "Created symlink: %s -> %s" [AStr linkPath; AStr target];;
              ret (Ok tt)
          end
      end.

End FileSystem.

(* ===================================================================== *)
(** * Package utils: the output manager                                   *)
(* ===================================================================== *)

Module OutputManager.
Record t : Type := mk {
  Colors : bool;
  Icons : bool;
  ProgressBars : bool;
  Quiet : bool;
  VerboseMode : bool;
  DebugMode : bool;
}.
End OutputManager.

(** [NewOutputManager]; its call of [configurePterm] only sets pterm's
    rendering switches. *)
Definition NewOutputManager (colors icons progressBars quiet verbose debug : bool)
  : OutputManager.t :=
  OutputManager.mk colors icons progressBars quiet verbose debug.

Section Output.
Context {F : Type} `{!Collaborators F}.

Local Abbreviation ST := (M (World F)).

Definition say (p : Printer) (message : Text) : ST unit :=
  emit p (format message) (args message).

(** the shape shared by [Success], [Error], [Warning] and [Info]:
    nothing when quiet, the prefixed printer with icons, a coloured
    line without *)
Definition leveled (om : OutputManager.t) (withIcon colour : Printer)
    (message : Text) : ST unit :=
  if OutputManager.Quiet om then ret tt
  else if OutputManager.Icons om then say withIcon message
  else say colour message.

Definition om_Success om message := leveled om PSuccess PGreen message.
Definition om_Error om message := leveled om PError PRed message.
Definition om_Warning om message := leveled om PWarning PYellow message.
Definition om_Info om message := leveled om PInfo PCyan message.

(** [OutputManager.Debug] *)
Definition om_Debug (om : OutputManager.t) (message : Text) : ST unit :=
  if OutputManager.Quiet om || negb (OutputManager.DebugMode om) then ret tt
  else say PDebug message.

(** the loop of [OutputManager.List] without icons and colours, each item
    through [OutputManager.Printf] *)
Fixpoint printItems (items : list Text) : ST unit :=
  match items with
  | [] => ret tt
  | item :: rest =>
      emit PPlain "• %s\n" [AFmt (format item) (args item)];;
      printItems rest
  end.

(** the bullet list rendered by pterm, one call per item *)
Fixpoint renderItems (items : list Text) : ST unit :=
  match items with
  | [] => ret tt
  | item :: rest => say PBulletList item;; renderItems rest
  end.

(** [OutputManager.List] *)
Definition om_List (om : OutputManager.t) (items : list Text) : ST unit :=
  if OutputManager.Quiet om then ret tt
  else if OutputManager.Icons om && OutputManager.Colors om then renderItems items
  else printItems items.

(** [OutputManager.Confirm]; on an error the callers here look at the
    error only. *)
Definition om_Confirm (om : OutputManager.t) (message : Text) (defaultValue : bool)
  : ST (result bool) :=
  if OutputManager.Quiet om then ret (Ok defaultValue)
  else
    let prompt :=
      Sprintf (format message ++ (if defaultValue then " [Y/n]" else " [y/N]"))
              (args message) in
    let* r := call (pterm_Confirm defaultValue prompt) in
    match r with
    | Err e => ret (Err (Wrap "failed to get user confirmation" e))
    | Ok b => ret (Ok b)
    end.

End Output.

(* ===================================================================== *)
(** * Package config: loading                                             *)
(* ===================================================================== *)

Section Loading.
Context {F : Type} `{!OS F}.

Local Abbreviation ST := (M (World F)).

(** [Load] *)
Definition Load (env : Env) (configPath : string) : ST (result Config.t) :=
  let located :=
    if String.eqb configPath "" then
      match config.GetConfigPath env with
      | Err e => Err (Wrap "failed to determine config path" e)
      | Ok p => Ok p
      end
    else Ok configPath in
  match located with
  | Err e => ret (Err e)
  | Ok configPath =>
      let* st := query (os_Stat configPath) in
      if match st with Err e => os_IsNotExist e | Ok _ => false end then
        emit PDebug "Config file not found at %s, using defaults" [AStr configPath];;
        ret (Ok (config.DefaultConfig env))
      else
        let* decoded := query (toml_DecodeFile configPath (config.DefaultConfig env)) in
        match decoded with
        | Err e => ret (Err (Wrap ("failed to parse config file " ++ configPath) e))
        | Ok cfg =>
            match config.Validate cfg with
            | Err e => ret (Err (Wrap "invalid configuration" e))
            | Ok _ =>
                emit PDebug "Loaded configuration from %s" [AStr configPath];;
                ret (Ok cfg)
            end
        end
  end.

End Loading.

(* ===================================================================== *)
(** * Package cmd: the validation report                                  *)
(* ===================================================================== *)

Section ConfigCommand.
Context {F : Type} `{!OS F} `{!Collaborators F}.

Local Abbreviation ST := (M (World F)).

(** whether [os.Stat] of the path fails with a does-not-exist error *)
Definition statIsNotExist (path : string) : ST bool :=
  let* st := query (os_Stat path) in
  ret (match st with Err e => os_IsNotExist e | Ok _ => false end).

(** the additional checks of [runConfigValidate], in their order *)
Definition additionalChecks (cfg : Config.t) : ST (list Text) :=
  let name := CoreConfig.DefaultProfile (Config.Core cfg) in
  let validationErrors : list Text := [] in
  let validationErrors :=
    if negb (String.eqb name "")
       && negb (bool_decide (is_Some (Config.Profiles cfg !! name)))
    then (validationErrors ++ [Sprintf "Default profile '%s' does not exist" [AStr name]])%list
    else validationErrors in
  let dir := TemplatesConfig.Directory (Config.Templates cfg) in
  let* missing :=
    (if negb (String.eqb dir "") then statIsNotExist dir else ret false) in
  let validationErrors :=
    if missing
    then (validationErrors ++ [Sprintf "Template directory does not exist: %s" [AStr dir]])%list
    else validationErrors in
  let tmp := CoreConfig.TempDir (Config.Core cfg) in
  let* missing :=
    (if negb (String.eqb tmp "") then statIsNotExist tmp else ret false) in
  let validationErrors :=
    if missing
    then (validationErrors ++ [Sprintf "Temp directory does not exist: %s" [AStr tmp]])%list
    else validationErrors in
  ret validationErrors.

(** [runConfigValidate] *)
Definition runConfigValidate (env : Env) (gf : GlobalFlags.t) : ST (result unit) :=
  let outputMgr :=
    NewOutputManager true true true (GlobalFlags.quiet gf)
      (GlobalFlags.verbose gf) (GlobalFlags.debug gf) in
  let located :=
    if String.eqb (GlobalFlags.cfgFile gf) "" then
      match config.GetConfigPath env with
      | Err e => Err (Wrap "failed to get config path" e)
      | Ok p => Ok p
      end
    else Ok (GlobalFlags.cfgFile gf) in
  match located with
  | Err e => ret (Err e)
  | Ok configPath =>
      om_Info outputMgr (Sprintf "Validating configuration: %s" [AStr configPath]);;
      let* loaded := Load env configPath in
      match loaded with
      | Err e =>
          om_Error outputMgr (Sprintf "Configuration validation failed: %v" [AErr e]);;
          ret (Err ErrInvalidConfiguration)
      | Ok cfg =>
          let* validationErrors := additionalChecks cfg in
          (if (0 <? List.length validationErrors)%nat then
             om_Warning outputMgr (Sprintf "Configuration has warnings:" []);;
             om_List outputMgr validationErrors
           else om_Success outputMgr (Sprintf "Configuration is valid" []));;
          ret (Ok tt)
      end
  end.

End ConfigCommand.

(* ===================================================================== *)
(** * Package cmd: the orchestration (cmd/mkcd.go)                        *)
(* ===================================================================== *)

Section Orchestration.
Context {F : Type} `{!OS F} `{!Collaborators F}.

Local Abbreviation ST := (M (World F)).

(** [determineTargetPath] *)
Definition determineTargetPath (env : Env) (dirName : string)
    (mkcdConfig : MkcdConfig.t) (cfg : Config.t) : result string :=
  let target :=
    if MkcdConfig.Temp mkcdConfig then
      let tempDir := CoreConfig.TempDir (Config.Core cfg) in
      let tempDir := if String.eqb tempDir "" then os_TempDir env else tempDir in
      Ok (filepath.Join [tempDir; dirName])
    else
      match Getwd env with
      | Err e => Err (Wrap "failed to get current directory" e)
      | Ok cwd => Ok (filepath.Join [cwd; dirName])
      end in
  match target with
  | Err e => Err e
  | Ok targetPath =>
      match utils.GetAbsolutePath env targetPath with
      | Err e => Err (Wrap "failed to get absolute path" e)
      | Ok absPath => Ok absPath
      end
  end.

(** the loop of [createDirectoryStructure] over the files to touch: a
    failed creation is reported as a warning and the loop goes on *)
Fixpoint touchLoop (targetPath : string) (files : list string)
    (fsOps : FileSystemOperations.t) (outputMgr : OutputManager.t) : ST unit :=
  match files with
  | [] => ret tt
  | fileName :: rest =>
      let filePath := filepath.Join [targetPath; fileName] in
      let* r := CreateFile fsOps filePath "" 420 (* 0644 *) in
      match r with
      | Err e =>
          om_Warning outputMgr
            (Sprintf "Failed to create file %s: %v" [AStr fileName; AErr e])
      | Ok _ => ret tt
      end;;
      touchLoop targetPath rest fsOps outputMgr
  end.

(** the first step of [createDirectoryStructure]: a custom mode is
    noted and not applied *)
Definition noteCustomMode (mkcdConfig : MkcdConfig.t) (outputMgr : OutputManager.t)
  : ST unit :=
  if negb (String.eqb (MkcdConfig.Mode mkcdConfig) "") then
    om_Debug outputMgr
      (Sprintf "Custom mode specified: %s" [AStr (MkcdConfig.Mode mkcdConfig)])
  else ret tt.

(** [createDirectoryStructure] *)
Definition createDirectoryStructure (targetPath : string)
    (mkcdConfig : MkcdConfig.t) (fsOps : FileSystemOperations.t)
    (outputMgr : OutputManager.t) : ST (result unit) :=
  let dirMode := 493%Z (* 0755 *) in
  noteCustomMode mkcdConfig outputMgr;;
  if negb (String.eqb (MkcdConfig.Symlink mkcdConfig) "") then
    CreateSymlink fsOps (MkcdConfig.Symlink mkcdConfig) targetPath
  else
    let* r := CreateDirectory fsOps targetPath dirMode in
    match r with
    | Err e => ret (Err e)
    | Ok _ =>
        touchLoop targetPath (MkcdConfig.Touch mkcdConfig) fsOps outputMgr;;
        ret (Ok tt)
    end.

(** one block of [generateProjectFiles]: when the document is wanted it
    is generated, and a failure is returned under the block's context *)
Definition requested (wanted : bool) (context : string)
    (generate : Effect F (result unit)) : ST (result unit) :=
  if wanted then
    let* r := call generate in
    match r with
    | Err e => ret (Err (Wrap context e))
    | Ok _ => ret (Ok tt)
    end
  else ret (Ok tt).

Definition NewGenerationContext (targetPath : string) (cfg : Config.t)
  : GenerationContext.t :=
  GenerationContext.mk targetPath
    (GitConfig.UserName (Config.Git cfg)) (GitConfig.UserEmail (Config.Git cfg)).

Definition readmeStep (gf : GlobalFlags.t) (targetPath : string)
    (mkcdConfig : MkcdConfig.t) (cfg : Config.t) (fsOps : FileSystemOperations.t)
  : ST (result unit) :=
  requested (MkcdConfig.Readme mkcdConfig) "failed to generate README"
    (GenerateReadme fsOps (GlobalFlags.dryRun gf) (GlobalFlags.verbose gf)
       (NewGenerationContext targetPath cfg)).

Definition gitignoreStep (gf : GlobalFlags.t) (targetPath : string)
    (mkcdConfig : MkcdConfig.t) (cfg : Config.t) (fsOps : FileSystemOperations.t)
  : ST (result unit) :=
  requested (negb (String.eqb (MkcdConfig.Gitignore mkcdConfig) ""))
    "failed to generate .gitignore"
    (GenerateGitignore fsOps (GlobalFlags.dryRun gf) (GlobalFlags.verbose gf)
       (NewGenerationContext targetPath cfg) (MkcdConfig.Gitignore mkcdConfig)).

Definition licenseStep (gf : GlobalFlags.t) (targetPath : string)
    (mkcdConfig : MkcdConfig.t) (cfg : Config.t) (fsOps : FileSystemOperations.t)
  : ST (result unit) :=
  requested (negb (String.eqb (MkcdConfig.License mkcdConfig) ""))
    "failed to generate LICENSE"
    (GenerateLicense fsOps (GlobalFlags.dryRun gf) (GlobalFlags.verbose gf)
       (NewGenerationContext targetPath cfg) (MkcdConfig.License mkcdConfig)).

(** [generateProjectFiles]: the three blocks in their order, the first
    failure returned *)
Definition generateProjectFiles (gf : GlobalFlags.t) (targetPath : string)
    (mkcdConfig : MkcdConfig.t) (cfg : Config.t)
    (fsOps : FileSystemOperations.t) (outputMgr : OutputManager.t)
  : ST (result unit) :=
  let* r := readmeStep gf targetPath mkcdConfig cfg fsOps in
  match r with
  | Err e => ret (Err e)
  | Ok _ =>
      let* r := gitignoreStep gf targetPath mkcdConfig cfg fsOps in
      match r with
      | Err e => ret (Err e)
      | Ok _ => licenseStep gf targetPath mkcdConfig cfg fsOps
      end
  end.

(** [openInEditor]; the editor name is the flag's, not the merged
    configuration's. *)
Definition openInEditor (gf : GlobalFlags.t) (fl : MkcdFlags.t)
    (targetPath : string) : ST (result unit) :=
  call (Launch (GlobalFlags.dryRun gf) (GlobalFlags.verbose gf)
          (MkcdFlags.editorName fl) targetPath (GlobalFlags.dryRun gf)).

(** [generateShellScript] *)
Definition generateShellScript (gf : GlobalFlags.t) (targetPath : string)
    (outputMgr : OutputManager.t) : ST (result unit) :=
  (if negb (GlobalFlags.quiet gf) then
     om_Success outputMgr (Sprintf "Directory created: %s" [AStr targetPath]);;
     om_Info outputMgr
       (Sprintf ("To change to the directory, run: cd " ++ targetPath) [])
   else ret tt);;
  emit Stdout "cd %s\n" [AStr targetPath];;
  ret (Ok tt).

(** the version-control steps of [executeMkcd] *)
Definition gitSteps (gf : GlobalFlags.t) (targetPath : string)
    (mkcdConfig : MkcdConfig.t) (cfg : Config.t) (outputMgr : OutputManager.t)
  : ST (result unit) :=
  let dryRun := GlobalFlags.dryRun gf in
  let verbose := GlobalFlags.verbose gf in
  let userName := GitConfig.UserName (Config.Git cfg) in
  let userEmail := GitConfig.UserEmail (Config.Git cfg) in
  let* r := call (InitRepository dryRun verbose userName userEmail targetPath
                    (GitConfig.DefaultBranch (Config.Git cfg))) in
  match r with
  | Err e => ret (Err (Wrap "failed to initialize Git repository" e))
  | Ok _ =>
      let* remoteDone :=
        (if negb (String.eqb (MkcdConfig.GitRemote mkcdConfig) "") then
           let* r := call (AddRemote dryRun verbose userName userEmail targetPath
                             (GitConfig.DefaultRemoteName (Config.Git cfg))
                             (MkcdConfig.GitRemote mkcdConfig)) in
           match r with
           | Err e => ret (Err (Wrap "failed to add Git remote" e))
           | Ok _ => ret (Ok tt)
           end
         else ret (Ok tt)) in
      match remoteDone with
      | Err e => ret (Err e)
      | Ok _ =>
          let* r := call (CreateInitialCommit dryRun verbose userName userEmail
                            targetPath "Initial commit") in
          match r with
          | Err e =>
              om_Warning outputMgr
                (Sprintf "Failed to create initial commit: %v" [AErr e])
          | Ok _ => ret tt
          end;;
          ret (Ok tt)
      end
  end.

(** the steps of [executeMkcd] from the creation of the directory on *)
Definition executeSteps (gf : GlobalFlags.t) (fl : MkcdFlags.t)
    (targetPath : string) (cfg : Config.t) (mkcdConfig : MkcdConfig.t)
    (outputMgr : OutputManager.t) (fsOps : FileSystemOperations.t)
  : ST (result unit) :=
  let* r := createDirectoryStructure targetPath mkcdConfig fsOps outputMgr in
  match r with
  | Err e => ret (Err (Wrap "failed to create directory structure" e))
  | Ok _ =>
      let* r := generateProjectFiles gf targetPath mkcdConfig cfg fsOps outputMgr in
      match r with
      | Err e => ret (Err (Wrap "failed to generate project files" e))
      | Ok _ =>
          let* gitDone :=
            (if MkcdConfig.Git mkcdConfig
             then gitSteps gf targetPath mkcdConfig cfg outputMgr
             else ret (Ok tt)) in
          match gitDone with
          | Err e => ret (Err e)
          | Ok _ =>
              (if MkcdConfig.Editor mkcdConfig then
                 let* r := openInEditor gf fl targetPath in
                 match r with
                 | Err e =>
                     om_Warning outputMgr
                       (Sprintf "Failed to open in editor: %v" [AErr e])
                 | Ok _ => ret tt
                 end
               else ret tt);;
              let* r := generateShellScript gf targetPath outputMgr in
              match r with
              | Err e => ret (Err (Wrap "failed to generate shell script" e))
              | Ok _ => ret (Ok tt)
              end
          end
      end
  end.

(** [executeMkcd] *)
Definition executeMkcd (env : Env) (gf : GlobalFlags.t) (fl : MkcdFlags.t)
    (dirName : string) (cfg : Config.t) (mkcdConfig : MkcdConfig.t)
    (outputMgr : OutputManager.t) (fsOps : FileSystemOperations.t)
    (pathValidator : utils.PathValidator) : ST (result unit) :=
  match determineTargetPath env dirName mkcdConfig cfg with
  | Err e => ret (Err (Wrap "failed to determine target path" e))
  | Ok targetPath =>
      let* validated :=
        match utils.ValidatePath env pathValidator targetPath with
        | Err e =>
            if negb (GlobalFlags.force gf)
            then ret (Err (Wrap "path validation failed" e))
            else
              om_Warning outputMgr
                (Sprintf "Path validation failed but continuing due to --force: %v"
                   [AErr e]);;
              ret (Ok tt)
        | Ok _ => ret (Ok tt)
        end in
      match validated with
      | Err e => ret (Err e)
      | Ok _ =>
          let* proceed :=
            (if GlobalFlags.interactive gf && negb (GlobalFlags.dryRun gf) then
               let* c := om_Confirm outputMgr
                           (Sprintf "Create directory %s?" [AStr targetPath]) true in
               match c with
               | Err e => ret (Err (Wrap "failed to get confirmation" e))
               | Ok confirmed =>
                   (if negb confirmed
                    then om_Info outputMgr (Sprintf "Operation cancelled by user" [])
                    else ret tt);;
                   ret (Ok confirmed)
               end
             else ret (Ok true)) in
          match proceed with
          | Err e => ret (Err e)
          | Ok false => ret (Ok tt)
          | Ok true =>
              executeSteps gf fl targetPath cfg mkcdConfig outputMgr fsOps
          end
      end
  end.

(** [runMkcd] *)
Definition runMkcd (env : Env) (gf : GlobalFlags.t) (fl : MkcdFlags.t)
    (dirName : string) : ST (result unit) :=
  let* loaded := Load env (GlobalFlags.cfgFile gf) in
  match loaded with
  | Err e => ret (Err (Wrap "failed to load configuration" e))
  | Ok cfg =>
      let* selected :=
        (if negb (String.eqb (GlobalFlags.profile gf) "") then
           match config.GetProfile cfg (GlobalFlags.profile gf) with
           | Err e => ret (Err (Wrap "failed to get profile" e))
           | Ok p => ret (Ok p)
           end
         else
           match config.GetProfile cfg
                   (CoreConfig.DefaultProfile (Config.Core cfg)) with
           | Err _ =>
               emit PDebug "No default profile found, using empty profile" [];;
               ret (Ok ProfileConfig.zero)
           | Ok p => ret (Ok p)
           end) in
      match selected with
      | Err e => ret (Err e)
      | Ok profileConfig =>
          let outputMgr :=
            NewOutputManager
              (OutputConfig.Colors (Config.Output cfg))
              (OutputConfig.Icons (Config.Output cfg))
              (OutputConfig.ProgressBars (Config.Output cfg))
              (GlobalFlags.quiet gf) (GlobalFlags.verbose gf) (GlobalFlags.debug gf) in
          let fsOps :=
            NewFileSystemOperations (GlobalFlags.dryRun gf)
              (GlobalFlags.backup gf || CoreConfig.BackupEnabled (Config.Core cfg)) in
          let pathValidator :=
            utils.NewPathValidator
              (SafetyConfig.ForbiddenPaths (Config.Safety cfg))
              (SafetyConfig.MaxDepth (Config.Safety cfg)) in
          let mergedConfig := mergeConfigWithFlags fl profileConfig in
          executeMkcd env gf fl dirName cfg mergedConfig outputMgr fsOps pathValidator
      end
  end.

End Orchestration.

(* ===================================================================== *)
(** * A small machine to run the model on                                 *)
(* ===================================================================== *)

(** A flat table from paths to nodes, enough to run the functions above on
    concrete inputs.  Opening a file fails on a directory; creating a
    directory fails on a file; the decoder reads the configuration off the
    file's content, given as a function. *)
Module Toy.

Inductive node : Type :=
| Directory
| File (content : string)
| Link (target : string).

Abbreviation machine := (gmap string node).

Section Instances.
Variable decode : string -> Config.t -> result Config.t.

Definition toy_Stat (path : string) (m : machine) : result FileInfo :=
  match m !! path with
  | Some Directory => Ok (mkFileInfo true false)
  | Some (File _) => Ok (mkFileInfo false true)
  | Some (Link _) => Ok (mkFileInfo false false)
  | None => Err ErrNotExist
  end.

Definition toy_MkdirAll (path : string) (mode : Z) (m : machine)
  : result unit * machine :=
  match m !! path with
  | Some Directory => (Ok tt, m)
  | Some _ => (Err (External "not a directory"), m)
  | None => (Ok tt, <[path := Directory]> m)
  end.

Definition toy_OpenFile (path : string) (mode : Z) (m : machine)
  : result unit * machine :=
  match m !! path with
  | Some Directory => (Err (External "is a directory"), m)
  | _ => (Ok tt, <[path := File ""]> m)
  end.

Definition toy_WriteString (path content : string) (m : machine)
  : result unit * machine :=
  (Ok tt, <[path := File content]> m).

Definition toy_Remove (path : string) (m : machine) : result unit * machine :=
  match m !! path with
  | Some _ => (Ok tt, delete path m)
  | None => (Err ErrNotExist, m)
  end.

Definition toy_Symlink (target linkPath : string) (m : machine)
  : result unit * machine :=
  match m !! linkPath with
  | Some _ => (Err (External "file exists"), m)
  | None => (Ok tt, <[linkPath := Link target]> m)
  end.

Definition toy_DecodeFile (path : string) (cfg : Config.t) (m : machine)
  : result Config.t :=
  match m !! path with
  | Some (File content) => decode content cfg
  | Some _ => Err (External "is a directory")
  | None => Err ErrNotExist
  end.

#[local] Instance os : OS machine := {|
  os_Stat := toy_Stat;
  os_MkdirAll := toy_MkdirAll;
  os_OpenFile := toy_OpenFile;
  file_WriteString := toy_WriteString;
  os_Remove := toy_Remove;
  os_Symlink := toy_Symlink;
  time_Now := fun _ => "20250101-000000";
  toml_DecodeFile := toy_DecodeFile;
  CopyFile := fun src dst m =>
    match m !! src with
    | Some n => (Ok tt, <[dst := n]> m, [])
    | None => (Err ErrNotExist, m, [])
    end;
|}.

(** a document generator that writes its document through [CreateFile] *)
Definition toy_Generate (name content : string) (fsOps : FileSystemOperations.t)
    (ctx : GenerationContext.t) : Effect machine (result unit) :=
  effectOf
    (CreateFile fsOps (filepath.Join [GenerationContext.ProjectPath ctx; name])
       content 420).

#[local] Instance collaborators : Collaborators machine := {|
  GenerateReadme := fun fsOps _ _ ctx => toy_Generate "README.md" "# readme" fsOps ctx;
  GenerateGitignore := fun fsOps _ _ ctx lang => toy_Generate ".gitignore" lang fsOps ctx;
  GenerateLicense := fun fsOps _ _ ctx kind => toy_Generate "LICENSE" kind fsOps ctx;
  InitRepository := fun dryRun _ _ _ path _ =>
    effectOf (if dryRun then ret (Ok tt)
              else act (toy_MkdirAll (filepath.Join [path; ".git"]) 493));
  AddRemote := fun _ _ _ _ _ _ _ m => (Ok tt, m, []);
  CreateInitialCommit := fun _ _ _ _ _ _ m => (Ok tt, m, []);
  Launch := fun _ _ _ _ _ m => (Ok tt, m, []);
  pterm_Confirm := fun d _ m => (Ok d, m, []);
|}.

End Instances.

(** a process in [/work], home directory [/home/user] *)
Definition env : Env :=
  mkEnv (Ok "/home/user") (Ok "/home/user") (Ok "/work") "/tmp".

End Toy.

(* ===================================================================== *)
(** * Sample inputs                                                       *)
(* ===================================================================== *)

Module Sample.

(** no flag given *)
Definition noFlags : MkcdFlags.t :=
  MkcdFlags.mk false "" "" "" false [] false "" "" "" "" "" false "".

(** [mkcd proj --editor vim] *)
Definition editorVim : MkcdFlags.t :=
  MkcdFlags.mk false "" "" "vim" false [] false "" "" "" "" "" false "".

(** [mkcd proj --gitignore python] *)
Definition gitignorePython : MkcdFlags.t :=
  MkcdFlags.mk false "" "" "" false [] false "python" "" "" "" "" false "".

(** the profile [nodejs] of the default configuration *)
Definition nodejs : ProfileConfig.t :=
  ProfileConfig.mk true true false "node" "nodejs" ["package.json"; "index.js"] "".

(** the path validator [runMkcd] builds from the default configuration *)
Definition defaultValidator : utils.PathValidator :=
  let safety := Config.Safety (config.DefaultConfig Toy.env) in
  utils.NewPathValidator (SafetyConfig.ForbiddenPaths safety)
    (SafetyConfig.MaxDepth safety).

End Sample.

(* ===================================================================== *)
(** * Notions of the specification: configuration sources and rules       *)
(* ===================================================================== *)

Section SourceNotions.
Context {F : Type} `{!OS F}.

(** A configuration source exists at a locator unless the lookup of the
    path fails with a does-not-exist error. *)
Definition sourceExists (located : string) (w : World F) : bool :=
  match os_Stat located (fs w) with
  | Ok _ => true
  | Err e => negb (os_IsNotExist e)
  end.

End SourceNotions.

(** The locator [Load] and the validation report read: the path given, or
    the default path when none is given. *)
Definition locates (env : Env) (configPath located : string) : Prop :=
  (configPath <> "" /\ located = configPath)
  \/ (configPath = "" /\ config.GetConfigPath env = Ok located).

(** The collecting validation the specification describes: every violated
    rule, in the order of the rules. *)
Definition allViolations (c : Config.t) : list error :=
  let name := CoreConfig.DefaultProfile (Config.Core c) in
  ((if (CoreConfig.HistoryLimit (Config.Core c) <? 0)%Z then [ErrHistoryLimit] else [])
   ++ (if (SafetyConfig.MaxDepth (Config.Safety c) <? 1)%Z then [ErrMaxDepth] else [])
   ++ (if negb (String.eqb name "")
          && negb (bool_decide (is_Some (Config.Profiles c !! name)))
       then [ErrDefaultProfileMissing name] else [])
   ++ map ErrForbiddenNotAbsolute
        (List.filter (fun p => negb (filepath.IsAbs p))
           (SafetyConfig.ForbiddenPaths (Config.Safety c))))%list.

Module SampleConfig.

(** a configuration file that sets a negative history limit and a
    maximum depth of zero *)
Definition twoViolationsText : string := "history_limit = -1, max_depth = 0".

Definition withLimits (historyLimit maxDepth : Z) (c : Config.t) : Config.t :=
  let core := Config.Core c in
  let safety := Config.Safety c in
  Config.mk
    (CoreConfig.mk (CoreConfig.DefaultProfile core) (CoreConfig.Editor core)
       (CoreConfig.ShellIntegration core) historyLimit
       (CoreConfig.BackupEnabled core) (CoreConfig.TempDir core))
    (Config.Git c) (Config.Templates c)
    (SafetyConfig.mk (SafetyConfig.ConfirmOverwrites safety)
       (SafetyConfig.ConfirmDeletes safety) maxDepth
       (SafetyConfig.ForbiddenPaths safety))
    (Config.Output c) (Config.Profiles c).

(** a decoder that understands the empty file and the file above and
    finds a syntax error in any other *)
Definition decode (content : string) (c : Config.t) : result Config.t :=
  if String.eqb content "" then Ok c
  else if String.eqb content twoViolationsText then Ok (withLimits (-1) 0 c)
  else Err (External "toml: syntax error").

Definition configPath : string := "/home/user/.config/mkcd/mkcd.conf".

(** a machine without a configuration file *)
Definition fresh : World Toy.machine := mkWorld ∅ [].

(** machines whose configuration file is broken, or violates two rules *)
Definition broken : World Toy.machine :=
  mkWorld {[ configPath := Toy.File "[core" ]} [].

Definition twoViolations : World Toy.machine :=
  mkWorld {[ configPath := Toy.File twoViolationsText ]} [].

Definition flags : GlobalFlags.t :=
  GlobalFlags.mk "" "" false false false false false false false.

End SampleConfig.

(* ===================================================================== *)
(** * Notions of the specification                                        *)
(* ===================================================================== *)

(** A path segment: a non-empty name without a separator. *)
Definition segment (s : string) : Prop :=
  s <> "" /\ strings.Count s filepath.Separator = 0%Z.

(** The relative path [s1/.../sn] and the absolute path [/s1/.../sn] made
    of the segments [s1 ... sn]. *)
Definition relativePath (segs : list string) : string :=
  strings.Join segs filepath.sep.

Definition absolutePath (segs : list string) : string :=
  filepath.sep ++ strings.Join segs filepath.sep.

(** A forbidden entry [f] matches a path: the path is [f] or lies under
    [f] followed by a separator. *)
Definition matchesForbidden (f path : string) : bool :=
  String.eqb path f || strings.HasPrefix path (f ++ filepath.sep).

(** What [filepath.Clean] keeps in its output: non-empty elements that do
    not start with a separator. *)
Definition kept (e : string) : Prop :=
  e <> "" /\ strings.HasPrefix e filepath.sep = false.

(** The two lines the validation report prints when loading fails. *)
Definition reportOfFailure (located : string) (v : error) : list Msg :=
  [ mkMsg PInfo (Sprintf "Validating configuration: %s" [AStr located]);
    mkMsg PError (Sprintf "Configuration validation failed: %v"
                    [AErr (Wrap "invalid configuration" v)]) ].

(* ===================================================================== *)
(** * Notions of the specification: reports and sample runs               *)
(* ===================================================================== *)

(** the warning [createDirectoryStructure] gives for a file it could not
    create *)
Definition touchWarning (fileName : string) (e : error) : Text :=
  Sprintf "Failed to create file %s: %v" [AStr fileName; AErr e].

(** what the dry run prints in place of creating a directory or a file *)
Definition wouldCreateDirectory (path : string) (mode : Z) : Msg :=
  mkMsg PInfo
    (Sprintf "[DRY RUN] Would create directory: %s (mode: %o)" [AStr path; AInt mode]).

Definition wouldCreateFile (path content : string) : Msg :=
  mkMsg PInfo
    (Sprintf "[DRY RUN] Would create file: %s (size: %d bytes)"
       [AStr path; AInt (Z.of_nat (String.length content))]).

(** what the dry run prints in place of a backup or a symbolic link *)
Definition wouldBackupFile (path : string) : Msg :=
  mkMsg PInfo (Sprintf "[DRY RUN] Would backup file: %s" [AStr path]).

Definition wouldCreateSymlink (target linkPath : string) : Msg :=
  mkMsg PInfo
    (Sprintf "[DRY RUN] Would create symlink: %s -> %s" [AStr linkPath; AStr target]).

(** The invocation turns the editor on: by the auto-detect flag
    [--open-editor], or by naming an editor with [--editor]. *)
Definition opensEditor (fl : MkcdFlags.t) : bool :=
  MkcdFlags.editorFlag fl || negb (String.eqb (MkcdFlags.editorName fl) "").

(** A computation only adds to what has been printed. *)
Definition appends {F A : Type} (c : M (World F) A) : Prop :=
  forall w, exists more, out (snd (c w)) = (out w ++ more)%list.

Module SampleRun.

Definition os : OS Toy.machine := Toy.os SampleConfig.decode.
Definition collaborators : Collaborators Toy.machine :=
  Toy.collaborators SampleConfig.decode.

(** [mkcd proj --touch sub,main.go --readme] *)
Definition flags : MkcdFlags.t :=
  MkcdFlags.mk false "" "" "" false ["sub"; "main.go"] true "" "" "" "" "" false "".

Definition plan : MkcdConfig.t := mergeConfigWithFlags flags ProfileConfig.zero.

Definition outputMgr : OutputManager.t :=
  NewOutputManager true true true false false false.

Definition fsOps : FileSystemOperations.t := NewFileSystemOperations false false.
Definition dryOps : FileSystemOperations.t := NewFileSystemOperations true false.

(** the target exists and holds a directory where a file is to be
    touched *)
Definition existing : World Toy.machine :=
  mkWorld {[ "/work/proj" := Toy.Directory; "/work/proj/sub" := Toy.Directory ]} [].

(** a directory sits where the readme is to be written *)
Definition blocked : World Toy.machine :=
  mkWorld {[ "/work/proj/README.md" := Toy.Directory ]} [].

(** a regular file sits at the target *)
Definition occupied : World Toy.machine :=
  mkWorld {[ "/work/proj" := Toy.File "notes" ]} [].

End SampleRun.

(* ===================================================================== *)
(** * More of package utils: paths                                        *)
(* ===================================================================== *)

Module strings2.

(** [strings.HasSuffix(s, suffix)] *)
Fixpoint HasSuffix (s suffix : string) : bool :=
  String.eqb s suffix
  || match s with
     | EmptyString => false
     | String _ s' => HasSuffix s' suffix
     end.

End strings2.

Module utils2.

(** [JoinPaths] (internal/utils/path.go) *)
Definition JoinPaths (paths : list string) : string :=
  match paths with
  | [] => ""
  | first :: rest =>
      filepath.Clean
        (fold_left (fun result path => filepath.Join [result; path]) rest first)
  end.

(** [IsSubPath] (internal/utils/path.go) *)
Definition IsSubPath (env : Env) (parent child : string) : result bool :=
  match utils.GetAbsolutePath env parent with
  | Err e => Err (Wrap "failed to get absolute parent path" e)
  | Ok absParent =>
      match utils.GetAbsolutePath env child with
      | Err e => Err (Wrap "failed to get absolute child path" e)
      | Ok absChild =>
          let absParent :=
            if negb (strings2.HasSuffix absParent filepath.sep)
            then absParent ++ filepath.sep
            else absParent in
          Ok (strings.HasPrefix absChild absParent)
      end
  end.

(** The [fmt.Errorf] sites of [ValidateDirectoryName]. *)
Inductive nameError : Type :=
| ErrNameEmpty
| ErrNameDots
| ErrNameReserved (name : string)
| ErrNameInvalidChar (char : string)
| ErrNameTooLong.

Definition reservedNames : list string :=
  ["CON"; "PRN"; "AUX"; "NUL";
   "COM1"; "COM2"; "COM3"; "COM4"; "COM5"; "COM6"; "COM7"; "COM8"; "COM9";
   "LPT1"; "LPT2"; "LPT3"; "LPT4"; "LPT5"; "LPT6"; "LPT7"; "LPT8"; "LPT9"].

(** slash, backslash, colon, star, question mark, double quote, the
    angle brackets and the bar *)
Definition invalidChars : list string :=
  ["/"; "\"; ":"; "*"; "?"; String (Ascii.ascii_of_nat 34) EmptyString; "<"; ">"; "|"].

(** [ValidateDirectoryName] (internal/utils/path.go); [None] is the nil
    error.  [ToUpper] is [strings.ToUpper], a parameter. *)
Definition ValidateDirectoryName (ToUpper : string -> string) (name : string)
  : option nameError :=
  if String.eqb name "" then Some ErrNameEmpty
  else if String.eqb name "." || String.eqb name ".." then Some ErrNameDots
  else
    let upperName := ToUpper name in
    if existsb (String.eqb upperName) reservedNames
    then Some (ErrNameReserved name)
    else
      match List.find (strings.Contains name) invalidChars with
      | Some char => Some (ErrNameInvalidChar char)
      | None =>
          if (255 <? String.length name)%nat then Some ErrNameTooLong
          else None
      end.

End utils2.

(** A proper element of a cleaned path: a segment other than [.]. *)
Definition cleanElem (e : string) : Prop := segment e /\ e <> ".".

(** The elements of a cleaned relative path: parent-directory elements
    first, then elements that are none. *)
Definition dotsFirst (l : list string) : Prop :=
  exists dots reals,
    l = (dots ++ reals)%list
    /\ Forall (fun e => e = "..") dots /\ Forall (fun e => e <> "..") reals.

(** the stack of [filepath.Clean] holds proper elements only; on a rooted
    path none is a parent-directory element, on a relative path those lie
    at the bottom *)
Definition stackOK (rooted : bool) (out : list string) : Prop :=
  Forall cleanElem out
  /\ if rooted then Forall (fun e => e <> "..") out
     else exists reals dots,
         out = (reals ++ dots)%list
         /\ Forall (fun e => e = "..") dots /\ Forall (fun e => e <> "..") reals.


(** [ps] is a proper prefix of [cs], element by element. *)
Fixpoint properPrefix (ps cs : list string) : bool :=
  match ps, cs with
  | [], _ :: _ => true
  | p :: ps', c :: cs' => String.eqb p c && properPrefix ps' cs'
  | _, _ => false
  end.

(** An element of a cleaned rooted path. *)
Definition rootedElem (e : string) : Prop := cleanElem e /\ e <> "..".

(** The three patterns of [checkDangerousCharacters] that can match a
    sanitized path. *)
Definition dangerous (path : string) : bool :=
  utils.hasNullByte path || utils.hasInvalidFilenameChar path
  || utils.hasOuterWhitespace path.

(** The four rules of [Config.Validate]. *)
Definition wellFormed (c : Config.t) : Prop :=
  (0 <= CoreConfig.HistoryLimit (Config.Core c))%Z
  /\ (1 <= SafetyConfig.MaxDepth (Config.Safety c))%Z
  /\ (CoreConfig.DefaultProfile (Config.Core c) = ""
      \/ is_Some (Config.Profiles c !! CoreConfig.DefaultProfile (Config.Core c)))
  /\ Forall (fun p => filepath.IsAbs p = true)
            (SafetyConfig.ForbiddenPaths (Config.Safety c)).

(** The key of the registry that [GetProfile] reads for a name. *)
Definition resolved (c : Config.t) (name : string) : string :=
  if String.eqb name "" then CoreConfig.DefaultProfile (Config.Core c) else name.

(** A proper element that holds no two dots in a row. *)
Definition plainElem (e : string) : Prop :=
  segment e /\ e <> "." /\ strings.Contains e ".." = false.

(* ===================================================================== *)
(** * Package config: saving                                              *)
(* ===================================================================== *)

(** What [Save] asks of the operating system and of the TOML encoder
    beyond the operations above.  Nothing is assumed about them. *)
Class ConfigStore (F : Type) : Type := {
  (** [os.Create(path)] *)
  os_Create : string -> F -> result unit * F;
  (** [toml.NewEncoder(file).Encode(c)] on the file created at the path *)
  toml_Encode : string -> Config.t -> F -> result unit * F;
}.

Section Saving.
Context {F : Type} `{!OS F} `{!ConfigStore F}.

Local Abbreviation ST := (M (World F)).

(** [Config.Save]; the deferred [file.Close] is not modelled. *)
Definition Save (env : Env) (c : Config.t) (configPath : string)
  : ST (result unit) :=
  let located :=
    if String.eqb configPath "" then
      match config.GetConfigPath env with
      | Err e => Err (Wrap "failed to determine config path" e)
      | Ok p => Ok p
      end
    else Ok configPath in
  match located with
  | Err e => ret (Err e)
  | Ok configPath =>
      let configDir := filepathDir.Dir configPath in
      let* r := act (os_MkdirAll configDir 493 (* 0755 *)) in
      match r with
      | Err e =>
          ret (Err (Wrap ("failed to create config directory " ++ configDir) e))
      | Ok _ =>
          let* r := act (os_Create configPath) in
          match r with
          | Err e =>
              ret (Err (Wrap ("failed to create config file " ++ configPath) e))
          | Ok _ =>
              let* r := act (toml_Encode configPath c) in
              match r with
              | Err e => ret (Err (Wrap "failed to encode config to TOML" e))
              | Ok _ =>
                  emit PSuccess "Configuration saved to %s" [AStr configPath];;
                  ret (Ok tt)
              end
          end
      end
  end.

End Saving.

(* ===================================================================== *)
(** * Package cmd: the configuration and profile commands                 *)
(* ===================================================================== *)

(** The [fmt.Errorf] sites of the commands below; [Caused ctx e] is
    [fmt.Errorf(ctx + ": %w", e)] over an error of the packages above. *)
Inductive commandError : Type :=
| Caused (ctx : string) (cause : error)
| ErrConfigExists (configPath : string)
| ErrNoSuchProfile (name : string)
| ErrNoSourceProfile (name : string)
| ErrDestinationExists (name : string).

(** What a command returns: [Done] is the nil error. *)
Inductive outcome : Type :=
| Done
| Failed (e : commandError).

Section Commands.
Context {F : Type} `{!OS F} `{!Collaborators F} `{!ConfigStore F}.

Local Abbreviation ST := (M (World F)).

(** the configuration path of the commands that do not load: the flag,
    or the default path *)
Definition commandConfigPath (env : Env) (gf : GlobalFlags.t)
  : commandError + string :=
  if String.eqb (GlobalFlags.cfgFile gf) "" then
    match config.GetConfigPath env with
    | Err e => inl (Caused "failed to get config path" e)
    | Ok p => inr p
    end
  else inr (GlobalFlags.cfgFile gf).

(** the output manager a command builds from a loaded configuration *)
Definition outputManagerOf (cfg : Config.t) (gf : GlobalFlags.t) : OutputManager.t :=
  NewOutputManager
    (OutputConfig.Colors (Config.Output cfg)) (OutputConfig.Icons (Config.Output cfg))
    (OutputConfig.ProgressBars (Config.Output cfg))
    (GlobalFlags.quiet gf) (GlobalFlags.verbose gf) (GlobalFlags.debug gf).

(** the end shared by the commands: save, and report *)
Definition saveAndReport (env : Env) (cfg : Config.t) (configPath : string)
    (report : ST unit) : ST outcome :=
  let* r := Save env cfg configPath in
  match r with
  | Err e => ret (Failed (Caused "failed to save configuration" e))
  | Ok _ => report;; ret Done
  end.

(** [runConfigInit] *)
Definition runConfigInit (env : Env) (gf : GlobalFlags.t) : ST outcome :=
  let outputMgr :=
    NewOutputManager true true true (GlobalFlags.quiet gf)
      (GlobalFlags.verbose gf) (GlobalFlags.debug gf) in
  match commandConfigPath env gf with
  | inl e => ret (Failed e)
  | inr configPath =>
      let* st := query (os_Stat configPath) in
      let* refused :=
        match st with
        | Ok _ =>
            if negb (GlobalFlags.force gf) then ret (Some (ErrConfigExists configPath))
            else
              om_Warning outputMgr
                (Sprintf "Overwriting existing configuration file" []);;
              ret None
        | Err _ => ret None
        end in
      match refused with
      | Some e => ret (Failed e)
      | None =>
          let cfg := config.DefaultConfig env in
          saveAndReport env cfg configPath
            (om_Success outputMgr
               (Sprintf "Configuration initialized at %s" [AStr configPath]);;
             om_Info outputMgr
               (Sprintf "You can now edit the configuration with: mkcd config edit" []))
      end
  end.

(** the confirmation of a destructive command: [None] to go on, or the
    outcome to return *)
Definition confirmUnlessForced (gf : GlobalFlags.t) (outputMgr : OutputManager.t)
    (question cancelled : Text) : ST (option outcome) :=
  if negb (GlobalFlags.force gf) then
    let* c := om_Confirm outputMgr question false in
    match c with
    | Err e => ret (Some (Failed (Caused "failed to get confirmation" e)))
    | Ok confirmed =>
        if negb confirmed then om_Info outputMgr cancelled;; ret (Some Done)
        else ret None
    end
  else ret None.

(** [runConfigReset] *)
Definition runConfigReset (env : Env) (gf : GlobalFlags.t) : ST outcome :=
  let outputMgr :=
    NewOutputManager true true true (GlobalFlags.quiet gf)
      (GlobalFlags.verbose gf) (GlobalFlags.debug gf) in
  match commandConfigPath env gf with
  | inl e => ret (Failed e)
  | inr configPath =>
      let* stop :=
        confirmUnlessForced gf outputMgr
          (Sprintf
             "Reset configuration to defaults? This will overwrite your current settings."
             [])
          (Sprintf "Reset cancelled" []) in
      match stop with
      | Some o => ret o
      | None =>
          let cfg := config.DefaultConfig env in
          saveAndReport env cfg configPath
            (om_Success outputMgr
               (Sprintf "Configuration reset to defaults: %s" [AStr configPath]))
      end
  end.

(** [runProfileDelete] *)
Definition runProfileDelete (env : Env) (gf : GlobalFlags.t) (profileName : string)
  : ST outcome :=
  let* loaded := Load env (GlobalFlags.cfgFile gf) in
  match loaded with
  | Err e => ret (Failed (Caused "failed to load configuration" e))
  | Ok cfg =>
      let outputMgr := outputManagerOf cfg gf in
      if negb (bool_decide (is_Some (Config.Profiles cfg !! profileName)))
      then ret (Failed (ErrNoSuchProfile profileName))
      else
        let* stop :=
          confirmUnlessForced gf outputMgr
            (Sprintf "Delete profile '%s'?" [AStr profileName])
            (Sprintf "Deletion cancelled" []) in
        match stop with
        | Some o => ret o
        | None =>
            match config.DeleteProfile cfg profileName with
            | (Err e, _) => ret (Failed (Caused "failed to delete profile" e))
            | (Ok _, cfg) =>
                saveAndReport env cfg (GlobalFlags.cfgFile gf)
                  (om_Success outputMgr
                     (Sprintf "Profile '%s' deleted successfully" [AStr profileName]))
            end
        end
  end.

(** [runProfileCopy] *)
Definition runProfileCopy (env : Env) (gf : GlobalFlags.t)
    (sourceProfile destProfile : string) : ST outcome :=
  let* loaded := Load env (GlobalFlags.cfgFile gf) in
  match loaded with
  | Err e => ret (Failed (Caused "failed to load configuration" e))
  | Ok cfg =>
      let outputMgr := outputManagerOf cfg gf in
      match Config.Profiles cfg !! sourceProfile with
      | None => ret (Failed (ErrNoSourceProfile sourceProfile))
      | Some sourceConfig =>
          let* refused :=
            if bool_decide (is_Some (Config.Profiles cfg !! destProfile)) then
              if negb (GlobalFlags.force gf)
              then ret (Some (ErrDestinationExists destProfile))
              else
                om_Warning outputMgr
                  (Sprintf "Overwriting existing profile '%s'" [AStr destProfile]);;
                ret None
            else ret None in
          match refused with
          | Some e => ret (Failed e)
          | None =>
              let cfg := config.SetProfile cfg destProfile sourceConfig in
              saveAndReport env cfg (GlobalFlags.cfgFile gf)
                (om_Success outputMgr
                   (Sprintf "Profile '%s' copied to '%s'"
                      [AStr sourceProfile; AStr destProfile]))
          end
      end
  end.

End Commands.

(** What decoding gives when the file holds a whole configuration and
    is decoded over a configuration [cfg], as [Load] decodes over the
    default one: every setting is the file's; the decoder fills the
    registry it is given entry by entry, so the registry is the file's
    profiles together with the profiles of [cfg] under the names the
    file does not hold. *)
Definition overlay (file cfg : Config.t) : Config.t :=
  Config.withProfiles file (Config.Profiles file ∪ Config.Profiles cfg).

(** A small machine that stores configurations: a path holds a file,
    with the configuration encoded in it if there is one. *)
Module Shelf.

Abbreviation machine := (gmap string (option Config.t)).

Definition shelf_Stat (path : string) (m : machine) : result FileInfo :=
  match m !! path with
  | Some _ => Ok (mkFileInfo false true)
  | None => Err ErrNotExist
  end.

(** decoding lays the configuration the file holds over the given one;
    a file that holds none leaves the given one *)
Definition shelf_DecodeFile (path : string) (cfg : Config.t) (m : machine)
  : result Config.t :=
  match m !! path with
  | Some (Some c) => Ok (overlay c cfg)
  | Some None => Ok cfg
  | None => Err ErrNotExist
  end.

#[local] Instance os : OS machine := {|
  os_Stat := shelf_Stat;
  os_MkdirAll := fun _ _ m => (Ok tt, m);
  os_OpenFile := fun path _ m => (Ok tt, <[path := None]> m);
  file_WriteString := fun _ _ m => (Ok tt, m);
  os_Remove := fun path m => (Ok tt, delete path m);
  os_Symlink := fun _ _ m => (Err (External "not supported"), m);
  time_Now := fun _ => "20250101-000000";
  toml_DecodeFile := shelf_DecodeFile;
  CopyFile := fun src dst m =>
    match m !! src with
    | Some n => (Ok tt, <[dst := n]> m, [])
    | None => (Err ErrNotExist, m, [])
    end;
|}.

#[local] Instance store : ConfigStore machine := {|
  os_Create := fun path m => (Ok tt, <[path := None]> m);
  toml_Encode := fun path c m => (Ok tt, <[path := Some c]> m);
|}.

(** collaborators that do nothing; the confirmation answers yes *)
#[local] Instance collaborators : Collaborators machine := {|
  GenerateReadme := fun _ _ _ _ m => (Ok tt, m, []);
  GenerateGitignore := fun _ _ _ _ _ m => (Ok tt, m, []);
  GenerateLicense := fun _ _ _ _ _ m => (Ok tt, m, []);
  InitRepository := fun _ _ _ _ _ _ m => (Ok tt, m, []);
  AddRemote := fun _ _ _ _ _ _ _ m => (Ok tt, m, []);
  CreateInitialCommit := fun _ _ _ _ _ _ m => (Ok tt, m, []);
  Launch := fun _ _ _ _ _ m => (Ok tt, m, []);
  pterm_Confirm := fun _ _ m => (Ok true, m, []);
|}.

(** no configuration file yet *)
Definition empty : World machine := mkWorld ∅ [].

(** [--quiet] *)
Definition quietFlags : GlobalFlags.t :=
  GlobalFlags.mk "" "" false false true false false false false.

(** [--force] *)
Definition forceFlags : GlobalFlags.t :=
  GlobalFlags.mk "" "" false false false false true false false.

End Shelf.

(** A store keeps what is encoded into it: after a configuration has
    been encoded at a path, the path is found, and decoding it over a
    configuration lays the encoded configuration over that one.  This is
    how the TOML encoder and decoder treat the configurations the
    program saves, the default one and the loaded ones as the registry
    operations leave them: the encoder writes every setting and every
    profile, none of them being a nil list. *)
Definition keepsWhatItEncodes (F : Type) `{!OS F} `{!ConfigStore F} : Prop :=
  forall path c f f',
    toml_Encode path c f = (Ok tt, f') ->
    isOk (os_Stat path f') = true
    /\ forall d, toml_DecodeFile path d f' = Ok (overlay c d).

(* ===================================================================== *)
(** * Package editor: detection                                           *)
(* ===================================================================== *)

From Stdlib Require Import Sorting.Sorted.

Module EditorInfo.
Record t : Type := mk {
  Name : string;
  Command : string;
  Args : list string;
  Description : string;
  Priority : Z;
}.
End EditorInfo.

(** What the detector asks of its platform: [runtime.GOOS], whether
    [exec.LookPath] finds a command, and [os.Getenv]. *)
Record Platform : Type := mkPlatform {
  GOOS : string;
  LookPath : string -> bool;
  Getenv : string -> string;
}.

Module editor.

(** the table of [GetAvailableEditors] *)
Definition editors : list EditorInfo.t :=
  [ EditorInfo.mk "Visual Studio Code" "code" [] "Microsoft Visual Studio Code" 100;
    EditorInfo.mk "VSCode Insiders" "code-insiders" [] "Visual Studio Code Insiders" 95;
    EditorInfo.mk "Cursor" "cursor" [] "Cursor AI Editor" 90;
    EditorInfo.mk "Sublime Text" "subl" [] "Sublime Text" 85;
    EditorInfo.mk "Atom" "atom" [] "GitHub Atom" 80;
    EditorInfo.mk "WebStorm" "webstorm" [] "JetBrains WebStorm" 75;
    EditorInfo.mk "IntelliJ IDEA" "idea" [] "JetBrains IntelliJ IDEA" 75;
    EditorInfo.mk "GoLand" "goland" [] "JetBrains GoLand" 75;
    EditorInfo.mk "PyCharm" "pycharm" [] "JetBrains PyCharm" 75;
    EditorInfo.mk "Neovim" "nvim" [] "Neovim" 60;
    EditorInfo.mk "Vim" "vim" [] "Vim" 55;
    EditorInfo.mk "Emacs" "emacs" [] "GNU Emacs" 50;
    EditorInfo.mk "Nano" "nano" [] "GNU Nano" 30;
    EditorInfo.mk "TextEdit" "open" ["-a"; "TextEdit"] "macOS TextEdit" 20;
    EditorInfo.mk "Notepad" "notepad" [] "Windows Notepad" 10 ].

(** [editor.Command == "open" && len(editor.Args) > 0 && editor.Args[0] == "-a"] *)
Definition opensApplication (editor : EditorInfo.t) : bool :=
  String.eqb (EditorInfo.Command editor) "open"
  && match EditorInfo.Args editor with
     | [] => false
     | arg :: _ => String.eqb arg "-a"
     end.

(** [isEditorAvailable] *)
Definition isEditorAvailable (pf : Platform) (editor : EditorInfo.t) : bool :=
  let excluded :=
    if String.eqb (GOOS pf) "darwin"
    then String.eqb (EditorInfo.Command editor) "notepad"
    else if String.eqb (GOOS pf) "windows" then opensApplication editor
    else if String.eqb (GOOS pf) "linux"
    then String.eqb (EditorInfo.Command editor) "notepad" || opensApplication editor
    else false in
  if excluded then false else LookPath pf (EditorInfo.Command editor).

(** the body of the inner loop: the elements at [i] and [j] are
    exchanged when the first has the lower priority; the indices stay
    below the length *)
Definition compareExchange (i j : nat) (l : list EditorInfo.t) : list EditorInfo.t :=
  match l !! i, l !! j with
  | Some a, Some b =>
      if (EditorInfo.Priority a <? EditorInfo.Priority b)%Z
      then <[i := b]> (<[j := a]> l) else l
  | _, _ => l
  end.

(** the inner loop of the sort at [i]: [count] rounds from [j] on *)
Fixpoint sortInner (i j count : nat) (l : list EditorInfo.t) : list EditorInfo.t :=
  match count with
  | O => l
  | S count' => sortInner i (S j) count' (compareExchange i j l)
  end.

(** the outer loop of the sort: [count] rounds from [i] on *)
Fixpoint sortOuter (i count : nat) (l : list EditorInfo.t) : list EditorInfo.t :=
  match count with
  | O => l
  | S count' =>
      sortOuter (S i) count' (sortInner i (S i) (List.length l - S i) l)
  end.

(** the sort of [GetAvailableEditors]: [i] from 0 while [i < len - 1],
    [j] from [i + 1] while [j < len] *)
Definition sortByPriority (l : list EditorInfo.t) : list EditorInfo.t :=
  sortOuter 0 (List.length l - 1) l.

(** [GetAvailableEditors] *)
Definition GetAvailableEditors (pf : Platform) : list EditorInfo.t :=
  let filteredEditors := List.filter (isEditorAvailable pf) editors in
  sortByPriority filteredEditors.

(** The [fmt.Errorf] site of [DetectEditor]. *)
Inductive detectError : Type :=
| ErrNoEditors.

(** [DetectEditor]: the editor or the error, and what is printed. *)
Definition DetectEditor {F : Type} (pf : Platform) (verbose : bool)
  : M (World F) (detectError + EditorInfo.t) :=
  let envEditor := Getenv pf "EDITOR" in
  if negb (String.eqb envEditor "") then
    (if verbose
     then emit PDebug "Using editor from EDITOR environment variable: %s"
            [AStr envEditor]
     else ret tt);;
    ret (inr (EditorInfo.mk "Environment Editor" envEditor []
                "Editor from EDITOR environment variable" 1000))
  else
    let envEditor := Getenv pf "VISUAL" in
    if negb (String.eqb envEditor "") then
      (if verbose
       then emit PDebug "Using editor from VISUAL environment variable: %s"
              [AStr envEditor]
       else ret tt);;
      ret (inr (EditorInfo.mk "Visual Editor" envEditor []
                  "Editor from VISUAL environment variable" 999))
    else
      match GetAvailableEditors pf with
      | [] => ret (inl ErrNoEditors)
      | bestEditor :: _ =>
          (if verbose
           then emit PDebug "Auto-detected editor: %s (%s)"
                  [AStr (EditorInfo.Name bestEditor);
                   AStr (EditorInfo.Command bestEditor)]
           else ret tt);;
          ret (inr bestEditor)
      end.

End editor.

(** One editor is preferred at least as much as another. *)
Definition atLeast (a b : EditorInfo.t) : Prop :=
  (EditorInfo.Priority b <= EditorInfo.Priority a)%Z.

(** A list of editors in which the priorities never rise. *)
Definition descending (l : list EditorInfo.t) : Prop := StronglySorted atLeast l.

(** Every position before [i] holds an editor preferred at least as
    much as every editor after it *)
Definition settled (i : nat) (l : list EditorInfo.t) : Prop :=
  forall p q a b,
    (p < q)%nat -> (p < i)%nat -> l !! p = Some a -> l !! q = Some b -> atLeast a b.

(** The editor at [i] is preferred at least as much as those after it
    and before [j] *)
Definition leads (i j : nat) (l : list EditorInfo.t) : Prop :=
  forall k b m,
    (i < k < j)%nat -> l !! k = Some b -> l !! i = Some m -> atLeast m b.

(* ===================================================================== *)
(* ===================================================================== *)
(** * Properties                                                          *)
(* ===================================================================== *)
(* ===================================================================== *)

#[local] Arguments String.append !_ _ / : simpl nomatch.

Example Clean_examples :
  filepath.Clean "a/../b" = "b" /\ filepath.Clean "/a//b/./c/.." = "/a/b"
  /\ filepath.Clean "../../x" = "../../x" /\ filepath.Clean "/../x" = "/x"
  /\ filepath.Clean "a/.." = "." /\ filepath.Clean "/" = "/"
  /\ filepath.Clean "a/b/../../../c" = "../c" /\ filepath.Clean "a..b/" = "a..b"
  /\ filepath.Join ["/home/u"; "proj"] = "/home/u/proj"
  /\ filepath.Join [""; "a"; ""; "b"] = "a/b".
Proof. repeat split; reflexivity. Qed.

(* ===================================================================== *)
(** * Strings                                                             *)
(* ===================================================================== *)

Section StringFacts.

Lemma HasPrefix_nil s : strings.HasPrefix s "" = true.
Proof. destruct s; reflexivity. Qed.

Lemma HasPrefix_app p s q :
  strings.HasPrefix (p ++ s) (p ++ q) = strings.HasPrefix s q.
Proof.
  induction p as [|c p IH]; simpl; [reflexivity|].
  rewrite Ascii.eqb_refl. exact IH.
Qed.

Lemma HasPrefix_self_app p s : strings.HasPrefix (p ++ s) p = true.
Proof.
  induction p as [|c p IH]; simpl; [apply HasPrefix_nil|].
  rewrite Ascii.eqb_refl. exact IH.
Qed.

Lemma HasPrefix_self p : strings.HasPrefix p p = true.
Proof.
  induction p as [|c p IH]; simpl; [reflexivity|].
  rewrite Ascii.eqb_refl. exact IH.
Qed.

(** a prefix of a prefix *)
Lemma HasPrefix_app_weaken s p q :
  strings.HasPrefix s (p ++ q) = true -> strings.HasPrefix s p = true.
Proof.
  revert s. induction p as [|c p IH]; intros s H; simpl in *.
  - apply HasPrefix_nil.
  - destruct s as [|d s]; simpl in *; [discriminate|].
    destruct (Ascii.eqb d c); simpl in *; [eauto | discriminate].
Qed.

(** the first byte of a non-empty string decides a one-byte prefix *)
Lemma HasPrefix_byte_app s t c :
  s <> "" ->
  strings.HasPrefix (s ++ t) (String c "") = strings.HasPrefix s (String c "").
Proof.
  intros Hne. destruct s as [|d s]; [congruence|].
  simpl. rewrite !HasPrefix_nil. reflexivity.
Qed.

Lemma Contains_of_prefix s p : strings.HasPrefix s p = true -> strings.Contains s p = true.
Proof. intros H. destruct s; simpl in *; rewrite H; reflexivity. Qed.

Lemma append_nil_r s : s ++ "" = s.
Proof. induction s; simpl; congruence. Qed.

Lemma append_assoc (a b c : string) : (a ++ b) ++ c = a ++ (b ++ c).
Proof. induction a; simpl; congruence. Qed.

Lemma append_eq_self_inv p s : p ++ s = p -> s = "".
Proof. induction p as [|c p IH]; simpl; intros H; [exact H|]. injection H. exact IH. Qed.

Lemma Count_nonneg s c : (0 <= strings.Count s c)%Z.
Proof. induction s as [|d s IH]; simpl; [lia|]. destruct (Ascii.eqb d c); lia. Qed.

Lemma Count_app a b c :
  strings.Count (a ++ b) c = (strings.Count a c + strings.Count b c)%Z.
Proof. induction a as [|d a IH]; simpl; [reflexivity|]. rewrite IH. lia. Qed.

Lemma segment_not_abs s : segment s -> strings.HasPrefix s filepath.sep = false.
Proof.
  intros [Hne Hc]. destruct s as [|d s]; [congruence|].
  simpl in *. pose proof (Count_nonneg s filepath.Separator).
  destruct (Ascii.eqb d filepath.Separator); [lia | reflexivity].
Qed.

End StringFacts.

(* ===================================================================== *)
(** * The depth check                                                     *)
(* ===================================================================== *)

Section Depth.

Lemma Count_Join segs :
  Forall segment segs -> segs <> [] ->
  strings.Count (strings.Join segs filepath.sep) filepath.Separator
  = (Z.of_nat (List.length segs) - 1)%Z.
Proof.
  induction 1 as [|s segs [Hne Hs] Hall IH]; intros Hnil; [congruence|].
  destruct segs as [|s' segs'].
  - simpl. rewrite Hs. lia.
  - change (strings.Join (s :: s' :: segs') filepath.sep)
      with (s ++ filepath.sep ++ strings.Join (s' :: segs') filepath.sep).
    rewrite !Count_app, Hs, IH by discriminate.
    simpl. lia.
Qed.

Lemma Join_segments_not_abs segs :
  Forall segment segs ->
  strings.HasPrefix (strings.Join segs filepath.sep) filepath.sep = false.
Proof.
  intros Hall. destruct Hall as [|s segs Hs Hall]; [reflexivity|].
  pose proof (segment_not_abs s Hs) as Hp.
  destruct segs as [|s' segs']; [exact Hp|].
  change (strings.Join (s :: s' :: segs') filepath.sep)
    with (s ++ filepath.sep ++ strings.Join (s' :: segs') filepath.sep).
  unfold filepath.sep in *.
  rewrite HasPrefix_byte_app by apply Hs. exact Hp.
Qed.

Lemma pathDepth_relative segs :
  Forall segment segs -> segs <> [] ->
  utils.pathDepth (relativePath segs) = (Z.of_nat (List.length segs) - 1)%Z.
Proof.
  intros Hall Hne. unfold utils.pathDepth, relativePath, filepath.IsAbs.
  rewrite Join_segments_not_abs by assumption.
  apply Count_Join; assumption.
Qed.

Lemma pathDepth_absolute segs :
  Forall segment segs -> segs <> [] ->
  utils.pathDepth (absolutePath segs) = (Z.of_nat (List.length segs) - 1)%Z.
Proof.
  intros Hall Hne. unfold utils.pathDepth, absolutePath, filepath.IsAbs.
  rewrite HasPrefix_self_app, Count_app, Count_Join by assumption.
  simpl. lia.
Qed.

Lemma checkPathDepth_spec pv path :
  utils.checkPathDepth pv path
  = if (utils.pathDepth path >? utils.MaxDepth pv)%Z
    then Err (ErrDepth (utils.pathDepth path) (utils.MaxDepth pv) path)
    else Ok tt.
Proof. reflexivity. Qed.

End Depth.

(** C2 (amended).  For a path of [n >= 1] segments, relative or absolute,
    the depth the check computes is [n - 1]: the separators, the root
    separator not counted.  So the check accepts a path of exactly
    [MaxDepth + 1] segments and rejects one of [MaxDepth + 2]; it accepts
    exactly when [n <= MaxDepth + 1]. *)
Theorem checkPathDepth_boundary
    (pv : utils.PathValidator) (segs : list string) (path : string)
    (Hsegs : Forall segment segs) (Hne : segs <> [])
    (Hpath : path = relativePath segs \/ path = absolutePath segs) :
  utils.pathDepth path = (Z.of_nat (List.length segs) - 1)%Z
  /\ (Z.of_nat (List.length segs) = (utils.MaxDepth pv + 1)%Z ->
      utils.checkPathDepth pv path = Ok tt)
  /\ (Z.of_nat (List.length segs) = (utils.MaxDepth pv + 2)%Z ->
      utils.checkPathDepth pv path
      = Err (ErrDepth (utils.MaxDepth pv + 1) (utils.MaxDepth pv) path))
  /\ (utils.checkPathDepth pv path = Ok tt <->
      (Z.of_nat (List.length segs) <= utils.MaxDepth pv + 1)%Z).
Proof.
  assert (Hd : utils.pathDepth path = (Z.of_nat (List.length segs) - 1)%Z).
  { destruct Hpath as [-> | ->];
      [apply pathDepth_relative | apply pathDepth_absolute]; assumption. }
  split; [exact Hd|].
  rewrite checkPathDepth_spec, Hd.
  repeat split.
  - intros Hn. destruct (Z.gtb_spec (Z.of_nat (List.length segs) - 1) (utils.MaxDepth pv));
      [lia | reflexivity].
  - intros Hn. destruct (Z.gtb_spec (Z.of_nat (List.length segs) - 1) (utils.MaxDepth pv));
      [|lia]. do 2 f_equal. lia.
  - destruct (Z.gtb_spec (Z.of_nat (List.length segs) - 1) (utils.MaxDepth pv));
      [discriminate | lia].
  - intros Hn. destruct (Z.gtb_spec (Z.of_nat (List.length segs) - 1) (utils.MaxDepth pv));
      [lia | reflexivity].
Qed.

Lemma checkPathDepth_boundary_witness :
  utils.checkPathDepth (utils.NewPathValidator [] 2) "a/b/c" = Ok tt
  /\ utils.checkPathDepth (utils.NewPathValidator [] 2) "/a/b/c/d"
     = Err (ErrDepth 3 2 "/a/b/c/d").
Proof.
  split.
  - apply (checkPathDepth_boundary (utils.NewPathValidator [] 2) ["a"; "b"; "c"] "a/b/c").
    + repeat constructor; discriminate.
    + discriminate.
    + left; reflexivity.
    + reflexivity.
  - apply (checkPathDepth_boundary (utils.NewPathValidator [] 2)
             ["a"; "b"; "c"; "d"] "/a/b/c/d").
    + repeat constructor; discriminate.
    + discriminate.
    + right; reflexivity.
    + reflexivity.
Defined.

(** C2 as the specification states it fails: under a maximum depth of 2
    the relative path [a/b/c], of [2 + 1] segments, passes the depth check
    and the whole validation. *)
Lemma depth_claim_counterexample :
  List.length ["a"; "b"; "c"] = 3%nat
  /\ utils.checkPathDepth (utils.NewPathValidator ["/"; "/etc"] 2)
       (relativePath ["a"; "b"; "c"]) = Ok tt
  /\ utils.ValidatePath Toy.env (utils.NewPathValidator ["/"; "/etc"] 2)
       (relativePath ["a"; "b"; "c"]) = Ok tt.
Proof. repeat split. Qed.

(* ===================================================================== *)
(** * Cleaning and the parent-directory rule                              *)
(* ===================================================================== *)

Section Cleaning.

Lemma Split_no_leading_sep s :
  Forall (fun e => strings.HasPrefix e filepath.sep = false)
         (strings.Split s filepath.Separator).
Proof.
  induction s as [|c s IH]; simpl.
  - repeat constructor.
  - destruct (Ascii.eqb c filepath.Separator) eqn:Hc.
    + constructor; [reflexivity | exact IH].
    + destruct (strings.Split s filepath.Separator) as [|x r].
      * constructor; [simpl; rewrite Hc; reflexivity | constructor].
      * inversion IH; subst. constructor; [simpl; rewrite Hc; reflexivity | assumption].
Qed.

Lemma cleanStep_kept rooted out elem :
  Forall kept out -> strings.HasPrefix elem filepath.sep = false ->
  Forall kept (filepath.cleanStep rooted out elem).
Proof.
  intros Hout Helem. unfold filepath.cleanStep.
  destruct (String.eqb_spec elem "") as [->|Hne]; simpl; [assumption|].
  destruct (String.eqb elem "."); [assumption|].
  assert (kept elem) by (split; assumption).
  destruct (String.eqb elem "..").
  - destruct out as [|top rest].
    + destruct rooted; repeat constructor; assumption.
    + inversion Hout; subst.
      destruct (String.eqb top ".."); [destruct rooted|]; auto.
  - constructor; assumption.
Qed.

Lemma fold_cleanStep_kept rooted elems out :
  Forall kept out ->
  Forall (fun e => strings.HasPrefix e filepath.sep = false) elems ->
  Forall kept (fold_left (filepath.cleanStep rooted) elems out).
Proof.
  revert out. induction elems as [|e elems IH]; intros out Hout Hel; simpl.
  - assumption.
  - inversion Hel; subst. apply IH; [apply cleanStep_kept|]; assumption.
Qed.

Lemma Join_kept_not_abs elems :
  Forall kept elems ->
  strings.HasPrefix (strings.Join elems filepath.sep) filepath.sep = false.
Proof.
  intros Hall. destruct Hall as [|s elems [Hne Hp] Hall]; [reflexivity|].
  destruct elems as [|s' elems']; [exact Hp|].
  change (strings.Join (s :: s' :: elems') filepath.sep)
    with (s ++ filepath.sep ++ strings.Join (s' :: elems') filepath.sep).
  unfold filepath.sep in *.
  rewrite HasPrefix_byte_app by assumption. exact Hp.
Qed.

Lemma HasPrefix_two s :
  strings.HasPrefix s filepath.sep = false ->
  strings.HasPrefix s (filepath.sep ++ filepath.sep) = false.
Proof.
  intros H. destruct (strings.HasPrefix s (filepath.sep ++ filepath.sep)) eqn:E;
    [|reflexivity].
  apply HasPrefix_app_weaken in E. congruence.
Qed.

(** a cleaned path never starts with two separators *)
Lemma Clean_no_double_sep path :
  strings.HasPrefix (filepath.Clean path) (filepath.sep ++ filepath.sep) = false.
Proof.
  unfold filepath.Clean.
  destruct (String.eqb path ""); [reflexivity|].
  set (out := fold_left _ _ _).
  assert (Hk : Forall kept (rev out)).
  { apply Forall_rev. apply fold_cleanStep_kept; [constructor|].
    apply Split_no_leading_sep. }
  pose proof (Join_kept_not_abs _ Hk) as Hj.
  destruct (filepath.IsAbs path).
  - rewrite HasPrefix_app. exact Hj.
  - destruct (String.eqb _ ""); [reflexivity|]. apply HasPrefix_two, Hj.
Qed.

Lemma Join_no_double_sep elem :
  strings.HasPrefix (filepath.Join elem) (filepath.sep ++ filepath.sep) = false.
Proof.
  induction elem as [|e r IH]; simpl; [reflexivity|].
  destruct (String.eqb e ""); [exact IH | apply Clean_no_double_sep].
Qed.

(** so neither does the path [GetAbsolutePath] returns *)
Lemma GetAbsolutePath_no_double_sep env path absPath :
  utils.GetAbsolutePath env path = Ok absPath ->
  strings.HasPrefix absPath (filepath.sep ++ filepath.sep) = false.
Proof.
  assert (Habs : forall p a, filepathEnv.Abs env p = Ok a ->
            strings.HasPrefix a (filepath.sep ++ filepath.sep) = false).
  { unfold filepathEnv.Abs. intros p a H.
    destruct (filepath.IsAbs p).
    - injection H as <-. apply Clean_no_double_sep.
    - destruct (Getwd env) as [wd|]; [|discriminate].
      injection H as <-. exact (Join_no_double_sep [wd; p]). }
  unfold utils.GetAbsolutePath. intros H.
  destruct (strings.HasPrefix path "~/").
  - destruct (UserHomeDir env); [|discriminate].
    destruct (filepathEnv.Abs env _) eqn:E; [|discriminate].
    injection H as <-. eapply Habs, E.
  - destruct (filepathEnv.Abs env _) eqn:E; [|discriminate].
    injection H as <-. eapply Habs, E.
Qed.

(** Cleaning a relative path that starts with a parent-directory element
    leaves that element in front. *)
Lemma fold_cleanStep_bottom elems (pre : list string) :
  exists pre',
    fold_left (filepath.cleanStep false) elems (pre ++ [".."])%list = (pre' ++ [".."])%list.
Proof.
  revert pre. induction elems as [|e elems IH]; intros pre; simpl.
  - eauto.
  - assert (Hstep : exists pre', filepath.cleanStep false (pre ++ [".."])%list e = (pre' ++ [".."])%list).
    { unfold filepath.cleanStep.
      destruct (String.eqb e "" || String.eqb e "."); [eauto|].
      destruct (String.eqb e "..") eqn:He.
      - apply String.eqb_eq in He. subst e.
        destruct pre as [|top rest]; simpl.
        + exists [".."]. reflexivity.
        + destruct (String.eqb top "..").
          * exists (".." :: top :: rest). reflexivity.
          * exists rest. reflexivity.
      - exists (e :: pre). reflexivity. }
    destruct Hstep as [pre' ->]. apply IH.
Qed.

Lemma Join_cons_prefix s r : strings.HasPrefix (strings.Join (s :: r) filepath.sep) s = true.
Proof.
  destruct r; [apply HasPrefix_self|].
  change (strings.Join (s :: s0 :: r) filepath.sep)
    with (s ++ filepath.sep ++ strings.Join (s0 :: r) filepath.sep).
  apply HasPrefix_self_app.
Qed.

Lemma Clean_leading_dotdot rest :
  strings.HasPrefix (filepath.Clean ("../" ++ rest)) ".." = true.
Proof.
  unfold filepath.Clean.
  change (String.eqb ("../" ++ rest) "") with false.
  change (filepath.IsAbs ("../" ++ rest)) with false.
  cbv iota.
  assert (Hs : strings.Split ("../" ++ rest) filepath.Separator
               = ".." :: strings.Split rest filepath.Separator).
  { simpl. destruct (strings.Split rest filepath.Separator); reflexivity. }
  rewrite Hs. simpl fold_left.
  change (filepath.cleanStep false [] "..") with ([] ++ [".."])%list.
  destruct (fold_cleanStep_bottom (strings.Split rest filepath.Separator) [])
    as [pre' ->].
  rewrite rev_unit.
  pose proof (Join_cons_prefix ".." (rev pre')) as Hp.
  destruct (strings.Join (".." :: rev pre') filepath.sep) as [|c s] eqn:E;
    [discriminate|].
  exact Hp.
Qed.

End Cleaning.

Lemma checkForbidden_error fs path e :
  utils.checkForbidden fs path = Err e ->
  e = ErrForbidden path \/ exists f, e = ErrUnderForbidden f path.
Proof.
  induction fs as [|f fs IH]; simpl; [discriminate|].
  destruct (String.eqb path f); [intros [= <-]; auto|].
  destruct (strings.HasPrefix path _); [intros [= <-]; eauto | exact IH].
Qed.

Lemma SanitizePath_dotdot path :
  utils.SanitizePath path = Err (ErrDotDot path)
  <-> strings.Contains (filepath.Clean path) ".." = true.
Proof.
  unfold utils.SanitizePath.
  destruct (strings.Contains (filepath.Clean path) "..").
  - tauto.
  - destruct (_ || _); split; discriminate.
Qed.

(** C3 (amended).  Validation cleans the path first and rejects it for a
    parent-directory component exactly when the cleaned path still
    contains [..]; this is so for every relative path that starts with a
    parent-directory element. *)
Theorem ValidatePath_rejects_remaining_dotdot
    (env : Env) (pv : utils.PathValidator) (path : string) :
  (utils.ValidatePath env pv path
   = Err (Wrap "path sanitization failed" (ErrDotDot path))
   <-> strings.Contains (filepath.Clean path) ".." = true)
  /\ (forall rest, path = "../" ++ rest ->
      utils.ValidatePath env pv path
      = Err (Wrap "path sanitization failed" (ErrDotDot path))).
Proof.
  assert (Hiff : utils.ValidatePath env pv path
                 = Err (Wrap "path sanitization failed" (ErrDotDot path))
                 <-> strings.Contains (filepath.Clean path) ".." = true).
  { rewrite <- SanitizePath_dotdot. unfold utils.ValidatePath.
    destruct (utils.SanitizePath path) as [cleanPath|e].
    - split; [|discriminate].
      destruct (utils.GetAbsolutePath env cleanPath); [|discriminate].
      unfold utils.checkForbiddenPaths.
      destruct (utils.checkForbidden _ _) eqn:Hf.
      + unfold utils.checkPathDepth.
        destruct (_ >? _)%Z; [discriminate|].
        unfold utils.checkDangerousCharacters, utils.dangerousPatterns. simpl.
        repeat match goal with
               | |- context [if ?b then _ else _] => destruct b; try discriminate
               end.
      + intros H. injection H as ->.
        apply checkForbidden_error in Hf as [Hf | [f Hf]]; discriminate.
    - split; intros H; congruence. }
  split; [exact Hiff|].
  intros rest ->. apply Hiff. apply Contains_of_prefix, Clean_leading_dotdot.
Qed.

Lemma ValidatePath_rejects_remaining_dotdot_witness :
  utils.ValidatePath Toy.env (utils.NewPathValidator ["/"; "/etc"] 10) "../x"
  = Err (Wrap "path sanitization failed" (ErrDotDot "../x")).
Proof.
  apply (proj2 (ValidatePath_rejects_remaining_dotdot Toy.env
                  (utils.NewPathValidator ["/"; "/etc"] 10) "../x") "x").
  reflexivity.
Defined.

(** C3 as the specification states it fails: [a/../b] contains a
    parent-directory component, is cleaned to [b] and accepted. *)
Lemma dotdot_claim_counterexample :
  strings.Contains "a/../b" ".." = true
  /\ utils.SanitizePath "a/../b" = Ok "b"
  /\ utils.ValidatePath Toy.env Sample.defaultValidator "a/../b" = Ok tt.
Proof. repeat split. Qed.

(* ===================================================================== *)
(** * The forbidden-prefix check                                          *)
(* ===================================================================== *)

Section Forbidden.

Lemma checkForbidden_Ok fs path :
  utils.checkForbidden fs path = Ok tt
  <-> Forall (fun f => matchesForbidden f path = false) fs.
Proof.
  unfold matchesForbidden. induction fs as [|f fs IH]; simpl.
  - split; [constructor | reflexivity].
  - rewrite Forall_cons, <- IH.
    destruct (String.eqb path f); simpl; [intuition discriminate|].
    destruct (strings.HasPrefix path (f ++ filepath.sep)); intuition discriminate.
Qed.

Lemma checkForbidden_rejects fs f path :
  In f fs -> matchesForbidden f path = true ->
  isErr (utils.checkForbidden fs path) = true.
Proof.
  intros Hin Hm.
  destruct (utils.checkForbidden fs path) as [[]|e] eqn:E; [|reflexivity].
  apply checkForbidden_Ok in E. rewrite List.Forall_forall in E.
  specialize (E f Hin). congruence.
Qed.

Lemma matches_itself f : matchesForbidden f f = true.
Proof. unfold matchesForbidden. rewrite String.eqb_refl. reflexivity. Qed.

Lemma matches_nested f rest : matchesForbidden f (f ++ filepath.sep ++ rest) = true.
Proof.
  unfold matchesForbidden. rewrite HasPrefix_app.
  change (strings.HasPrefix (filepath.sep ++ rest) filepath.sep) with
    (strings.HasPrefix rest "").
  rewrite HasPrefix_nil. apply orb_true_r.
Qed.

Lemma matches_sibling f s :
  s <> "" -> strings.HasPrefix s filepath.sep = false ->
  matchesForbidden f (f ++ s) = false.
Proof.
  intros Hne Hs. unfold matchesForbidden.
  rewrite HasPrefix_app, Hs, orb_false_r.
  apply String.eqb_neq. intros H. apply append_eq_self_inv in H. congruence.
Qed.

(** the entry [/] matches a path without a doubled leading separator
    only when the path is [/] *)
Lemma matches_root path :
  strings.HasPrefix path (filepath.sep ++ filepath.sep) = false ->
  matchesForbidden "/" path = String.eqb path "/".
Proof.
  intros H. unfold matchesForbidden.
  change ("/" ++ filepath.sep) with (filepath.sep ++ filepath.sep).
  rewrite H. apply orb_false_r.
Qed.

End Forbidden.

(** C4.  A forbidden prefix [P] of the policy rejects the path [P] itself
    and every path [P/rest]; a sibling [P ++ s], whose [s] is not empty
    and does not start with a separator, is accepted unless another entry
    of the policy matches it. *)
Theorem checkForbiddenPaths_boundary
    (pv : utils.PathValidator) (P : string)
    (HP : In P (utils.ForbiddenPaths pv)) :
  isErr (utils.checkForbiddenPaths pv P) = true
  /\ (forall rest,
        isErr (utils.checkForbiddenPaths pv (P ++ filepath.sep ++ rest)) = true)
  /\ (forall s,
        s <> "" -> strings.HasPrefix s filepath.sep = false ->
        (forall Q, In Q (utils.ForbiddenPaths pv) -> Q <> P ->
                   matchesForbidden Q (P ++ s) = false) ->
        utils.checkForbiddenPaths pv (P ++ s) = Ok tt).
Proof.
  unfold utils.checkForbiddenPaths. repeat split.
  - eapply checkForbidden_rejects; [exact HP | apply matches_itself].
  - intros rest. eapply checkForbidden_rejects; [exact HP | apply matches_nested].
  - intros s Hne Hs Hothers. apply checkForbidden_Ok, List.Forall_forall.
    intros Q HQ. destruct (String.eqb_spec Q P) as [->|Hneq].
    + apply matches_sibling; assumption.
    + apply Hothers; assumption.
Qed.

Lemma checkForbiddenPaths_boundary_witness :
  isErr (utils.checkForbiddenPaths (utils.NewPathValidator ["/etc"] 10) "/etc") = true
  /\ isErr (utils.checkForbiddenPaths (utils.NewPathValidator ["/etc"] 10) "/etc/passwd")
     = true
  /\ utils.checkForbiddenPaths (utils.NewPathValidator ["/etc"] 10) "/etcetera" = Ok tt.
Proof.
  destruct (checkForbiddenPaths_boundary (utils.NewPathValidator ["/etc"] 10) "/etc")
    as (Hself & Hnested & Hsibling).
  - simpl. left. reflexivity.
  - split; [exact Hself|]. split; [exact (Hnested "passwd")|].
    apply (Hsibling "etera").
    + discriminate.
    + reflexivity.
    + simpl. intros Q [<- | []] Hneq. congruence.
Defined.

(** C10.  With [/] among the forbidden prefixes, the entry [/] rejects the
    absolute path validation computes only when that path is [/] itself:
    its nested-path test asks for a doubled separator in front, which no
    cleaned path has.  Any other path passes the check unless another
    entry matches it. *)
Theorem root_entry_rejects_only_root
    (env : Env) (pv : utils.PathValidator) (path absPath : string)
    (Habs : utils.GetAbsolutePath env path = Ok absPath)
    (Hroot : In "/" (utils.ForbiddenPaths pv)) :
  matchesForbidden "/" absPath = String.eqb absPath "/"
  /\ (absPath = "/" -> isErr (utils.checkForbiddenPaths pv absPath) = true)
  /\ (absPath <> "/" ->
      (forall Q, In Q (utils.ForbiddenPaths pv) -> Q <> "/" ->
                 matchesForbidden Q absPath = false) ->
      utils.checkForbiddenPaths pv absPath = Ok tt).
Proof.
  pose proof (matches_root absPath (GetAbsolutePath_no_double_sep _ _ _ Habs)) as Hm.
  unfold utils.checkForbiddenPaths. repeat split.
  - exact Hm.
  - intros ->. eapply checkForbidden_rejects; [exact Hroot | apply matches_itself].
  - intros Hne Hothers. apply checkForbidden_Ok, List.Forall_forall.
    intros Q HQ. destruct (String.eqb_spec Q "/") as [->|Hneq].
    + rewrite Hm. apply String.eqb_neq. exact Hne.
    + apply Hothers; assumption.
Qed.

Lemma root_entry_rejects_only_root_witness :
  utils.checkForbiddenPaths Sample.defaultValidator "/home/user/project" = Ok tt.
Proof.
  apply (root_entry_rejects_only_root Toy.env Sample.defaultValidator
           "/home/user/project" "/home/user/project").
  - reflexivity.
  - simpl. left. reflexivity.
  - discriminate.
  - simpl. intros Q H Hneq.
    repeat (destruct H as [<- | H]; [try congruence; reflexivity|]).
    destruct H.
Defined.

(* ===================================================================== *)
(** * The merge of profile and flags                                      *)
(* ===================================================================== *)

(** C1.  Field by field: [Git], [Editor] and [Readme] are the
    disjunction of the invocation and the profile, the invocation
    turning the editor on by its auto-detect flag or by naming an
    editor, so an option that is on at either layer is on in the plan;
    [Template], [Gitignore] and [License] are the invocation's value
    when it is not empty and the profile's otherwise; [Touch] is the
    invocation's list when it is not empty and the profile's otherwise,
    never a concatenation. *)
Theorem mergeConfigWithFlags_precedence (fl : MkcdFlags.t) (p : ProfileConfig.t) :
  let m := mergeConfigWithFlags fl p in
  MkcdConfig.Git m = MkcdFlags.gitInit fl || ProfileConfig.Git p
  /\ MkcdConfig.Editor m = opensEditor fl || ProfileConfig.Editor p
  /\ MkcdConfig.Readme m = MkcdFlags.readme fl || ProfileConfig.Readme p
  /\ (MkcdFlags.template fl <> "" -> MkcdConfig.Template m = MkcdFlags.template fl)
  /\ (MkcdFlags.template fl = "" -> MkcdConfig.Template m = ProfileConfig.Template p)
  /\ (MkcdFlags.gitignore fl <> "" -> MkcdConfig.Gitignore m = MkcdFlags.gitignore fl)
  /\ (MkcdFlags.gitignore fl = "" -> MkcdConfig.Gitignore m = ProfileConfig.Gitignore p)
  /\ (MkcdFlags.license fl <> "" -> MkcdConfig.License m = MkcdFlags.license fl)
  /\ (MkcdFlags.license fl = "" -> MkcdConfig.License m = ProfileConfig.License p)
  /\ (MkcdFlags.touchFiles fl <> [] -> MkcdConfig.Touch m = MkcdFlags.touchFiles fl)
  /\ (MkcdFlags.touchFiles fl = [] -> MkcdConfig.Touch m = ProfileConfig.Touch p).
Proof.
  destruct fl as [gitInit gitRemote template editorName editorFlag touchFiles
                    readme gitignore license mode parentMode symlink temp expire].
  unfold mergeConfigWithFlags, opensEditor; cbn -[String.eqb].
  split; [reflexivity|]. split.
  { destruct editorFlag, (ProfileConfig.Editor p), (String.eqb editorName "");
      reflexivity. }
  split; [reflexivity|]. repeat split.
  - intros H. apply String.eqb_neq in H. rewrite H. reflexivity.
  - intros ->. reflexivity.
  - intros H. apply String.eqb_neq in H. rewrite H. reflexivity.
  - intros ->. reflexivity.
  - intros H. apply String.eqb_neq in H. rewrite H. reflexivity.
  - intros ->. reflexivity.
  - intros H. destruct touchFiles; [congruence | reflexivity].
  - intros ->. reflexivity.
Qed.

Lemma mergeConfigWithFlags_precedence_witness :
  MkcdConfig.Gitignore (mergeConfigWithFlags Sample.gitignorePython Sample.nodejs)
  = "python"
  /\ MkcdConfig.Touch (mergeConfigWithFlags Sample.gitignorePython Sample.nodejs)
     = ["package.json"; "index.js"]
  /\ MkcdConfig.Git (mergeConfigWithFlags Sample.gitignorePython Sample.nodejs) = true
  /\ MkcdConfig.Editor (mergeConfigWithFlags Sample.editorVim ProfileConfig.zero)
     = opensEditor Sample.editorVim || ProfileConfig.Editor ProfileConfig.zero.
Proof.
  pose proof (mergeConfigWithFlags_precedence Sample.gitignorePython Sample.nodejs)
    as (Hgit & _ & _ & _ & _ & Hignore & _ & _ & _ & _ & Htouch).
  pose proof (mergeConfigWithFlags_precedence Sample.editorVim ProfileConfig.zero)
    as (_ & Heditor & _).
  split; [apply Hignore; discriminate|].
  split; [apply Htouch; reflexivity|].
  split; [exact Hgit | exact Heditor].
Defined.

(* ===================================================================== *)
(** * The profile registry                                                *)
(* ===================================================================== *)

(** C6.  Deleting the profile designated as default fails with the
    conflict error and leaves the configuration as it was: the registry
    still holds the profile and the designation still names it. *)
Theorem DeleteProfile_default_conflict
    (c : Config.t) (p : ProfileConfig.t)
    (Hreg : Config.Profiles c !! CoreConfig.DefaultProfile (Config.Core c) = Some p) :
  let name := CoreConfig.DefaultProfile (Config.Core c) in
  let outcome := config.DeleteProfile c name in
  fst outcome = Err (ErrDeleteDefault name)
  /\ snd outcome = c
  /\ Config.Profiles (snd outcome) !! name = Some p
  /\ CoreConfig.DefaultProfile (Config.Core (snd outcome)) = name.
Proof.
  cbv zeta. unfold config.DeleteProfile.
  rewrite String.eqb_refl. simpl. auto.
Qed.

Lemma DeleteProfile_default_conflict_witness :
  config.DeleteProfile (config.DefaultConfig Toy.env) "default"
  = (Err (ErrDeleteDefault "default"), config.DefaultConfig Toy.env).
Proof.
  pose proof (DeleteProfile_default_conflict (config.DefaultConfig Toy.env)
                (ProfileConfig.mk false false false "" "" [] "") eq_refl)
    as (Hfst & Hsnd & _).
  apply injective_projections; [exact Hfst | exact Hsnd].
Defined.

(** Any other registered profile is removed, and nothing else changes. *)
Lemma DeleteProfile_other (c : Config.t) (name : string) (p : ProfileConfig.t) :
  name <> CoreConfig.DefaultProfile (Config.Core c) ->
  Config.Profiles c !! name = Some p ->
  config.DeleteProfile c name
  = (Ok tt, Config.withProfiles c (delete name (Config.Profiles c))).
Proof.
  intros Hne Hin. unfold config.DeleteProfile.
  apply String.eqb_neq in Hne. rewrite Hne, Hin. reflexivity.
Qed.

(* ===================================================================== *)
(** * Loading and validating the configuration                            *)
(* ===================================================================== *)

Section LoadFacts.
Context {F : Type} `{!OS F}.

(** [Load] at the locator it reads *)
Lemma Load_at env configPath located (w : World F) :
  locates env configPath located ->
  Load env configPath w
  = if sourceExists located w then
      match toml_DecodeFile located (config.DefaultConfig env) (fs w) with
      | Err e => (Err (Wrap ("failed to parse config file " ++ located) e), w)
      | Ok cfg =>
          match config.Validate cfg with
          | Err e => (Err (Wrap "invalid configuration" e), w)
          | Ok _ =>
              (Ok cfg,
               mkWorld (fs w)
                 (out w ++ [mkMsg PDebug
                              (Sprintf "Loaded configuration from %s" [AStr located])]))
          end
      end
    else
      (Ok (config.DefaultConfig env),
       mkWorld (fs w)
         (out w ++ [mkMsg PDebug
                      (Sprintf "Config file not found at %s, using defaults"
                         [AStr located])])).
Proof.
  intros Hloc. unfold Load.
  assert (Hl : (if String.eqb configPath "" then
                  match config.GetConfigPath env with
                  | Err e => Err (Wrap "failed to determine config path" e)
                  | Ok p => Ok p
                  end
                else Ok configPath) = Ok located).
  { destruct Hloc as [[Hne ->] | [-> Hp]].
    - apply String.eqb_neq in Hne. rewrite Hne. reflexivity.
    - simpl. rewrite Hp. reflexivity. }
  rewrite Hl. unfold sourceExists, bind, query, emit, ret. destruct w as [m o]. simpl.
  destruct (os_Stat located m) as [info|e]; simpl.
  - destruct (toml_DecodeFile located _ m) as [cfg|e]; [|reflexivity].
    destruct (config.Validate cfg); reflexivity.
  - destruct (os_IsNotExist e); simpl; [reflexivity|].
    destruct (toml_DecodeFile located _ m) as [cfg|e']; [|reflexivity].
    destruct (config.Validate cfg); reflexivity.
Qed.

(** C9.  Where no configuration source exists at the locator, [Load]
    succeeds with the built-in default configuration and does not touch
    the machine; where a source exists and cannot be parsed, [Load]
    fails with the parse error, returns no configuration and changes
    nothing. *)
Theorem Load_missing_or_unparsable
    (env : Env) (configPath located : string) (w : World F)
    (Hloc : locates env configPath located) :
  (sourceExists located w = false ->
   fst (Load env configPath w) = Ok (config.DefaultConfig env)
   /\ fs (snd (Load env configPath w)) = fs w)
  /\ (forall e,
        sourceExists located w = true ->
        toml_DecodeFile located (config.DefaultConfig env) (fs w) = Err e ->
        Load env configPath w
        = (Err (Wrap ("failed to parse config file " ++ located) e), w)).
Proof.
  rewrite (Load_at env configPath located w Hloc). split.
  - intros ->. split; reflexivity.
  - intros e -> ->. reflexivity.
Qed.

Lemma validateForbidden_first paths :
  config.validateForbidden paths
  = match List.filter (fun p => negb (filepath.IsAbs p)) paths with
    | [] => Ok tt
    | p :: _ => Err (ErrForbiddenNotAbsolute p)
    end.
Proof.
  induction paths as [|p paths IH]; simpl; [reflexivity|].
  destruct (filepath.IsAbs p); simpl; [exact IH | reflexivity].
Qed.

(** [Validate] stops at the first rule that is violated *)
Lemma Validate_first c :
  config.Validate c
  = match allViolations c with
    | [] => Ok tt
    | v :: _ => Err v
    end.
Proof.
  unfold config.Validate, allViolations.
  destruct (_ <? 0)%Z; [reflexivity|].
  destruct (_ <? 1)%Z; [reflexivity|].
  destruct (_ && _); [reflexivity|].
  simpl. rewrite validateForbidden_first.
  destruct (List.filter _ _); reflexivity.
Qed.

(** A configuration [Load] returns violates none of the rules: the default
    configuration is valid, and a decoded one has passed [Validate].  So
    the warnings of the validation report are collected on valid
    configurations only. *)
Lemma Load_validated env configPath (w w' : World F) cfg :
  Load env configPath w = (Ok cfg, w') -> allViolations cfg = [].
Proof.
  assert (Hvalid : forall c, config.Validate c = Ok tt -> allViolations c = []).
  { intros c. rewrite Validate_first.
    destruct (allViolations c); [reflexivity | discriminate]. }
  assert (Hdefault : config.Validate (config.DefaultConfig env) = Ok tt)
    by reflexivity.
  unfold Load.
  destruct (if String.eqb configPath "" then _ else _) as [located|e];
    [|unfold ret; intros [=]].
  unfold bind, query, emit, ret.
  destruct (match os_Stat located (fs w) with
            | Err e => os_IsNotExist e
            | Ok _ => false
            end).
  - intros [= <- _]. apply Hvalid, Hdefault.
  - destruct (toml_DecodeFile located _ (fs w)) as [c|e]; [|intros [=]].
    destruct (config.Validate c) as [[]|e] eqn:Hc; intros [= <- _].
    apply Hvalid, Hc.
Qed.

(** C5 (amended).  Validation has the strict mode only.  [Validate]
    returns the first violated rule, in the order history limit, maximum
    depth, default profile, forbidden paths; the validation report loads
    the configuration through it, so for a configuration that violates
    rules it prints that first violation alone and fails. *)
Theorem validation_reports_first_violation
    (env : Env) (gf : GlobalFlags.t) (located : string) (w : World F)
    (cfg : Config.t) (v : error) (rest : list error)
    (Hloc : locates env (GlobalFlags.cfgFile gf) located)
    (Hsrc : sourceExists located w = true)
    (Hdec : toml_DecodeFile located (config.DefaultConfig env) (fs w) = Ok cfg)
    (Hviol : allViolations cfg = v :: rest) :
  config.Validate cfg = Err v
  /\ runConfigValidate env gf w
     = (Err ErrInvalidConfiguration,
        mkWorld (fs w)
          (out w ++ if GlobalFlags.quiet gf then [] else reportOfFailure located v)).
Proof.
  assert (Hv : config.Validate cfg = Err v) by (rewrite Validate_first, Hviol; reflexivity).
  split; [exact Hv|].
  unfold runConfigValidate.
  assert (Hl : (if String.eqb (GlobalFlags.cfgFile gf) "" then
                  match config.GetConfigPath env with
                  | Err e => Err (Wrap "failed to get config path" e)
                  | Ok p => Ok p
                  end
                else Ok (GlobalFlags.cfgFile gf)) = Ok located).
  { destruct Hloc as [[Hne ->] | [Hemp Hp]].
    - apply String.eqb_neq in Hne. rewrite Hne. reflexivity.
    - rewrite Hemp. simpl. rewrite Hp. reflexivity. }
  rewrite Hl.
  assert (Hlocated : locates env located located).
  { destruct (String.eqb_spec located "") as [E|E].
    - right. split; [exact E|]. destruct Hloc as [[Hne Heq] | [_ Hp]]; congruence.
    - left. split; [exact E | reflexivity]. }
  unfold bind at 1. unfold bind at 1.
  unfold om_Info, om_Error, leveled, NewOutputManager, say. simpl.
  destruct (GlobalFlags.quiet gf); simpl.
  - unfold ret at 1. unfold bind.
    rewrite (Load_at env located located w Hlocated), Hsrc, Hdec, Hv.
    unfold ret. destruct w; simpl. rewrite app_nil_r. reflexivity.
  - unfold emit at 1. unfold bind.
    rewrite (Load_at env located located _ Hlocated).
    unfold sourceExists in *. simpl. rewrite Hsrc, Hdec, Hv.
    unfold emit, ret. simpl. rewrite <- app_assoc. reflexivity.
Qed.

End LoadFacts.

Lemma Load_missing_or_unparsable_witness :
  fst (Load (OS0 := Toy.os SampleConfig.decode) Toy.env "" SampleConfig.fresh)
  = Ok (config.DefaultConfig Toy.env)
  /\ Load (OS0 := Toy.os SampleConfig.decode) Toy.env "" SampleConfig.broken
     = (Err (Wrap ("failed to parse config file " ++ SampleConfig.configPath)
               (External "toml: syntax error")),
        SampleConfig.broken).
Proof.
  split.
  - apply (Load_missing_or_unparsable (OS0 := Toy.os SampleConfig.decode)
             Toy.env "" SampleConfig.configPath SampleConfig.fresh).
    + right. split; reflexivity.
    + reflexivity.
  - apply (Load_missing_or_unparsable (OS0 := Toy.os SampleConfig.decode)
             Toy.env "" SampleConfig.configPath SampleConfig.broken).
    + right. split; reflexivity.
    + reflexivity.
    + reflexivity.
Defined.

Lemma validation_reports_first_violation_witness :
  runConfigValidate (OS0 := Toy.os SampleConfig.decode) Toy.env SampleConfig.flags
    SampleConfig.twoViolations
  = (Err ErrInvalidConfiguration,
     mkWorld (fs SampleConfig.twoViolations)
       (reportOfFailure SampleConfig.configPath ErrHistoryLimit)).
Proof.
  apply (validation_reports_first_violation (OS0 := Toy.os SampleConfig.decode)
           Toy.env SampleConfig.flags SampleConfig.configPath
           SampleConfig.twoViolations
           (SampleConfig.withLimits (-1) 0 (config.DefaultConfig Toy.env))
           ErrHistoryLimit [ErrMaxDepth]).
  - right. split; reflexivity.
  - reflexivity.
  - reflexivity.
  - reflexivity.
Defined.

(** C5 as the specification states it fails: a configuration with a
    negative history limit and a maximum depth of zero violates two rules;
    [Validate] and the validation report name the first one only. *)
Lemma collecting_claim_counterexample :
  allViolations (SampleConfig.withLimits (-1) 0 (config.DefaultConfig Toy.env))
  = [ErrHistoryLimit; ErrMaxDepth]
  /\ config.Validate (SampleConfig.withLimits (-1) 0 (config.DefaultConfig Toy.env))
     = Err ErrHistoryLimit
  /\ runConfigValidate (OS0 := Toy.os SampleConfig.decode) Toy.env SampleConfig.flags
       SampleConfig.twoViolations
     = (Err ErrInvalidConfiguration,
        mkWorld (fs SampleConfig.twoViolations)
          [ mkMsg PInfo (Sprintf "Validating configuration: %s"
                           [AStr SampleConfig.configPath]);
            mkMsg PError (Sprintf "Configuration validation failed: %v"
                            [AErr (Wrap "invalid configuration" ErrHistoryLimit)]) ]).
Proof. repeat split; vm_compute; reflexivity. Qed.

(* ===================================================================== *)
(** * The dry run                                                         *)
(* ===================================================================== *)

Section DryRun.
Context {F : Type} `{!OS F}.

Lemma touchLoop_dry backup target files om (w : World F) :
  fs (snd (touchLoop target files (NewFileSystemOperations true backup) om w)) = fs w.
Proof.
  revert w. induction files as [|f files IH]; intros w; [reflexivity|].
  simpl. unfold bind, CreateFile, emit, ret. simpl. rewrite IH. reflexivity.
Qed.

Lemma noteCustomMode_fs mc om (w : World F) : fs (snd (noteCustomMode mc om w)) = fs w.
Proof.
  unfold noteCustomMode, om_Debug, say, emit, ret.
  destruct (negb _); [|reflexivity]. destruct (_ || _); reflexivity.
Qed.

(** C7 (amended).  Under the dry run, creating a directory, a file, a
    backup or a symbolic link prints its report, that one line and
    nothing else, and returns success without consulting or changing
    the machine: whatever the machine holds, the report and the outcome
    are the same.  The whole creation step leaves the machine as it was
    and succeeds. *)
Theorem dry_run_short_circuits
    (backup : bool) (path content target : string) (mode : Z)
    (mc : MkcdConfig.t) (om : OutputManager.t) (w : World F) :
  let dry := NewFileSystemOperations true backup in
  CreateDirectory dry path mode w
  = (Ok tt, mkWorld (fs w) (out w ++ [wouldCreateDirectory path mode]))
  /\ CreateFile dry path content mode w
     = (Ok tt, mkWorld (fs w) (out w ++ [wouldCreateFile path content]))
  /\ BackupFile dry path w
     = (Ok tt, mkWorld (fs w) (out w ++ [wouldBackupFile path]))
  /\ CreateSymlink dry target path w
     = (Ok tt, mkWorld (fs w) (out w ++ [wouldCreateSymlink target path]))
  /\ fst (createDirectoryStructure path mc dry om w) = Ok tt
  /\ fs (snd (createDirectoryStructure path mc dry om w)) = fs w.
Proof.
  cbv zeta. repeat split.
  - unfold createDirectoryStructure, bind.
    destruct (noteCustomMode mc om w) as [[] w0].
    destruct (negb _); [reflexivity|].
    simpl. unfold emit, ret. simpl.
    destruct (touchLoop _ _ _ _ _) as [[] w1]. reflexivity.
  - unfold createDirectoryStructure, bind.
    pose proof (noteCustomMode_fs mc om w) as H0.
    destruct (noteCustomMode mc om w) as [[] w0]. simpl in H0.
    destruct (negb _); [exact H0|].
    simpl. unfold emit, ret. simpl.
    pose proof (touchLoop_dry backup path (MkcdConfig.Touch mc) om
                  (mkWorld (fs w0)
                     (out w0 ++ [wouldCreateDirectory path 493]))) as H1.
    unfold wouldCreateDirectory in H1.
    destruct (touchLoop _ _ _ _ _) as [[] w1]. simpl in *. congruence.
Qed.

End DryRun.

(** C7 as the specification states it fails.  Where the target already is
    a directory, the dry run prints the same report as for a fresh target
    and does not say that the directory exists, as the real run does;
    where the target is a regular file, the dry run reports success and
    the real run fails. *)
Lemma dry_run_claim_counterexample :
  CreateDirectory (OS0 := SampleRun.os) SampleRun.dryOps "/work/proj" 493%Z
    SampleRun.existing
  = (Ok tt, mkWorld (fs SampleRun.existing) [wouldCreateDirectory "/work/proj" 493%Z])
  /\ CreateDirectory (OS0 := SampleRun.os) SampleRun.fsOps "/work/proj" 493%Z
       SampleRun.existing
     = (Ok tt,
        mkWorld (fs SampleRun.existing)
          [mkMsg PDebug (Sprintf "Directory already exists: %s" [AStr "/work/proj"])])
  /\ CreateDirectory (OS0 := SampleRun.os) SampleRun.dryOps "/work/proj" 493%Z
       SampleRun.occupied
     = (Ok tt, mkWorld (fs SampleRun.occupied) [wouldCreateDirectory "/work/proj" 493%Z])
  /\ CreateDirectory (OS0 := SampleRun.os) SampleRun.fsOps "/work/proj" 493%Z
       SampleRun.occupied
     = (Err (ErrNotADirectory "/work/proj"), SampleRun.occupied).
Proof. repeat split. Qed.

(* ===================================================================== *)
(** * Soft and hard failures of the orchestrated run                      *)
(* ===================================================================== *)

Section Appends.
Context {F : Type}.

Lemma appends_ret {A} (a : A) : appends (F := F) (ret a).
Proof. intros w. exists []. simpl. rewrite app_nil_r. reflexivity. Qed.

Lemma appends_bind {A B} (m : M (World F) A) (f : A -> M (World F) B) :
  appends m -> (forall a, appends (f a)) -> appends (bind m f).
Proof.
  intros Hm Hf w. unfold bind.
  destruct (Hm w) as [more1 H1]. destruct (m w) as [a w1]. simpl in H1.
  destruct (Hf a w1) as [more2 H2].
  exists (more1 ++ more2)%list. rewrite H2, H1, app_assoc. reflexivity.
Qed.

Lemma appends_emit p fmt a : appends (F := F) (emit p fmt a).
Proof. intros w. eexists. reflexivity. Qed.

Lemma appends_query {A} (f : F -> A) : appends (query f).
Proof. intros w. exists []. simpl. rewrite app_nil_r. reflexivity. Qed.

Lemma appends_act {A} (f : F -> A * F) : appends (act f).
Proof.
  intros w. exists []. unfold act. destruct (f (fs w)). simpl.
  rewrite app_nil_r. reflexivity.
Qed.

Lemma appends_call {A} (e : Effect F A) : appends (call e).
Proof.
  intros w. unfold call. destruct (e (fs w)) as [[a m] printed].
  exists printed. reflexivity.
Qed.

End Appends.

Ltac appends_step :=
  first
    [ apply appends_ret | apply appends_emit | apply appends_query
    | apply appends_act | apply appends_call
    | apply appends_bind; [|intros ?]
    | match goal with
      | |- appends (match ?x with _ => _ end) => destruct x
      | |- appends (if ?b then _ else _) => destruct b
      end ].

Section FailurePolicy.
Context {F : Type} `{!OS F} `{!Collaborators F}.

Lemma appends_om_Warning om t : appends (F := F) (om_Warning om t).
Proof. unfold om_Warning, leveled, say. repeat appends_step. Qed.

Lemma appends_CreateFile fsOps path content mode :
  appends (CreateFile fsOps path content mode).
Proof.
  unfold CreateFile, BackupFile, writeNewFile. repeat appends_step.
Qed.

Lemma appends_touchLoop target files fsOps om :
  appends (touchLoop target files fsOps om).
Proof.
  induction files as [|f files IH]; cbn [touchLoop].
  - apply appends_ret.
  - apply appends_bind; [apply appends_CreateFile | intros r].
    apply appends_bind; [|intros _; exact IH].
    destruct r; [apply appends_ret | apply appends_om_Warning].
Qed.

Lemma touchLoop_cons target f rest fsOps om (w : World F) :
  touchLoop target (f :: rest) fsOps om w
  = let '(r, w1) := CreateFile fsOps (filepath.Join [target; f]) "" 420 w in
    let w2 := match r with
              | Err e => snd (om_Warning om (touchWarning f e) w1)
              | Ok _ => w1
              end in
    touchLoop target rest fsOps om w2.
Proof.
  cbn [touchLoop]. unfold bind.
  destruct (CreateFile fsOps (filepath.Join [target; f]) "" 420 w) as [[[]|e] w1].
  - reflexivity.
  - unfold touchWarning. destruct (om_Warning om _ w1) as [[] w2]. reflexivity.
Qed.

(** the loop over two lists is the loop over the first, then over the
    second: it never stops early *)
Lemma touchLoop_app target pre post fsOps om (w : World F) :
  touchLoop target (pre ++ post) fsOps om w
  = touchLoop target post fsOps om (snd (touchLoop target pre fsOps om w)).
Proof.
  revert w. induction pre as [|f pre IH]; intros w; [reflexivity|].
  change ((f :: pre) ++ post)%list with (f :: (pre ++ post))%list.
  rewrite !touchLoop_cons.
  destruct (CreateFile fsOps (filepath.Join [target; f]) "" 420 w) as [r w1].
  apply IH.
Qed.

Lemma touchLoop_failed target f post fsOps om (w w2 : World F) e :
  CreateFile fsOps (filepath.Join [target; f]) "" 420 w = (Err e, w2) ->
  touchLoop target (f :: post) fsOps om w
  = touchLoop target post fsOps om (snd (om_Warning om (touchWarning f e) w2)).
Proof.
  intros H. rewrite touchLoop_cons, H. reflexivity.
Qed.

Lemma om_Warning_out om t (w : World F) :
  OutputManager.Quiet om = false ->
  exists pr, out (snd (om_Warning om t w)) = (out w ++ [mkMsg pr t])%list.
Proof.
  intros Hq. unfold om_Warning, leveled, say, emit. rewrite Hq.
  destruct (OutputManager.Icons om); destruct t; eexists; reflexivity.
Qed.

(** a requested document that cannot be generated fails its block *)
Lemma requested_fails context (generate : Effect F (result unit)) (w w2 : World F) e :
  call generate w = (Err e, w2) ->
  requested true context generate w = (Err (Wrap context e), w2).
Proof. intros H. unfold requested, bind. rewrite H. reflexivity. Qed.

(** C8.  Soft: when the creation of a touch file fails, the creation
    step warns, goes on with the remaining files and succeeds, and the
    warning is printed unless the run is quiet.  Hard: when the
    generation of a requested readme, ignore file or license fails, the
    generation step fails with that error at once, and the run stops
    there with the error; nothing after it is done. *)
Theorem failure_policy
    (gf : GlobalFlags.t) (fl : MkcdFlags.t) (target : string) (cfg : Config.t)
    (mc : MkcdConfig.t) (om : OutputManager.t) (fsOps : FileSystemOperations.t)
    (w : World F) :
  (forall w1 pre f post e w2,
      MkcdConfig.Symlink mc = "" ->
      CreateDirectory fsOps target 493 (snd (noteCustomMode mc om w)) = (Ok tt, w1) ->
      MkcdConfig.Touch mc = (pre ++ f :: post)%list ->
      CreateFile fsOps (filepath.Join [target; f]) "" 420
        (snd (touchLoop target pre fsOps om w1)) = (Err e, w2) ->
      createDirectoryStructure target mc fsOps om w
      = (Ok tt,
         snd (touchLoop target post fsOps om
                (snd (om_Warning om (touchWarning f e) w2))))
      /\ (OutputManager.Quiet om = false ->
          exists pr,
            In (mkMsg pr (touchWarning f e))
               (out (snd (createDirectoryStructure target mc fsOps om w)))))
  /\ (forall w1 e w2,
        createDirectoryStructure target mc fsOps om w = (Ok tt, w1) ->
        generateProjectFiles gf target mc cfg fsOps om w1 = (Err e, w2) ->
        executeSteps gf fl target cfg mc om fsOps w
        = (Err (Wrap "failed to generate project files" e), w2))
  /\ (forall w1 e w2,
        MkcdConfig.Readme mc = true ->
        call (GenerateReadme fsOps (GlobalFlags.dryRun gf) (GlobalFlags.verbose gf)
                (NewGenerationContext target cfg)) w1 = (Err e, w2) ->
        generateProjectFiles gf target mc cfg fsOps om w1
        = (Err (Wrap "failed to generate README" e), w2))
  /\ (forall w1 wa e w2,
        readmeStep gf target mc cfg fsOps w1 = (Ok tt, wa) ->
        MkcdConfig.Gitignore mc <> "" ->
        call (GenerateGitignore fsOps (GlobalFlags.dryRun gf) (GlobalFlags.verbose gf)
                (NewGenerationContext target cfg) (MkcdConfig.Gitignore mc)) wa
        = (Err e, w2) ->
        generateProjectFiles gf target mc cfg fsOps om w1
        = (Err (Wrap "failed to generate .gitignore" e), w2))
  /\ (forall w1 wa wb e w2,
        readmeStep gf target mc cfg fsOps w1 = (Ok tt, wa) ->
        gitignoreStep gf target mc cfg fsOps wa = (Ok tt, wb) ->
        MkcdConfig.License mc <> "" ->
        call (GenerateLicense fsOps (GlobalFlags.dryRun gf) (GlobalFlags.verbose gf)
                (NewGenerationContext target cfg) (MkcdConfig.License mc)) wb
        = (Err e, w2) ->
        generateProjectFiles gf target mc cfg fsOps om w1
        = (Err (Wrap "failed to generate LICENSE" e), w2)).
Proof.
  repeat apply conj.
  - intros w1 pre f post e w2 Hsym Hdir Htouch Hfail.
    assert (Hrun : createDirectoryStructure target mc fsOps om w
                   = (Ok tt,
                      snd (touchLoop target post fsOps om
                             (snd (om_Warning om (touchWarning f e) w2))))).
    { unfold createDirectoryStructure, bind.
      destruct (noteCustomMode mc om w) as [[] w0]. simpl in Hdir.
      rewrite Hsym. simpl. rewrite Hdir, Htouch, touchLoop_app.
      rewrite (touchLoop_failed _ _ _ _ _ _ _ _ Hfail).
      destruct (touchLoop target post fsOps om _) as [[] w3]. reflexivity. }
    split; [exact Hrun|].
    intros Hq. rewrite Hrun.
    destruct (om_Warning_out om (touchWarning f e) w2 Hq) as [pr Hpr].
    destruct (appends_touchLoop target post fsOps om
                (snd (om_Warning om (touchWarning f e) w2))) as [more Hmore].
    exists pr. simpl. rewrite Hmore, Hpr.
    apply in_or_app. left. apply in_or_app. right. left. reflexivity.
  - intros w1 e w2 Hdir Hgen. unfold executeSteps, bind.
    rewrite Hdir, Hgen. reflexivity.
  - intros w1 e w2 Hwanted Hgen. unfold generateProjectFiles, bind, readmeStep.
    rewrite Hwanted, (requested_fails _ _ _ _ _ Hgen). reflexivity.
  - intros w1 wa e w2 Hreadme Hwanted Hgen.
    unfold generateProjectFiles, bind. rewrite Hreadme.
    unfold gitignoreStep. apply String.eqb_neq in Hwanted. rewrite Hwanted.
    cbn [negb]. rewrite (requested_fails _ _ _ _ _ Hgen). reflexivity.
  - intros w1 wa wb e w2 Hreadme Hignore Hwanted Hgen.
    unfold generateProjectFiles, bind. rewrite Hreadme, Hignore.
    unfold licenseStep. apply String.eqb_neq in Hwanted. rewrite Hwanted.
    cbn [negb]. apply (requested_fails _ _ _ _ _ Hgen).
Qed.

(** [executeMkcd] reaches the steps once the target is determined and
    validated and no confirmation is asked for *)
Lemma executeMkcd_steps env gf fl dirName cfg mc om fsOps pv target (w : World F) :
  determineTargetPath env dirName mc cfg = Ok target ->
  utils.ValidatePath env pv target = Ok tt ->
  GlobalFlags.interactive gf = false ->
  executeMkcd env gf fl dirName cfg mc om fsOps pv w
  = executeSteps gf fl target cfg mc om fsOps w.
Proof.
  intros Ht Hv Hi. unfold executeMkcd. rewrite Ht, Hv, Hi. reflexivity.
Qed.

End FailurePolicy.

Lemma failure_policy_witness :
  fst (createDirectoryStructure (OS0 := SampleRun.os) "/work/proj" SampleRun.plan
         SampleRun.fsOps SampleRun.outputMgr SampleRun.existing) = Ok tt
  /\ fst (executeSteps (OS0 := SampleRun.os) (Collaborators0 := SampleRun.collaborators)
            SampleConfig.flags SampleRun.flags "/work/proj"
            (config.DefaultConfig Toy.env) SampleRun.plan SampleRun.outputMgr
            SampleRun.fsOps SampleRun.blocked)
     = Err (Wrap "failed to generate project files"
              (Wrap "failed to generate README"
                 (Wrap "failed to create file /work/proj/README.md"
                    (External "is a directory")))).
Proof.
  split.
  - destruct (failure_policy (OS0 := SampleRun.os)
                (Collaborators0 := SampleRun.collaborators)
                SampleConfig.flags SampleRun.flags "/work/proj"
                (config.DefaultConfig Toy.env) SampleRun.plan SampleRun.outputMgr
                SampleRun.fsOps SampleRun.existing) as [Hsoft _].
    pose (w1 := snd (CreateDirectory (OS0 := SampleRun.os) SampleRun.fsOps
                       "/work/proj" 493
                       (snd (noteCustomMode SampleRun.plan SampleRun.outputMgr
                               SampleRun.existing)))).
    pose (w2 := snd (CreateFile (OS0 := SampleRun.os) SampleRun.fsOps
                       (filepath.Join ["/work/proj"; "sub"]) "" 420 w1)).
    destruct (Hsoft w1 [] "sub" ["main.go"]
                (Wrap "failed to create file /work/proj/sub" (External "is a directory"))
                w2) as [Hrun _];
      [reflexivity | reflexivity | reflexivity | reflexivity |].
    rewrite Hrun. reflexivity.
  - destruct (failure_policy (OS0 := SampleRun.os)
                (Collaborators0 := SampleRun.collaborators)
                SampleConfig.flags SampleRun.flags "/work/proj"
                (config.DefaultConfig Toy.env) SampleRun.plan SampleRun.outputMgr
                SampleRun.fsOps SampleRun.blocked) as (_ & Hhard & Hreadme & _).
    pose (w1 := snd (createDirectoryStructure (OS0 := SampleRun.os) "/work/proj"
                       SampleRun.plan SampleRun.fsOps SampleRun.outputMgr
                       SampleRun.blocked)).
    pose (e := Wrap "failed to create file /work/proj/README.md"
                 (External "is a directory")).
    pose (w2 := snd (generateProjectFiles
                       (Collaborators0 := SampleRun.collaborators)
                       SampleConfig.flags "/work/proj" SampleRun.plan
                       (config.DefaultConfig Toy.env) SampleRun.fsOps
                       SampleRun.outputMgr w1)).
    rewrite (Hhard w1 (Wrap "failed to generate README" e) w2);
      [reflexivity | reflexivity |].
    apply (Hreadme w1 e w2); reflexivity.
Defined.

(** The scenario of the specification: a touch file cannot be created and
    the readme can; the run warns once, succeeds, and the readme is on the
    machine. *)
Example run_with_failing_touch :
  fst (runMkcd (OS0 := SampleRun.os) (Collaborators0 := SampleRun.collaborators)
         Toy.env SampleConfig.flags SampleRun.flags "proj" SampleRun.existing) = Ok tt
  /\ fs (snd (runMkcd (OS0 := SampleRun.os) (Collaborators0 := SampleRun.collaborators)
                Toy.env SampleConfig.flags SampleRun.flags "proj" SampleRun.existing))
     !! "/work/proj/README.md" = Some (Toy.File "# readme")
  /\ List.filter (fun m => match printer m with PWarning => true | _ => false end)
       (out (snd (runMkcd (OS0 := SampleRun.os)
                    (Collaborators0 := SampleRun.collaborators)
                    Toy.env SampleConfig.flags SampleRun.flags "proj"
                    SampleRun.existing)))
     = [mkMsg PWarning
          (touchWarning "sub"
             (Wrap "failed to create file /work/proj/sub" (External "is a directory")))].
Proof. repeat split; vm_compute; reflexivity. Qed.

(* ===================================================================== *)
(** * The shape of cleaned paths                                          *)
(* ===================================================================== *)

Section CleanShape.

Lemma Split_no_sep s :
  Forall (fun e => strings.Count e filepath.Separator = 0%Z)
         (strings.Split s filepath.Separator).
Proof.
  induction s as [|c s IH]; simpl.
  - repeat constructor.
  - destruct (Ascii.eqb c filepath.Separator) eqn:Hc.
    + constructor; [reflexivity | exact IH].
    + destruct (strings.Split s filepath.Separator) as [|x r].
      * constructor; [simpl; rewrite Hc; reflexivity | constructor].
      * inversion IH; subst.
        constructor; [simpl; rewrite Hc; lia | assumption].
Qed.

Lemma Split_one x :
  strings.Count x filepath.Separator = 0%Z ->
  strings.Split x filepath.Separator = [x].
Proof.
  induction x as [|c x IH]; simpl; intros H; [reflexivity|].
  pose proof (Count_nonneg x filepath.Separator).
  destruct (Ascii.eqb c filepath.Separator); [lia|].
  rewrite IH by lia. reflexivity.
Qed.

Lemma Split_app_sep x s :
  strings.Count x filepath.Separator = 0%Z ->
  strings.Split (x ++ filepath.sep ++ s) filepath.Separator
  = x :: strings.Split s filepath.Separator.
Proof.
  induction x as [|c x IH]; intros H; [reflexivity|].
  change (String c x ++ filepath.sep ++ s) with (String c (x ++ filepath.sep ++ s)).
  cbn [strings.Split strings.Count] in *.
  pose proof (Count_nonneg x filepath.Separator).
  destruct (Ascii.eqb c filepath.Separator); [lia|].
  rewrite IH by lia. reflexivity.
Qed.

(** splitting undoes joining *)
Lemma Split_Join l :
  l <> [] -> Forall (fun e => strings.Count e filepath.Separator = 0%Z) l ->
  strings.Split (strings.Join l filepath.sep) filepath.Separator = l.
Proof.
  intros Hne Hall. induction Hall as [|x l Hx Hall IH]; [congruence|].
  destruct l as [|y l].
  - simpl. apply Split_one, Hx.
  - change (strings.Join (x :: y :: l) filepath.sep)
      with (x ++ filepath.sep ++ strings.Join (y :: l) filepath.sep).
    rewrite Split_app_sep by exact Hx. rewrite IH by discriminate. reflexivity.
Qed.

Lemma Join_app l1 l2 :
  l1 <> [] -> l2 <> [] ->
  strings.Join (l1 ++ l2) filepath.sep
  = strings.Join l1 filepath.sep ++ filepath.sep ++ strings.Join l2 filepath.sep.
Proof.
  intros H1 H2. induction l1 as [|x l1 IH]; [congruence|].
  destruct l1 as [|y l1].
  - destruct l2; [congruence | reflexivity].
  - change (strings.Join ((x :: y :: l1) ++ l2) filepath.sep)
      with (x ++ filepath.sep ++ strings.Join ((y :: l1) ++ l2) filepath.sep).
    rewrite IH by discriminate.
    change (strings.Join (x :: y :: l1) filepath.sep)
      with (x ++ filepath.sep ++ strings.Join (y :: l1) filepath.sep).
    rewrite !append_assoc. reflexivity.
Qed.

Lemma Join_empty_iff l :
  Forall cleanElem l -> (strings.Join l filepath.sep = "" <-> l = []).
Proof.
  intros Hall. split; [|intros ->; reflexivity].
  destruct Hall as [|x l [[Hne _] _] _]; [reflexivity|].
  destruct x; [congruence|]. destruct l; discriminate.
Qed.

Lemma cleanElem_kept e : cleanElem e -> kept e.
Proof. intros [Hs _]. split; [apply Hs | apply segment_not_abs, Hs]. Qed.

Lemma cleanElem_dotdot : cleanElem "..".
Proof. repeat split; discriminate. Qed.

Lemma cleanStep_stackOK rooted out elem :
  stackOK rooted out -> strings.Count elem filepath.Separator = 0%Z ->
  stackOK rooted (filepath.cleanStep rooted out elem).
Proof.
  intros [Hall Hshape] Hsep. unfold filepath.cleanStep.
  destruct (String.eqb_spec elem "") as [->|Hne]; simpl; [split; assumption|].
  destruct (String.eqb_spec elem ".") as [->|Hnd]; [split; assumption|].
  assert (He : cleanElem elem) by (repeat split; assumption).
  destruct (String.eqb_spec elem "..") as [->|Hndd].
  - destruct out as [|top rest].
    + destruct rooted; split; try constructor; auto.
      exists [], [".."]. repeat split; repeat constructor.
    + inversion Hall; subst.
      destruct (String.eqb_spec top "..") as [->|Htop].
      * destruct rooted; [split; assumption|].
        split; [constructor; assumption|].
        destruct Hshape as (reals & dots & Heq & Hd & Hr).
        destruct reals as [|r reals].
        -- exists [], (".." :: dots). simpl in *. subst dots.
           repeat split; [constructor; [reflexivity|assumption] | constructor].
        -- simpl in Heq. injection Heq as <- _. inversion Hr; subst. congruence.
      * split; [assumption|].
        destruct rooted.
        -- inversion Hshape; assumption.
        -- destruct Hshape as (reals & dots & Heq & Hd & Hr).
           destruct reals as [|r reals].
           ++ simpl in Heq. subst dots. inversion Hd; subst. congruence.
           ++ simpl in Heq. injection Heq as <- ->. inversion Hr; subst.
              exists reals, dots. auto.
  - split; [constructor; assumption|].
    destruct rooted.
    + constructor; assumption.
    + destruct Hshape as (reals & dots & -> & Hd & Hr).
      exists (elem :: reals), dots. repeat split; [assumption | constructor; assumption].
Qed.

Lemma fold_cleanStep_stackOK rooted elems out :
  stackOK rooted out ->
  Forall (fun e => strings.Count e filepath.Separator = 0%Z) elems ->
  stackOK rooted (fold_left (filepath.cleanStep rooted) elems out).
Proof.
  revert out. induction elems as [|e elems IH]; intros out Hout Hel; simpl.
  - assumption.
  - inversion Hel; subst. apply IH; [apply cleanStep_stackOK|]; assumption.
Qed.

Lemma stackOK_nil rooted : stackOK rooted [].
Proof.
  split; [constructor|]. destruct rooted; [constructor|].
  exists [], []. repeat split; constructor.
Qed.

(** Every cleaned path is the root followed by proper elements, none of
    them a parent-directory element, or a relative path of proper
    elements with the parent-directory elements in front, or [.]. *)
Lemma Clean_shape path :
  exists l,
    Forall cleanElem l
    /\ if filepath.IsAbs path
       then Forall (fun e => e <> "..") l
            /\ filepath.Clean path = filepath.sep ++ strings.Join l filepath.sep
       else dotsFirst l
            /\ filepath.Clean path
               = match l with [] => "." | _ => strings.Join l filepath.sep end.
Proof.
  unfold filepath.Clean.
  destruct (String.eqb_spec path "") as [->|Hne].
  { exists []. split; [constructor|]. simpl. split; [|reflexivity].
    exists [], []. repeat split; constructor. }
  set (out := fold_left _ _ _).
  assert (Hok : stackOK (filepath.IsAbs path) out).
  { apply fold_cleanStep_stackOK; [apply stackOK_nil | apply Split_no_sep]. }
  destruct Hok as [Hall Hshape].
  exists (rev out). split; [apply Forall_rev, Hall|].
  destruct (filepath.IsAbs path).
  - split; [apply Forall_rev, Hshape | reflexivity].
  - split.
    + destruct Hshape as (reals & dots & -> & Hd & Hr).
      exists (rev dots), (rev reals). rewrite rev_app_distr.
      repeat split; apply Forall_rev; assumption.
    + destruct (String.eqb_spec (strings.Join (rev out) filepath.sep) "") as [E|E].
      * apply Join_empty_iff in E; [|apply Forall_rev, Hall]. rewrite E. reflexivity.
      * destruct (rev out); [exfalso; apply E; reflexivity | reflexivity].
Qed.

End CleanShape.

Section CleanFixed.

(** elements that are not parent-directory elements are pushed *)
Lemma fold_push_reals rooted l acc :
  Forall cleanElem l -> Forall (fun e => e <> "..") l ->
  fold_left (filepath.cleanStep rooted) l acc = (rev l ++ acc)%list.
Proof.
  revert acc. induction l as [|e l IH]; intros acc Hall Hnd; [reflexivity|].
  inversion Hall as [|? ? [[Hne _] Hdot] Hall']; subst.
  inversion Hnd; subst. simpl.
  rewrite IH by assumption.
  unfold filepath.cleanStep.
  apply String.eqb_neq in Hne, Hdot. rewrite Hne, Hdot. simpl.
  destruct (String.eqb_spec e ".."); [congruence|].
  rewrite <- app_assoc. reflexivity.
Qed.

(** on a relative path, parent-directory elements pile up at the bottom *)
Lemma fold_push_dots l acc :
  Forall (fun e => e = "..") l -> Forall (fun e => e = "..") acc ->
  fold_left (filepath.cleanStep false) l acc = (rev l ++ acc)%list.
Proof.
  revert acc. induction l as [|e l IH]; intros acc Hl Hacc; [reflexivity|].
  inversion Hl; subst. simpl.
  assert (Hstep : filepath.cleanStep false acc ".." = ".." :: acc).
  { destruct acc as [|top rest]; [reflexivity|].
    inversion Hacc; subst. reflexivity. }
  rewrite Hstep, IH by (try constructor; auto).
  rewrite <- app_assoc. reflexivity.
Qed.

Lemma fold_dotsFirst l :
  Forall cleanElem l -> dotsFirst l ->
  fold_left (filepath.cleanStep false) l [] = rev l.
Proof.
  intros Hall (dots & reals & -> & Hd & Hr).
  apply Forall_app in Hall as [_ Hreals].
  rewrite fold_left_app, (fold_push_dots dots []) by (assumption || constructor).
  rewrite fold_push_reals by assumption.
  rewrite app_nil_r, rev_app_distr. reflexivity.
Qed.

Lemma cleanElem_no_sep l :
  Forall cleanElem l -> Forall (fun e => strings.Count e filepath.Separator = 0%Z) l.
Proof. apply List.Forall_impl. intros e [[_ H] _]. exact H. Qed.

(** A rooted path of proper elements, empty elements allowed between
    them, is cleaned to its proper elements. *)
Lemma Clean_rooted ws :
  Forall (fun e => e = "" \/ (cleanElem e /\ e <> "..")) ws ->
  filepath.Clean (filepath.sep ++ strings.Join ws filepath.sep)
  = filepath.sep
    ++ strings.Join (List.filter (fun e => negb (String.eqb e "")) ws) filepath.sep.
Proof.
  intros Hall. unfold filepath.Clean.
  destruct (String.eqb_spec (filepath.sep ++ strings.Join ws filepath.sep) "")
    as [E|_]; [discriminate E|].
  unfold filepath.IsAbs at 1 2. rewrite HasPrefix_self_app.
  assert (Hfold : forall l acc,
             Forall (fun e => e = "" \/ (cleanElem e /\ e <> "..")) l ->
             fold_left (filepath.cleanStep true) l acc
             = (rev (List.filter (fun e => negb (String.eqb e "")) l) ++ acc)%list).
  { induction l as [|e l IH]; intros acc Hl; [reflexivity|].
    inversion Hl as [|? ? He Hl']; subst. simpl. rewrite IH by assumption.
    destruct He as [-> | [[[Hne _] Hdot] Hdd]].
    - reflexivity.
    - unfold filepath.cleanStep.
      apply String.eqb_neq in Hne, Hdot, Hdd. rewrite Hne, Hdot, Hdd. simpl.
      rewrite <- app_assoc. reflexivity. }
  assert (Hsplit : fold_left (filepath.cleanStep true)
                     (strings.Split (filepath.sep ++ strings.Join ws filepath.sep)
                        filepath.Separator) []
                   = rev (List.filter (fun e => negb (String.eqb e "")) ws)).
  { destruct ws as [|w ws].
    - reflexivity.
    - change (filepath.sep ++ strings.Join (w :: ws) filepath.sep)
        with ("" ++ filepath.sep ++ strings.Join (w :: ws) filepath.sep).
      rewrite Split_app_sep by reflexivity.
      rewrite Split_Join; [|discriminate|].
      + rewrite Hfold by (constructor; [left; reflexivity | assumption]).
        rewrite app_nil_r. reflexivity.
      + eapply List.Forall_impl; [|exact Hall].
        intros e [-> | [[[_ H] _] _]]; [reflexivity | exact H]. }
  rewrite Hsplit, rev_involutive. reflexivity.
Qed.

Lemma filter_nonempty_id l :
  Forall cleanElem l -> List.filter (fun e => negb (String.eqb e "")) l = l.
Proof.
  induction 1 as [|e l [[Hne _] _] _ IH]; [reflexivity|].
  simpl. apply String.eqb_neq in Hne. rewrite Hne, IH. reflexivity.
Qed.

Lemma Clean_rooted_fixed l :
  Forall cleanElem l -> Forall (fun e => e <> "..") l ->
  filepath.Clean (filepath.sep ++ strings.Join l filepath.sep)
  = filepath.sep ++ strings.Join l filepath.sep.
Proof.
  intros Hall Hnd. rewrite Clean_rooted.
  - rewrite filter_nonempty_id by assumption. reflexivity.
  - rewrite List.Forall_forall in *. intros e He. right. auto.
Qed.

Lemma Clean_relative_fixed l :
  Forall cleanElem l -> dotsFirst l -> l <> [] ->
  filepath.Clean (strings.Join l filepath.sep) = strings.Join l filepath.sep.
Proof.
  intros Hall Hshape Hne. unfold filepath.Clean.
  assert (Hbody : strings.Join l filepath.sep <> "")
    by (intros E; apply Join_empty_iff in E; auto).
  apply String.eqb_neq in Hbody. rewrite Hbody.
  unfold filepath.IsAbs.
  rewrite Join_kept_not_abs
    by (eapply List.Forall_impl; [apply cleanElem_kept | exact Hall]).
  rewrite Split_Join by (auto using cleanElem_no_sep).
  rewrite fold_dotsFirst, rev_involutive, Hbody by assumption. reflexivity.
Qed.

(** cleaning a cleaned path changes nothing *)
Lemma Clean_idempotent path :
  filepath.Clean (filepath.Clean path) = filepath.Clean path.
Proof.
  destruct (Clean_shape path) as (l & Hall & Hshape).
  destruct (filepath.IsAbs path).
  - destruct Hshape as [Hnd ->]. apply Clean_rooted_fixed; assumption.
  - destruct Hshape as [Hd ->]. destruct l as [|e l]; [reflexivity|].
    apply Clean_relative_fixed; [assumption | assumption | discriminate].
Qed.

Lemma Clean_nonempty path : filepath.Clean path <> "".
Proof.
  destruct (Clean_shape path) as (l & Hall & Hshape).
  destruct (filepath.IsAbs path).
  - destruct Hshape as [_ ->]. discriminate.
  - destruct Hshape as [_ ->]. destruct l as [|e l]; [discriminate|].
    intros E. apply Join_empty_iff in E; [discriminate | assumption].
Qed.

Lemma Clean_IsAbs path :
  filepath.IsAbs (filepath.Clean path) = filepath.IsAbs path.
Proof.
  destruct (Clean_shape path) as (l & Hall & Hshape).
  destruct (filepath.IsAbs path) eqn:E.
  - destruct Hshape as [_ ->]. apply HasPrefix_self_app.
  - destruct Hshape as [_ ->]. destruct l as [|e l]; [reflexivity|].
    apply Join_kept_not_abs.
    eapply List.Forall_impl; [apply cleanElem_kept | exact Hall].
Qed.

End CleanFixed.

(* ===================================================================== *)
(** * Sanitized and absolute paths                                        *)
(* ===================================================================== *)

(** X1.  Sanitizing is idempotent: a path [SanitizePath] returns is
    returned unchanged when sanitized again, and cleaning leaves it as it
    is.  So the validation of an already sanitized path checks that very
    path. *)
Theorem SanitizePath_idempotent (path clean : string)
    (Hok : utils.SanitizePath path = Ok clean) :
  utils.SanitizePath clean = Ok clean /\ filepath.Clean clean = clean.
Proof.
  unfold utils.SanitizePath in *.
  destruct (strings.Contains (filepath.Clean path) "..") eqn:Hdd; [discriminate|].
  destruct (_ || _) eqn:Hempty; [discriminate|].
  injection Hok as <-.
  rewrite Clean_idempotent, Hdd, Hempty. split; reflexivity.
Qed.

Lemma SanitizePath_idempotent_witness :
  utils.SanitizePath "a//b/./c/" = Ok "a/b/c"
  /\ utils.SanitizePath "a/b/c" = Ok "a/b/c".
Proof.
  split; [reflexivity|].
  apply (SanitizePath_idempotent "a//b/./c/" "a/b/c"). reflexivity.
Defined.

(** X2.  Every path [SanitizePath] returns is the root or is made of one
    or more proper segments (non-empty, without a separator, none of them
    [.] or [..]) joined by single separators, relative or absolute; the
    depth the depth check computes for it is the number of its segments
    less one. *)
Theorem SanitizePath_shape (path clean : string)
    (Hok : utils.SanitizePath path = Ok clean) :
  clean = "/"
  \/ exists segs,
      segs <> []
      /\ Forall (fun s => segment s /\ s <> "." /\ s <> "..") segs
      /\ (clean = relativePath segs \/ clean = absolutePath segs)
      /\ utils.pathDepth clean = (Z.of_nat (List.length segs) - 1)%Z.
Proof.
  unfold utils.SanitizePath in Hok.
  destruct (strings.Contains (filepath.Clean path) "..") eqn:Hdd; [discriminate|].
  destruct (String.eqb_spec (filepath.Clean path) "") as [|_]; [discriminate|].
  destruct (String.eqb_spec (filepath.Clean path) ".") as [|Hdot]; [discriminate|].
  injection Hok as <-.
  destruct (Clean_shape path) as (l & Hall & Hshape).
  assert (Hcut : forall a b, strings.Contains (a ++ b) ".." = false ->
                             strings.Contains b ".." = false).
  { induction a as [|c a IHa]; intros b H; [exact H|].
    apply IHa. simpl in H. apply orb_false_iff in H as [_ H]. exact H. }
  assert (Hnodd : forall pre, filepath.Clean path = pre ++ strings.Join l filepath.sep ->
                  Forall (fun s => segment s /\ s <> "." /\ s <> "..") l).
  { intros pre Heq. rewrite Heq in Hdd. apply Hcut in Hdd. clear Heq Hshape.
    induction Hall as [|e l [Hs Hd] Hall IH]; [constructor|].
    constructor.
    - repeat split; try apply Hs; try assumption.
      intros ->. pose proof (Join_cons_prefix ".." l) as Hp.
      apply Contains_of_prefix in Hp. congruence.
    - destruct l as [|e' l']; [constructor|].
      apply IH.
      change (strings.Join (e :: e' :: l') filepath.sep)
        with (e ++ filepath.sep ++ strings.Join (e' :: l') filepath.sep) in Hdd.
      rewrite <- append_assoc in Hdd. apply Hcut in Hdd. exact Hdd. }
  assert (Hsegs : forall segs, Forall (fun s => segment s /\ s <> "." /\ s <> "..") segs ->
                               Forall segment segs).
  { intros segs. apply List.Forall_impl. tauto. }
  destruct (filepath.IsAbs path).
  - destruct Hshape as [_ Heq]. destruct l as [|e l]; [left; exact Heq|].
    right. exists (e :: l). pose proof (Hnodd filepath.sep Heq) as Hl.
    split; [discriminate|]. split; [exact Hl|]. rewrite Heq.
    split; [right; reflexivity|].
    apply (pathDepth_absolute (e :: l)); [auto | discriminate].
  - destruct Hshape as [_ Heq]. destruct l as [|e l]; [congruence|].
    right. exists (e :: l). pose proof (Hnodd "" Heq) as Hl.
    split; [discriminate|]. split; [exact Hl|]. rewrite Heq.
    split; [left; reflexivity|].
    apply (pathDepth_relative (e :: l)); [auto | discriminate].
Qed.

Lemma SanitizePath_shape_witness :
  "/home/user/proj" = "/"
  \/ exists segs,
      segs <> []
      /\ Forall (fun s => segment s /\ s <> "." /\ s <> "..") segs
      /\ ("/home/user/proj" = relativePath segs
          \/ "/home/user/proj" = absolutePath segs)
      /\ utils.pathDepth "/home/user/proj" = (Z.of_nat (List.length segs) - 1)%Z.
Proof.
  apply (SanitizePath_shape "/home//user/./proj" "/home/user/proj"). reflexivity.
Defined.

Section AbsolutePaths.

Lemma rootedElems l :
  Forall rootedElem l ->
  Forall cleanElem l /\ Forall (fun e => e <> "..") l.
Proof. intros H. split; eapply List.Forall_impl; try exact H; intros e []; assumption. Qed.

Lemma absolutePath_fixed l :
  Forall rootedElem l -> filepath.Clean (absolutePath l) = absolutePath l.
Proof. intros H. apply rootedElems in H as []. apply Clean_rooted_fixed; assumption. Qed.

(** an absolute path of proper elements is its own absolute path *)
Lemma GetAbsolutePath_fixed env l :
  Forall rootedElem l -> utils.GetAbsolutePath env (absolutePath l) = Ok (absolutePath l).
Proof.
  intros H. unfold utils.GetAbsolutePath, filepathEnv.Abs.
  change (strings.HasPrefix (absolutePath l) "~/") with false. cbv iota.
  unfold filepath.IsAbs, absolutePath at 1. rewrite HasPrefix_self_app.
  rewrite absolutePath_fixed by assumption. reflexivity.
Qed.

(** X3.  Where the working directory is rooted, as [os.Getwd] gives it,
    the path [GetAbsolutePath] returns is rooted and cleaned: the root
    followed by proper elements, none of them empty, [.] or [..]. *)
Theorem GetAbsolutePath_shape (env : Env) (path absPath : string)
    (Hwd : forall wd, Getwd env = Ok wd -> filepath.IsAbs wd = true)
    (Habs : utils.GetAbsolutePath env path = Ok absPath) :
  exists l, Forall rootedElem l /\ absPath = absolutePath l.
Proof.
  assert (Hclean : forall q, filepath.IsAbs q = true ->
            exists l, Forall rootedElem l /\ filepath.Clean q = absolutePath l).
  { intros q Hq. destruct (Clean_shape q) as (l & Hall & Hshape).
    rewrite Hq in Hshape. destruct Hshape as [Hnd Heq].
    exists l. split; [|exact Heq].
    rewrite List.Forall_forall in *. intros e He. split; auto. }
  assert (Hres : forall q a, filepathEnv.Abs env q = Ok a ->
            exists l, Forall rootedElem l /\ a = absolutePath l).
  { unfold filepathEnv.Abs. intros q a H.
    destruct (filepath.IsAbs q) eqn:Hq.
    - injection H as <-. apply Hclean, Hq.
    - destruct (Getwd env) as [wd|] eqn:Hg; [|discriminate].
      injection H as <-. specialize (Hwd wd eq_refl).
      assert (Hne : wd <> "") by (intros ->; discriminate).
      simpl. apply String.eqb_neq in Hne. rewrite Hne.
      apply Hclean. unfold filepath.IsAbs in *.
      change (strings.Join [wd; q] filepath.sep) with (wd ++ filepath.sep ++ q).
      unfold filepath.sep in *. rewrite HasPrefix_byte_app; [exact Hwd|].
      apply String.eqb_neq, Hne. }
  unfold utils.GetAbsolutePath in Habs.
  destruct (strings.HasPrefix path "~/").
  - destruct (UserHomeDir env); [|discriminate].
    destruct (filepathEnv.Abs env _) eqn:E; [|discriminate].
    injection Habs as <-. eapply Hres, E.
  - destruct (filepathEnv.Abs env _) eqn:E; [|discriminate].
    injection Habs as <-. eapply Hres, E.
Qed.

Lemma GetAbsolutePath_shape_witness :
  exists l, Forall rootedElem l /\ "/work/x" = absolutePath l.
Proof.
  apply (GetAbsolutePath_shape Toy.env "a/../x/./" "/work/x").
  - intros wd [= <-]. reflexivity.
  - reflexivity.
Defined.

Lemma Join_pad l :
  strings.Join (match l with [] => [""] | _ => l end) filepath.sep
  = strings.Join l filepath.sep.
Proof. destruct l; reflexivity. Qed.

(** joining a rooted path and a relative one, both of proper elements *)
Lemma Join_rooted a n :
  Forall rootedElem a -> Forall rootedElem n ->
  filepath.Join [absolutePath a; relativePath n] = absolutePath (a ++ n).
Proof.
  intros Ha Hn. unfold filepath.Join.
  change (String.eqb (absolutePath a) "") with false. cbv iota.
  change (strings.Join [absolutePath a; relativePath n] filepath.sep)
    with (absolutePath a ++ filepath.sep ++ relativePath n).
  unfold absolutePath, relativePath.
  rewrite append_assoc, <- (Join_pad a), <- (Join_pad n).
  rewrite <- Join_app by (destruct a, n; discriminate).
  rewrite Clean_rooted.
  - f_equal. f_equal. rewrite List.filter_app.
    apply rootedElems in Ha as [Ha _], Hn as [Hn _].
    assert (Hf : forall l, Forall cleanElem l ->
              List.filter (fun e => negb (String.eqb e ""))
                          (match l with [] => [""] | _ => l end) = l).
    { intros l Hl. destruct l; [reflexivity | apply filter_nonempty_id, Hl]. }
    rewrite !Hf by assumption. reflexivity.
  - assert (Hpad : forall l, Forall rootedElem l ->
              Forall (fun e => e = "" \/ (cleanElem e /\ e <> ".."))
                     (match l with [] => [""] | _ => l end)).
    { intros l Hl. destruct l; [repeat constructor|].
      eapply List.Forall_impl; [|exact Hl]. intros e []. right. split; assumption. }
    apply Forall_app; split; apply Hpad; assumption.
Qed.

(** X4.  For a name made of proper elements, the target of a run that is
    not temporary is the working directory followed by the name. *)
Theorem determineTargetPath_plain
    (env : Env) (cwd name : list string) (mc : MkcdConfig.t) (cfg : Config.t)
    (Htemp : MkcdConfig.Temp mc = false)
    (Hwd : Getwd env = Ok (absolutePath cwd))
    (Hcwd : Forall rootedElem cwd) (Hname : Forall rootedElem name) :
  determineTargetPath env (relativePath name) mc cfg
  = Ok (absolutePath (cwd ++ name)).
Proof.
  unfold determineTargetPath. rewrite Htemp, Hwd.
  rewrite Join_rooted, GetAbsolutePath_fixed; [reflexivity| |assumption..].
  apply Forall_app; split; assumption.
Qed.

Lemma determineTargetPath_plain_witness :
  determineTargetPath Toy.env "projects/demo" SampleRun.plan
    (config.DefaultConfig Toy.env)
  = Ok "/work/projects/demo".
Proof.
  apply (determineTargetPath_plain Toy.env ["work"] ["projects"; "demo"]).
  - reflexivity.
  - reflexivity.
  - repeat constructor; discriminate.
  - repeat constructor; discriminate.
Defined.

End AbsolutePaths.

Section JoinAndSubPath.

Lemma fold_Join_rooted names root :
  Forall (Forall rootedElem) names -> Forall rootedElem root ->
  fold_left (fun result path => filepath.Join [result; path])
            (map relativePath names) (absolutePath root)
  = absolutePath (root ++ concat names).
Proof.
  intros Hnames. revert root.
  induction Hnames as [|n names Hn Hnames IH]; intros root Hroot.
  - simpl. rewrite app_nil_r. reflexivity.
  - cbn [map fold_left concat]. rewrite Join_rooted by assumption.
    rewrite IH by (apply Forall_app; split; assumption).
    rewrite <- app_assoc. reflexivity.
Qed.

(** X5.  [JoinPaths] of a rooted path followed by relative paths, all of
    proper elements, is the rooted path of all the elements in order. *)
Theorem JoinPaths_rooted (root : list string) (names : list (list string))
    (Hroot : Forall rootedElem root)
    (Hnames : Forall (Forall rootedElem) names) :
  utils2.JoinPaths (absolutePath root :: map relativePath names)
  = absolutePath (root ++ concat names).
Proof.
  unfold utils2.JoinPaths. rewrite fold_Join_rooted by assumption.
  apply absolutePath_fixed, Forall_app. split; [assumption|].
  apply Forall_concat, Hnames.
Qed.

Lemma JoinPaths_rooted_witness :
  utils2.JoinPaths ["/home/user"; "src"; ""; "pkg/mod"] = "/home/user/src/pkg/mod".
Proof.
  apply (JoinPaths_rooted ["home"; "user"] [["src"]; []; ["pkg"; "mod"]]);
    repeat constructor; discriminate.
Defined.

(** X6.  [JoinPaths] returns the empty string for no component only; for
    one component or more the result is a cleaned path, which cleaning
    leaves as it is. *)
Theorem JoinPaths_cleaned (paths : list string) :
  (utils2.JoinPaths paths = "" <-> paths = [])
  /\ (paths <> [] -> filepath.Clean (utils2.JoinPaths paths) = utils2.JoinPaths paths).
Proof.
  destruct paths as [|first rest]; cbn [utils2.JoinPaths].
  - split; [tauto | congruence].
  - split.
    + split; [|discriminate]. intros H. exfalso. eapply Clean_nonempty, H.
    + intros _. apply Clean_idempotent.
Qed.

Lemma HasSuffix_sep_app t s :
  segment s -> strings2.HasSuffix (t ++ s) filepath.sep = false.
Proof.
  intros [Hne Hcnt].
  assert (Hs : forall u, u <> "" -> strings.Count u filepath.Separator = 0%Z ->
                 strings2.HasSuffix u filepath.sep = false).
  { induction u as [|c u IH]; intros Hu Hc; [congruence|].
    cbn [strings.Count] in Hc. pose proof (Count_nonneg u filepath.Separator).
    destruct (Ascii.eqb c filepath.Separator) eqn:E; [lia|].
    cbn [strings2.HasSuffix]. unfold filepath.sep. cbn [String.eqb].
    rewrite E. cbn [andb orb].
    destruct u as [|d u]; [reflexivity|].
    apply IH; [discriminate | lia]. }
  induction t as [|a t IH]; [apply Hs; assumption|].
  change (String a t ++ s) with (String a (t ++ s)).
  cbn [strings2.HasSuffix]. rewrite IH, orb_false_r.
  unfold filepath.sep. cbn [String.eqb].
  destruct (t ++ s) eqn:E.
  - destruct t, s; try discriminate. congruence.
  - destruct (Ascii.eqb a filepath.Separator); reflexivity.
Qed.

Lemma Join_last l :
  l <> [] -> Forall cleanElem l ->
  exists t s, strings.Join l filepath.sep = t ++ s /\ segment s.
Proof.
  induction l as [|e l IH]; intros Hne Hall; [congruence|].
  inversion Hall as [|? ? [He _] Hl]; subst.
  destruct l as [|e' l].
  - exists "", e. split; [reflexivity | assumption].
  - destruct IH as (t & s & Heq & Hs); [discriminate | assumption |].
    exists (e ++ filepath.sep ++ t), s. split; [|assumption].
    change (strings.Join (e :: e' :: l) filepath.sep)
      with (e ++ filepath.sep ++ strings.Join (e' :: l) filepath.sep).
    rewrite Heq, !append_assoc. reflexivity.
Qed.

Lemma HasPrefix_nil_l p : p <> "" -> strings.HasPrefix "" p = false.
Proof. destruct p; [congruence | reflexivity]. Qed.

(** comparing the first elements of two paths *)
Lemma HasPrefix_element p c x y :
  strings.Count p filepath.Separator = 0%Z ->
  strings.Count c filepath.Separator = 0%Z ->
  (x = "" \/ exists z, x = filepath.sep ++ z) ->
  strings.HasPrefix (c ++ x) (p ++ filepath.sep ++ y)
  = String.eqb p c && strings.HasPrefix x (filepath.sep ++ y).
Proof.
  revert c. induction p as [|a p IH]; intros c Hp Hc Hx.
  - destruct c as [|d c]; [reflexivity|].
    cbn [strings.Count] in Hc. pose proof (Count_nonneg c filepath.Separator).
    destruct (Ascii.eqb d filepath.Separator) eqn:E; [lia|].
    change (String d c ++ x) with (String d (c ++ x)).
    change ("" ++ filepath.sep ++ y) with (String filepath.Separator y).
    cbn [strings.HasPrefix String.eqb]. rewrite E. reflexivity.
  - cbn [strings.Count] in Hp. pose proof (Count_nonneg p filepath.Separator).
    destruct (Ascii.eqb a filepath.Separator) eqn:E; [lia|].
    destruct c as [|d c].
    + destruct Hx as [-> | [z ->]]; [reflexivity|].
      change ("" ++ filepath.sep ++ z) with (String filepath.Separator z).
      change (String a p ++ filepath.sep ++ y) with (String a (p ++ filepath.sep ++ y)).
      cbn [strings.HasPrefix String.eqb]. rewrite Ascii.eqb_sym, E. reflexivity.
    + cbn [strings.Count] in Hc. pose proof (Count_nonneg c filepath.Separator).
      destruct (Ascii.eqb d filepath.Separator) eqn:E'; [lia|].
      change (String d c ++ x) with (String d (c ++ x)).
      change (String a p ++ filepath.sep ++ y) with (String a (p ++ filepath.sep ++ y)).
      cbn [strings.HasPrefix String.eqb].
      rewrite IH by (assumption || lia).
      rewrite (Ascii.eqb_sym d a).
      destruct (Ascii.eqb a d), (String.eqb p c); reflexivity.
Qed.

Lemma HasPrefix_elements ps cs :
  ps <> [] -> Forall cleanElem ps -> Forall cleanElem cs ->
  strings.HasPrefix (strings.Join cs filepath.sep)
                    (strings.Join ps filepath.sep ++ filepath.sep)
  = properPrefix ps cs.
Proof.
  intros Hne Hps. revert cs.
  induction Hps as [|p ps [[_ Hp] _] Hps IH]; intros cs Hcs; [congruence|].
  destruct cs as [|c cs].
  - simpl. apply HasPrefix_nil_l.
    destruct ps; simpl; destruct p; discriminate.
  - inversion Hcs as [|? ? [[_ Hc] _] Hcs']; subst.
    assert (Hx : forall l, strings.Join (c :: l) filepath.sep
                 = c ++ match l with [] => "" | _ => filepath.sep ++ strings.Join l filepath.sep end).
    { intros [|? ?]; [symmetry; apply append_nil_r | reflexivity]. }
    assert (Hy : strings.Join (p :: ps) filepath.sep ++ filepath.sep
                 = p ++ filepath.sep
                   ++ match ps with [] => "" | _ => strings.Join ps filepath.sep ++ filepath.sep end).
    { destruct ps; [reflexivity|].
      change (strings.Join (p :: s :: ps) filepath.sep)
        with (p ++ filepath.sep ++ strings.Join (s :: ps) filepath.sep).
      rewrite !append_assoc. reflexivity. }
    rewrite Hx, Hy, HasPrefix_element; try assumption.
    + cbn [properPrefix]. f_equal.
      destruct cs as [|c' cs].
      * destruct ps as [|p' ps]; [reflexivity|].
        cbn [properPrefix]. reflexivity.
      * unfold filepath.sep at 1 3.
        change (String filepath.Separator "" ++ ?a) with (String filepath.Separator a).
        destruct ps as [|p' ps].
        -- cbn [strings.HasPrefix properPrefix]. rewrite Ascii.eqb_refl.
           destruct (strings.Join (c' :: cs) filepath.sep); reflexivity.
        -- rewrite <- (IH ltac:(discriminate) (c' :: cs) Hcs').
           cbn [strings.HasPrefix]. rewrite Ascii.eqb_refl. reflexivity.
    + destruct cs; [left; reflexivity | right; eexists; reflexivity].
Qed.

(** X7.  Between two rooted paths of proper elements, [IsSubPath] holds
    exactly when the parent's elements are a proper prefix of the
    child's; the root is the one exception, being reported as a
    sub-path of itself too. *)
Theorem IsSubPath_elements (env : Env) (parent child : list string)
    (Hparent : Forall rootedElem parent) (Hchild : Forall rootedElem child) :
  utils2.IsSubPath env (absolutePath parent) (absolutePath child)
  = Ok (match parent with [] => true | _ => properPrefix parent child end).
Proof.
  unfold utils2.IsSubPath. rewrite !GetAbsolutePath_fixed by assumption.
  f_equal.
  apply rootedElems in Hparent as [Hp _], Hchild as [Hc _].
  destruct parent as [|p ps].
  - unfold absolutePath. simpl strings.Join at 1.
    change (strings2.HasSuffix (filepath.sep ++ "") filepath.sep) with true.
    cbn [negb]. simpl (filepath.sep ++ ""). apply HasPrefix_self_app.
  - assert (Hsuf : strings2.HasSuffix (absolutePath (p :: ps)) filepath.sep = false).
    { destruct (Join_last (p :: ps)) as (t & s & Heq & Hs); [discriminate | assumption |].
      unfold absolutePath. rewrite Heq, <- append_assoc. apply HasSuffix_sep_app, Hs. }
    rewrite Hsuf. cbn [negb].
    unfold absolutePath. rewrite append_assoc.
    unfold filepath.sep at 1 3.
    change (String filepath.Separator "" ++ ?a) with (String filepath.Separator a).
    cbn [strings.HasPrefix]. rewrite Ascii.eqb_refl. cbn [andb].
    apply HasPrefix_elements; [discriminate | assumption..].
Qed.

Lemma IsSubPath_elements_witness :
  utils2.IsSubPath Toy.env "/home/user" "/home/user/project" = Ok true
  /\ utils2.IsSubPath Toy.env "/home/user" "/home/username" = Ok false
  /\ utils2.IsSubPath Toy.env "/home/user" "/home/user" = Ok false
  /\ utils2.IsSubPath Toy.env "/" "/" = Ok true.
Proof.
  split; [|split; [|split]].
  - apply (IsSubPath_elements Toy.env ["home"; "user"] ["home"; "user"; "project"]);
      repeat constructor; discriminate.
  - apply (IsSubPath_elements Toy.env ["home"; "user"] ["home"; "username"]);
      repeat constructor; discriminate.
  - apply (IsSubPath_elements Toy.env ["home"; "user"] ["home"; "user"]);
      repeat constructor; discriminate.
  - apply (IsSubPath_elements Toy.env [] []); constructor.
Defined.

End JoinAndSubPath.

Section Validation.

Lemma Contains_app_weaken s p q :
  strings.Contains s (p ++ q) = true -> strings.Contains s p = true.
Proof.
  induction s as [|c s IH]; cbn [strings.Contains]; intros H.
  - apply orb_true_iff in H as [H | H]; [|discriminate].
    apply HasPrefix_app_weaken in H. rewrite H. reflexivity.
  - apply orb_true_iff in H as [H | H].
    + apply HasPrefix_app_weaken in H. rewrite H. reflexivity.
    + rewrite (IH H). apply orb_true_r.
Qed.

Lemma SanitizePath_Ok path clean :
  utils.SanitizePath path = Ok clean ->
  clean = filepath.Clean path /\ strings.Contains clean ".." = false.
Proof.
  unfold utils.SanitizePath.
  destruct (strings.Contains (filepath.Clean path) "..") eqn:Hdd; [discriminate|].
  destruct (_ || _); [discriminate|].
  intros [= <-]. split; [reflexivity | exact Hdd].
Qed.

Lemma checkPatterns_error dps path e :
  utils.checkPatterns dps path = Err e ->
  exists matched message,
    In (matched, message) dps /\ matched path = true
    /\ e = ErrDangerous message path.
Proof.
  induction dps as [|[m msg] dps IH]; cbn [utils.checkPatterns]; [discriminate|].
  destruct (m path) eqn:Hm.
  - intros [= <-]. exists m, msg. repeat split; [left; reflexivity | exact Hm].
  - intros H. destruct (IH H) as (m' & msg' & Hin & Hm' & ->).
    exists m', msg'. repeat split; [right; exact Hin | exact Hm'].
Qed.

(** X8.  The validation of a path never ends in the excessive-dots
    report: a path with three dots in a row still has two after
    cleaning, and is rejected by the sanitization before the dangerous
    patterns are looked at. *)
Theorem ValidatePath_never_excessive_dots
    (env : Env) (pv : utils.PathValidator) (path p : string) :
  utils.ValidatePath env pv path <> Err (ErrDangerous "excessive dots" p).
Proof.
  unfold utils.ValidatePath.
  destruct (utils.SanitizePath path) as [clean|] eqn:Hs; [|discriminate].
  apply SanitizePath_Ok in Hs as [_ Hdd].
  destruct (utils.GetAbsolutePath env clean) as [absPath|]; [|discriminate].
  unfold utils.checkForbiddenPaths.
  destruct (utils.checkForbidden _ absPath) as [[]|e] eqn:Hf.
  - rewrite checkPathDepth_spec.
    destruct (_ >? _)%Z; [discriminate|].
    intros H. apply checkPatterns_error in H as (m & msg & Hin & Hm & [= <- <-]).
    assert (m = utils.hasExcessiveDots) as ->.
    { destruct Hin as [Hin|[Hin|[Hin|[Hin|[]]]]];
        pose proof (f_equal snd Hin) as Hmsg; try discriminate Hmsg;
        exact (eq_sym (f_equal fst Hin)). }
    unfold utils.hasExcessiveDots in Hm.
    apply (Contains_app_weaken _ ".." ".") in Hm. congruence.
  - apply checkForbidden_error in Hf as [-> | [f ->]]; discriminate.
Qed.

(** X9.  What validation accepts: a path is accepted exactly when it
    sanitizes to a cleaned path whose absolute form is matched by no
    forbidden entry, whose depth is within the limit and which has no
    null byte, no invalid filename character and no outer whitespace. *)
Theorem ValidatePath_accepts
    (env : Env) (pv : utils.PathValidator) (path : string) :
  utils.ValidatePath env pv path = Ok tt
  <-> exists clean absPath,
        utils.SanitizePath path = Ok clean
        /\ utils.GetAbsolutePath env clean = Ok absPath
        /\ Forall (fun f => matchesForbidden f absPath = false)
                  (utils.ForbiddenPaths pv)
        /\ (utils.pathDepth clean <= utils.MaxDepth pv)%Z
        /\ dangerous clean = false.
Proof.
  assert (Hd : forall clean, strings.Contains clean ".." = false ->
            (utils.checkDangerousCharacters clean = Ok tt <-> dangerous clean = false)).
  { intros clean Hdd. unfold utils.checkDangerousCharacters, dangerous.
    cbn [utils.dangerousPatterns utils.checkPatterns].
    assert (He : utils.hasExcessiveDots clean = false).
    { destruct (utils.hasExcessiveDots clean) eqn:E; [|reflexivity].
      apply (Contains_app_weaken clean ".." ".") in E. congruence. }
    rewrite He.
    destruct (utils.hasNullByte clean), (utils.hasInvalidFilenameChar clean),
      (utils.hasOuterWhitespace clean); cbn; split; congruence. }
  unfold utils.ValidatePath, utils.checkForbiddenPaths. split.
  - destruct (utils.SanitizePath path) as [clean|] eqn:Hs; [|discriminate].
    destruct (utils.GetAbsolutePath env clean) as [absPath|] eqn:Ha; [|discriminate].
    destruct (utils.checkForbidden _ absPath) as [[]|] eqn:Hf; [|discriminate].
    rewrite checkPathDepth_spec.
    destruct (_ >? _)%Z eqn:Hdepth; [discriminate|].
    intros H. exists clean, absPath.
    split; [reflexivity|]. split; [exact Ha|]. split; [|split].
    + apply checkForbidden_Ok, Hf.
    + lia.
    + apply Hd; [apply (SanitizePath_Ok path), Hs | exact H].
  - intros (clean & absPath & Hs & Ha & Hf & Hdepth & Hdang).
    rewrite Hs, Ha. apply checkForbidden_Ok in Hf. rewrite Hf.
    rewrite checkPathDepth_spec.
    destruct (_ >? _)%Z eqn:E; [lia|].
    apply Hd; [apply (SanitizePath_Ok path), Hs | exact Hdang].
Qed.

(** X10.  Validation sees a path through its sanitized form only: the
    path that sanitization returns gets the verdict of the path it was
    made from. *)
Theorem ValidatePath_of_sanitized
    (env : Env) (pv : utils.PathValidator) (path clean : string)
    (Hok : utils.SanitizePath path = Ok clean) :
  utils.ValidatePath env pv clean = utils.ValidatePath env pv path.
Proof.
  assert (Hfix : utils.SanitizePath clean = Ok clean).
  { unfold utils.SanitizePath in *.
    destruct (strings.Contains (filepath.Clean path) "..") eqn:Hdd; [discriminate|].
    destruct (_ || _) eqn:Hempty; [discriminate|].
    injection Hok as <-. rewrite Clean_idempotent, Hdd, Hempty. reflexivity. }
  unfold utils.ValidatePath. rewrite Hfix, Hok. reflexivity.
Qed.

Lemma ValidatePath_of_sanitized_witness :
  utils.ValidatePath Toy.env Sample.defaultValidator "a/b"
  = utils.ValidatePath Toy.env Sample.defaultValidator "a//x/../b/".
Proof.
  apply (ValidatePath_of_sanitized Toy.env Sample.defaultValidator "a//x/../b/" "a/b").
  reflexivity.
Defined.

End Validation.

Section DirectoryNames.

Variable ToUpper : string -> string.

Lemma Contains_byte_Count s c :
  strings.Contains s (String c "") = false -> strings.Count s c = 0%Z.
Proof.
  induction s as [|d s IH]; [reflexivity|].
  cbn [strings.Contains strings.HasPrefix strings.Count].
  rewrite HasPrefix_nil.
  destruct (Ascii.eqb d c); cbn [andb orb]; [discriminate|].
  intros H. apply IH, H.
Qed.

(** X11.  A name [ValidateDirectoryName] accepts is a single proper path
    element of 255 bytes at most: placed under a rooted directory by
    [JoinPaths], it adds exactly one element to it. *)
Theorem ValidateDirectoryName_element (name : string) (root : list string)
    (Hok : utils2.ValidateDirectoryName ToUpper name = None)
    (Hroot : Forall rootedElem root) :
  rootedElem name
  /\ (String.length name <= 255)%nat
  /\ utils2.JoinPaths [absolutePath root; name] = absolutePath (root ++ [name]).
Proof.
  unfold utils2.ValidateDirectoryName in Hok.
  destruct (String.eqb_spec name "") as [|Hne]; [discriminate|].
  destruct (String.eqb_spec name ".") as [|Hdot]; [discriminate|].
  destruct (String.eqb_spec name "..") as [|Hdd]; [discriminate|].
  cbn [orb] in Hok.
  destruct (existsb _ _); [discriminate|].
  destruct (List.find _ _) eqn:Hfind; [discriminate|].
  destruct (Nat.ltb_spec 255 (String.length name)) as [|Hlen]; [discriminate|].
  assert (Hel : rootedElem name).
  { repeat split; try assumption.
    apply Contains_byte_Count.
    apply (find_none _ _ Hfind "/"). left. reflexivity. }
  repeat split; try apply Hel; [lia|].
  unfold utils2.JoinPaths.
  rewrite (fold_Join_rooted [[name]]) by (repeat constructor; assumption || apply Hel).
  cbn [concat]. rewrite app_nil_r.
  apply absolutePath_fixed, Forall_app. repeat constructor; assumption || apply Hel.
Qed.

End DirectoryNames.

Lemma ValidateDirectoryName_element_witness :
  rootedElem "my-project"
  /\ (String.length "my-project" <= 255)%nat
  /\ utils2.JoinPaths ["/home/user"; "my-project"] = "/home/user/my-project".
Proof.
  apply (ValidateDirectoryName_element (fun s => s) "my-project" ["home"; "user"]).
  - reflexivity.
  - repeat constructor; discriminate.
Defined.

(* ===================================================================== *)
(** * The profile registry                                                *)
(* ===================================================================== *)

Section Registry.

Lemma validateForbidden_Ok paths :
  config.validateForbidden paths = Ok tt
  <-> Forall (fun p => filepath.IsAbs p = true) paths.
Proof.
  induction paths as [|p paths IH]; cbn [config.validateForbidden].
  - split; [constructor | reflexivity].
  - rewrite Forall_cons, <- IH.
    destruct (filepath.IsAbs p); cbn [negb]; intuition discriminate.
Qed.

Lemma Validate_wellFormed c : config.Validate c = Ok tt <-> wellFormed c.
Proof.
  unfold config.Validate, wellFormed.
  destruct (Z.ltb_spec (CoreConfig.HistoryLimit (Config.Core c)) 0);
    [split; [discriminate | lia]|].
  destruct (Z.ltb_spec (SafetyConfig.MaxDepth (Config.Safety c)) 1);
    [split; [discriminate | lia]|].
  destruct (String.eqb_spec (CoreConfig.DefaultProfile (Config.Core c)) "") as [He|He];
    cbn [negb andb].
  - rewrite validateForbidden_Ok. intuition.
  - destruct (bool_decide_reflect
                (is_Some (Config.Profiles c !! CoreConfig.DefaultProfile (Config.Core c))))
      as [Hs|Hs]; cbn [negb].
    + rewrite validateForbidden_Ok. intuition.
    + split; [discriminate | intuition].
Qed.

Lemma SetProfile_valid c name profile :
  config.Validate c = Ok tt ->
  config.Validate (config.SetProfile c name profile) = Ok tt.
Proof.
  intros Hvalid. apply Validate_wellFormed in Hvalid as (Hh & Hd & Hp & Hf).
  apply Validate_wellFormed. unfold config.SetProfile, wellFormed. cbn.
  repeat split; try assumption.
  destruct Hp as [Hp|Hp]; [left; exact Hp | right].
  destruct (decide (name = CoreConfig.DefaultProfile (Config.Core c))) as [->|Hne].
  - rewrite lookup_insert_eq. eauto.
  - rewrite lookup_insert_ne by exact Hne. exact Hp.
Qed.

Lemma DeleteProfile_valid c name :
  config.Validate c = Ok tt ->
  config.Validate (snd (config.DeleteProfile c name)) = Ok tt.
Proof.
  intros Hvalid. apply Validate_wellFormed in Hvalid as (Hh & Hd & Hp & Hf).
  apply Validate_wellFormed. unfold config.DeleteProfile.
  destruct (String.eqb_spec name (CoreConfig.DefaultProfile (Config.Core c)))
    as [|Hne]; [repeat split; assumption|].
  destruct (Config.Profiles c !! name); [|repeat split; assumption].
  unfold wellFormed. cbn. repeat split; try assumption.
  destruct Hp as [Hp|Hp]; [left; exact Hp | right].
  rewrite lookup_delete_ne by exact Hne. exact Hp.
Qed.

(** X12.  The registry operations keep a valid configuration valid:
    setting any profile does, and so does deleting one, since the
    deletion of the default profile is refused. *)
Theorem profile_edits_keep_valid
    (c : Config.t) (name : string) (profile : ProfileConfig.t)
    (Hvalid : config.Validate c = Ok tt) :
  config.Validate (config.SetProfile c name profile) = Ok tt
  /\ config.Validate (snd (config.DeleteProfile c name)) = Ok tt.
Proof.
  split; [apply SetProfile_valid | apply DeleteProfile_valid]; exact Hvalid.
Qed.

Lemma profile_edits_keep_valid_witness :
  config.Validate (config.SetProfile (config.DefaultConfig Toy.env) "rust" Sample.nodejs)
  = Ok tt
  /\ config.Validate (snd (config.DeleteProfile (config.DefaultConfig Toy.env) "default"))
     = Ok tt.
Proof.
  apply (profile_edits_keep_valid (config.DefaultConfig Toy.env) "rust" Sample.nodejs).
  reflexivity.
Defined.

(** X13.  A profile set under a name is the profile read back under that
    name, and the reading of every other name is unchanged.  The empty
    name is read as the default profile's name, so a profile set under
    the empty name is read back only where the default name is empty
    too. *)
Theorem SetProfile_GetProfile
    (c : Config.t) (name other : string) (profile : ProfileConfig.t) :
  config.GetProfile (config.SetProfile c name profile) other
  = if String.eqb (resolved c other) name then Ok profile
    else config.GetProfile c other.
Proof.
  unfold config.GetProfile, config.SetProfile, resolved. cbn.
  destruct (String.eqb_spec
              (if String.eqb other "" then CoreConfig.DefaultProfile (Config.Core c)
               else other) name) as [->|Hne].
  - rewrite lookup_insert_eq. reflexivity.
  - rewrite lookup_insert_ne by congruence. reflexivity.
Qed.

(** X14.  [DeleteProfile] succeeds exactly on a registered name other
    than the default's; then that name is not found any more and every
    other name reads as before.  When it fails the configuration is the
    one it was. *)
Theorem DeleteProfile_GetProfile (c : Config.t) (name : string) :
  let (err, c') := config.DeleteProfile c name in
  (err = Ok tt
   <-> name <> CoreConfig.DefaultProfile (Config.Core c)
       /\ is_Some (Config.Profiles c !! name))
  /\ (err = Ok tt ->
      Config.Profiles c' !! name = None
      /\ forall other, resolved c other <> name ->
           config.GetProfile c' other = config.GetProfile c other)
  /\ (err <> Ok tt -> c' = c).
Proof.
  unfold config.DeleteProfile.
  destruct (String.eqb_spec name (CoreConfig.DefaultProfile (Config.Core c))) as [He|Hne].
  - repeat split; try discriminate; try tauto.
  - destruct (Config.Profiles c !! name) as [p|] eqn:Hp.
    + split; [|split].
      * split; [intros _; split; [exact Hne | eauto] | reflexivity].
      * intros _. cbn. split; [apply lookup_delete_eq|].
        intros other Hother. unfold config.GetProfile, resolved in *. cbn.
        rewrite lookup_delete_ne by congruence. reflexivity.
      * congruence.
    + repeat split; try discriminate.
      intros [_ [? ?]]. discriminate.
Qed.

End Registry.

Section LoadedConfiguration.
Context {F : Type} `{!OS F}.

Lemma Load_fs env configPath (w : World F) :
  fs (snd (Load env configPath w)) = fs w.
Proof.
  unfold Load.
  destruct (if String.eqb configPath "" then _ else _) as [located|e]; [|reflexivity].
  unfold bind, query, emit, ret.
  destruct (match os_Stat located (fs w) with
            | Err e => os_IsNotExist e
            | Ok _ => false
            end); [reflexivity|].
  destruct (toml_DecodeFile located _ (fs w)) as [c|e]; [|reflexivity].
  destruct (config.Validate c) as [[]|e]; reflexivity.
Qed.

Lemma Load_valid env configPath (w : World F) cfg :
  fst (Load env configPath w) = Ok cfg -> config.Validate cfg = Ok tt.
Proof.
  unfold Load.
  destruct (if String.eqb configPath "" then _ else _) as [located|e]; [|discriminate].
  unfold bind, query, emit, ret.
  destruct (match os_Stat located (fs w) with
            | Err e => os_IsNotExist e
            | Ok _ => false
            end).
  - intros [= <-]. reflexivity.
  - destruct (toml_DecodeFile located _ (fs w)) as [c|e]; [|discriminate].
    destruct (config.Validate c) as [[]|e] eqn:Hc; [|discriminate].
    intros [= <-]. exact Hc.
Qed.

(** what [Load] returns depends on the machine only *)
Lemma Load_same env configPath (w w2 : World F) :
  fs w = fs w2 -> fst (Load env configPath w) = fst (Load env configPath w2).
Proof.
  intros Hfs. unfold Load.
  destruct (if String.eqb configPath "" then _ else _) as [located|e]; [|reflexivity].
  destruct w as [m o], w2 as [m2 o2]. cbn [fs] in Hfs. subst m2.
  unfold bind, query, emit, ret. simpl.
  destruct (match os_Stat located m with
            | Err e => os_IsNotExist e
            | Ok _ => false
            end); simpl; [reflexivity|].
  destruct (toml_DecodeFile located (config.DefaultConfig env) m) as [c|e];
    [|reflexivity].
  destruct (config.Validate c) as [[]|e]; reflexivity.
Qed.

(** X15.  Whatever the machine holds, a configuration that [Load]
    returns satisfies the four rules of validation, and where it names a
    default profile that profile is found; loading changes nothing on
    the machine. *)
Theorem Load_wellFormed
    (env : Env) (configPath : string) (w w' : World F) (r : result Config.t)
    (Hload : Load env configPath w = (r, w')) :
  fs w' = fs w
  /\ forall cfg, r = Ok cfg ->
       wellFormed cfg
       /\ (CoreConfig.DefaultProfile (Config.Core cfg) <> "" ->
           exists profile, config.GetProfile cfg "" = Ok profile).
Proof.
  split.
  - rewrite <- (Load_fs env configPath w), Hload. reflexivity.
  - intros cfg ->.
    assert (Hv : config.Validate cfg = Ok tt).
    { apply (Load_valid env configPath w). rewrite Hload. reflexivity. }
    apply Validate_wellFormed in Hv. split; [exact Hv|].
    intros Hne. destruct Hv as (_ & _ & [He|[p Hp]] & _); [contradiction|].
    exists p. unfold config.GetProfile. cbn. rewrite Hp. reflexivity.
Qed.

End LoadedConfiguration.

Lemma Load_wellFormed_witness :
  let loaded := Load (OS0 := Toy.os SampleConfig.decode) Toy.env "" SampleConfig.fresh in
  fs (snd loaded) = fs SampleConfig.fresh
  /\ forall cfg, fst loaded = Ok cfg ->
       wellFormed cfg
       /\ (CoreConfig.DefaultProfile (Config.Core cfg) <> "" ->
           exists profile, config.GetProfile cfg "" = Ok profile).
Proof.
  apply (Load_wellFormed (OS0 := Toy.os SampleConfig.decode) Toy.env ""
           SampleConfig.fresh _ _ (surjective_pairing _)).
Defined.

(* ===================================================================== *)
(** * The target of a run                                                 *)
(* ===================================================================== *)

Section RunTarget.
Context {F : Type} `{!OS F} `{!Collaborators F}.

Lemma plainElem_rooted e : plainElem e -> rootedElem e.
Proof.
  intros (Hs & Hd & Hc). repeat split; try apply Hs; try assumption.
  intros ->. discriminate.
Qed.

Lemma plainElems_rooted l : Forall plainElem l -> Forall rootedElem l.
Proof. apply List.Forall_impl, plainElem_rooted. Qed.

Lemma HasPrefix_dotdot_sep a b :
  strings.HasPrefix (a ++ filepath.sep ++ b) ".." = strings.HasPrefix a "..".
Proof.
  destruct a as [|c [|d a]]; [reflexivity | |].
  - change (String c "" ++ filepath.sep ++ b) with (String c (String "/" b)).
    cbn [strings.HasPrefix]. destruct (Ascii.eqb c "."); reflexivity.
  - change (String c (String d a) ++ filepath.sep ++ b)
      with (String c (String d (a ++ filepath.sep ++ b))).
    cbn [strings.HasPrefix]. rewrite !HasPrefix_nil. reflexivity.
Qed.

Lemma Contains_dotdot_sep a b :
  strings.Contains (a ++ filepath.sep ++ b) ".."
  = strings.Contains a ".." || strings.Contains b "..".
Proof.
  induction a as [|c a IH].
  - change ("" ++ filepath.sep ++ b) with (String "/" b).
    cbn [strings.Contains strings.HasPrefix]. reflexivity.
  - change (String c a ++ filepath.sep ++ b) with (String c (a ++ filepath.sep ++ b)).
    cbn [strings.Contains].
    change (String c (a ++ filepath.sep ++ b)) with (String c a ++ filepath.sep ++ b).
    rewrite HasPrefix_dotdot_sep, IH, !orb_assoc. reflexivity.
Qed.

Lemma Contains_dotdot_Join l :
  Forall plainElem l -> strings.Contains (strings.Join l filepath.sep) ".." = false.
Proof.
  induction 1 as [|e l (_ & _ & He) Hl IH]; [reflexivity|].
  destruct l as [|e' l]; [exact He|].
  change (strings.Join (e :: e' :: l) filepath.sep)
    with (e ++ filepath.sep ++ strings.Join (e' :: l) filepath.sep).
  rewrite Contains_dotdot_sep, He, IH. reflexivity.
Qed.

(** a rooted path of plain elements is its own sanitized form *)
Lemma SanitizePath_absolute l :
  Forall plainElem l -> l <> [] ->
  utils.SanitizePath (absolutePath l) = Ok (absolutePath l).
Proof.
  intros Hl Hne. unfold utils.SanitizePath.
  rewrite absolutePath_fixed by apply plainElems_rooted, Hl.
  unfold absolutePath.
  change (filepath.sep ++ strings.Join l filepath.sep)
    with ("" ++ filepath.sep ++ strings.Join l filepath.sep).
  rewrite Contains_dotdot_sep, Contains_dotdot_Join by assumption.
  reflexivity.
Qed.

(** X16.  In a run the depth limit counts from the root, not from the
    working directory: the target is the working directory followed by
    the name, and it is that whole path whose depth is compared with the
    limit.  A name of plain elements is refused, without the force
    switch, when the elements of the working directory and of the name
    together exceed the limit by more than one; nothing is done and
    nothing is printed. *)
Theorem run_depth_counts_from_root
    (env : Env) (gf : GlobalFlags.t) (fl : MkcdFlags.t) (cfg : Config.t)
    (mc : MkcdConfig.t) (om : OutputManager.t) (fsOps : FileSystemOperations.t)
    (pv : utils.PathValidator) (cwd name : list string) (w : World F)
    (Htemp : MkcdConfig.Temp mc = false)
    (Hwd : Getwd env = Ok (absolutePath cwd))
    (Hcwd : Forall plainElem cwd) (Hname : Forall plainElem name)
    (Hne : name <> [])
    (Hallowed : utils.checkForbiddenPaths pv (absolutePath (cwd ++ name)) = Ok tt)
    (Hdeep : (utils.MaxDepth pv < Z.of_nat (List.length (cwd ++ name)) - 1)%Z)
    (Hforce : GlobalFlags.force gf = false) :
  executeMkcd env gf fl (relativePath name) cfg mc om fsOps pv w
  = (Err (Wrap "path validation failed"
            (ErrDepth (Z.of_nat (List.length (cwd ++ name)) - 1) (utils.MaxDepth pv)
                      (absolutePath (cwd ++ name)))),
     w).
Proof.
  assert (Hall : Forall plainElem (cwd ++ name)) by (apply Forall_app; split; assumption).
  assert (Hne' : (cwd ++ name)%list <> []) by (destruct cwd, name; try discriminate; congruence).
  assert (Htarget : determineTargetPath env (relativePath name) mc cfg
                    = Ok (absolutePath (cwd ++ name))).
  { unfold determineTargetPath. rewrite Htemp, Hwd.
    rewrite Join_rooted by (apply plainElems_rooted; assumption).
    rewrite GetAbsolutePath_fixed by apply plainElems_rooted, Hall. reflexivity. }
  unfold executeMkcd. rewrite Htarget.
  unfold utils.ValidatePath.
  rewrite SanitizePath_absolute by assumption.
  rewrite GetAbsolutePath_fixed by apply plainElems_rooted, Hall.
  rewrite Hallowed, checkPathDepth_spec, pathDepth_absolute;
    [|eapply List.Forall_impl; [|exact Hall]; intros e He; apply He | exact Hne'].
  destruct (Z.gtb_spec (Z.of_nat (List.length (cwd ++ name)) - 1) (utils.MaxDepth pv));
    [|lia].
  rewrite Hforce. reflexivity.
Qed.

End RunTarget.

Lemma run_depth_counts_from_root_witness :
  executeMkcd (OS0 := SampleRun.os) (Collaborators0 := SampleRun.collaborators)
    Toy.env SampleConfig.flags Sample.noFlags "a/b"
    (config.DefaultConfig Toy.env) SampleRun.plan SampleRun.outputMgr SampleRun.fsOps
    (utils.NewPathValidator ["/etc"] 1) SampleRun.existing
  = (Err (Wrap "path validation failed" (ErrDepth 2 1 "/work/a/b")), SampleRun.existing).
Proof.
  apply (run_depth_counts_from_root (OS0 := SampleRun.os)
           (Collaborators0 := SampleRun.collaborators)
           Toy.env SampleConfig.flags Sample.noFlags (config.DefaultConfig Toy.env)
           SampleRun.plan SampleRun.outputMgr SampleRun.fsOps
           (utils.NewPathValidator ["/etc"] 1) ["work"] ["a"; "b"]);
    try reflexivity; try discriminate; try (cbn; lia);
    repeat constructor; discriminate.
Defined.

(* ===================================================================== *)
(** * What can fail a run                                                 *)
(* ===================================================================== *)

Section RunErrors.
Context {F : Type} `{!OS F} `{!Collaborators F}.

Lemma requested_error wanted context generate (w w' : World F) e :
  requested wanted context generate w = (Err e, w') ->
  wanted = true /\ exists cause, e = Wrap context cause.
Proof.
  unfold requested, bind, ret. destruct wanted; [|discriminate].
  destruct (call generate w) as [[[]|c] w1]; intros [= <- <-]. eauto.
Qed.

Lemma generateProjectFiles_error gf target mc cfg fsOps om (w w' : World F) e :
  generateProjectFiles gf target mc cfg fsOps om w = (Err e, w') ->
  exists context cause,
    e = Wrap context cause
    /\ In context ["failed to generate README"; "failed to generate .gitignore";
                   "failed to generate LICENSE"].
Proof.
  unfold generateProjectFiles, bind, ret, readmeStep, gitignoreStep, licenseStep.
  destruct (requested (MkcdConfig.Readme mc) _ _ w) as [[[]|e1] w1] eqn:H1.
  - destruct (requested (negb (String.eqb (MkcdConfig.Gitignore mc) "")) _ _ w1)
      as [[[]|e2] w2] eqn:H2.
    + intros H3. apply requested_error in H3 as (_ & c & ->).
      eexists _, c. split; [reflexivity | cbn; auto].
    + intros [= <- <-]. apply requested_error in H2 as (_ & c & ->).
      eexists _, c. split; [reflexivity | cbn; auto].
  - intros [= <- <-]. apply requested_error in H1 as (_ & c & ->).
    eexists _, c. split; [reflexivity | cbn; auto].
Qed.

Lemma gitSteps_error gf target mc cfg om (w w' : World F) e :
  gitSteps gf target mc cfg om w = (Err e, w') ->
  exists cause,
    e = Wrap "failed to initialize Git repository" cause
    \/ (e = Wrap "failed to add Git remote" cause /\ MkcdConfig.GitRemote mc <> "").
Proof.
  unfold gitSteps, bind, ret.
  destruct (call (InitRepository _ _ _ _ _ _) w) as [[[]|e1] w1].
  2:{ intros [= <- <-]. eauto. }
  destruct (String.eqb_spec (MkcdConfig.GitRemote mc) "") as [He|Hne]; cbn [negb].
  - destruct (call (CreateInitialCommit _ _ _ _ _ _) w1) as [[[]|e3] w3].
    + discriminate.
    + destruct (om_Warning om _ w3). discriminate.
  - destruct (call (AddRemote _ _ _ _ _ _ _) w1) as [[[]|e2] w2].
    + destruct (call (CreateInitialCommit _ _ _ _ _ _) w2) as [[[]|e3] w3].
      * discriminate.
      * destruct (om_Warning om _ w3). discriminate.
    + intros [= <- <-]. eauto.
Qed.

Lemma generateShellScript_Ok gf target om (w : World F) :
  fst (generateShellScript gf target om w) = Ok tt.
Proof.
  unfold generateShellScript, bind, ret, emit.
  destruct (negb (GlobalFlags.quiet gf)); [|reflexivity].
  destruct (om_Success om _ w) as [[] w1].
  destruct (om_Info om _ w1) as [[] w2]. reflexivity.
Qed.

(** X17.  What can fail the steps of a run once the target is accepted:
    the creation of the directory structure, the generation of a
    requested document, the initialisation of the repository and the
    addition of the remote, the last two only where version control is
    asked for.  A failure to open the editor or to make the first commit
    never fails the run, and the final shell line is always reached
    otherwise. *)
Theorem executeSteps_errors
    (gf : GlobalFlags.t) (fl : MkcdFlags.t) (target : string) (cfg : Config.t)
    (mc : MkcdConfig.t) (om : OutputManager.t) (fsOps : FileSystemOperations.t)
    (w w' : World F) (e : error)
    (Hfail : executeSteps gf fl target cfg mc om fsOps w = (Err e, w')) :
  (exists cause, e = Wrap "failed to create directory structure" cause)
  \/ (exists context cause,
        e = Wrap "failed to generate project files" (Wrap context cause)
        /\ In context ["failed to generate README"; "failed to generate .gitignore";
                       "failed to generate LICENSE"])
  \/ (MkcdConfig.Git mc = true
      /\ exists cause,
           e = Wrap "failed to initialize Git repository" cause
           \/ (e = Wrap "failed to add Git remote" cause
               /\ MkcdConfig.GitRemote mc <> "")).
Proof.
  unfold executeSteps, bind in Hfail.
  destruct (createDirectoryStructure target mc fsOps om w) as [[[]|e1] w1].
  2:{ injection Hfail as <- <-. left. eauto. }
  destruct (generateProjectFiles gf target mc cfg fsOps om w1) as [[[]|e2] w2] eqn:Hgen.
  2:{ injection Hfail as <- <-. right; left.
      apply generateProjectFiles_error in Hgen as (context & cause & -> & Hin).
      eauto. }
  destruct (MkcdConfig.Git mc) eqn:Hgit.
  - destruct (gitSteps gf target mc cfg om w2) as [[[]|e3] w3] eqn:Hsteps.
    2:{ injection Hfail as <- <-. right; right. split; [reflexivity|].
        eapply gitSteps_error, Hsteps. }
    exfalso. revert Hfail.
    match goal with
    | |- (let '(_, s') := ?m in _) = _ -> _ => destruct m as [[] w4]
    end.
    pose proof (generateShellScript_Ok gf target om w4) as Hsh.
    destruct (generateShellScript gf target om w4) as [[[]|] w5];
      [discriminate | discriminate Hsh].
  - exfalso. revert Hfail. unfold ret at 1.
    match goal with
    | |- (let '(_, s') := ?m in _) = _ -> _ => destruct m as [[] w4]
    end.
    pose proof (generateShellScript_Ok gf target om w4) as Hsh.
    destruct (generateShellScript gf target om w4) as [[[]|] w5];
      [discriminate | discriminate Hsh].
Qed.

End RunErrors.

Lemma executeSteps_errors_witness :
  exists context cause,
    Wrap "failed to generate project files"
      (Wrap "failed to generate README"
         (Wrap "failed to create file /work/proj/README.md" (External "is a directory")))
    = Wrap "failed to generate project files" (Wrap context cause)
    /\ In context ["failed to generate README"; "failed to generate .gitignore";
                   "failed to generate LICENSE"].
Proof.
  destruct (executeSteps_errors (OS0 := SampleRun.os)
              (Collaborators0 := SampleRun.collaborators)
              SampleConfig.flags SampleRun.flags "/work/proj"
              (config.DefaultConfig Toy.env) SampleRun.plan SampleRun.outputMgr
              SampleRun.fsOps SampleRun.blocked
              (snd (executeSteps (OS0 := SampleRun.os)
                      (Collaborators0 := SampleRun.collaborators)
                      SampleConfig.flags SampleRun.flags "/work/proj"
                      (config.DefaultConfig Toy.env) SampleRun.plan
                      SampleRun.outputMgr SampleRun.fsOps SampleRun.blocked))
              (Wrap "failed to generate project files"
                 (Wrap "failed to generate README"
                    (Wrap "failed to create file /work/proj/README.md"
                       (External "is a directory")))))
    as [[c Hc] | [H | [Hgit _]]].
  - vm_compute. reflexivity.
  - discriminate Hc.
  - exact H.
  - discriminate Hgit.
Defined.

(* ===================================================================== *)
(** * Creating the directory and its files                                *)
(* ===================================================================== *)

Section Creation.
Context {F : Type} `{!OS F} `{!Collaborators F}.

Lemma touchLoop_dry_report backup target files om (w : World F) :
  touchLoop target files (NewFileSystemOperations true backup) om w
  = (tt, mkWorld (fs w)
           (out w ++ map (fun f => wouldCreateFile (filepath.Join [target; f]) "")
                         files)).
Proof.
  revert w. induction files as [|f files IH]; intros w.
  - cbn [touchLoop map]. unfold ret. rewrite app_nil_r. destruct w; reflexivity.
  - rewrite touchLoop_cons. unfold CreateFile, NewFileSystemOperations.
    cbn [FileSystemOperations.DryRun]. unfold bind, emit, ret.
    rewrite IH. cbn [fs out map]. rewrite <- app_assoc. reflexivity.
Qed.

(** X18.  The dry run of the creation step is a complete preview: with
    no symbolic link and no custom mode asked for it prints the line for
    the directory and then one line for each file to touch, in their
    order, each at its place under the target; it succeeds and leaves
    the machine as it was. *)
Theorem createDirectoryStructure_dry_report
    (backup : bool) (target : string) (mc : MkcdConfig.t) (om : OutputManager.t)
    (w : World F)
    (Hlink : MkcdConfig.Symlink mc = "") (Hmode : MkcdConfig.Mode mc = "") :
  createDirectoryStructure target mc (NewFileSystemOperations true backup) om w
  = (Ok tt,
     mkWorld (fs w)
       (out w ++ wouldCreateDirectory target 493
              :: map (fun f => wouldCreateFile (filepath.Join [target; f]) "")
                     (MkcdConfig.Touch mc))).
Proof.
  unfold createDirectoryStructure, noteCustomMode. rewrite Hlink, Hmode.
  cbn [String.eqb negb]. unfold CreateDirectory, NewFileSystemOperations.
  cbn [FileSystemOperations.DryRun].
  change (NewFileSystemOperations true backup)
    with (FileSystemOperations.mk true backup).
  unfold bind at 1 2 3. unfold ret at 1 2. unfold emit, bind.
  fold (NewFileSystemOperations true backup).
  rewrite touchLoop_dry_report. cbn [fs out]. unfold ret.
  rewrite <- app_assoc. reflexivity.
Qed.

(** X19.  Creating a directory a second time succeeds without touching
    the machine: on a system where a directory that has been made is
    then found to be a directory, a call of [CreateDirectory] that
    follows a successful one only reports that the directory exists. *)
Theorem CreateDirectory_again
    (fsops : FileSystemOperations.t) (path : string) (mode : Z) (w w1 : World F)
    (Hmade : forall f f', os_MkdirAll path mode f = (Ok tt, f') ->
               exists info, os_Stat path f' = Ok info /\ IsDir info = true)
    (Hreal : FileSystemOperations.DryRun fsops = false)
    (Hfirst : CreateDirectory fsops path mode w = (Ok tt, w1)) :
  CreateDirectory fsops path mode w1
  = (Ok tt,
     mkWorld (fs w1)
       (out w1 ++ [mkMsg PDebug (Sprintf "Directory already exists: %s" [AStr path])])).
Proof.
  assert (Hdir : exists info, os_Stat path (fs w1) = Ok info /\ IsDir info = true).
  { unfold CreateDirectory in Hfirst. rewrite Hreal in Hfirst.
    unfold bind, query, act, emit, ret in Hfirst.
    destruct (os_Stat path (fs w)) as [info|e] eqn:Hstat.
    - destruct (IsDir info) eqn:Hd; [|discriminate].
      injection Hfirst as <-. exists info. split; assumption.
    - destruct (os_MkdirAll path mode (fs w)) as [[[]|e'] f'] eqn:Hmk; [|discriminate].
      injection Hfirst as <-. apply (Hmade _ _ Hmk). }
  destruct Hdir as (info & Hstat & Hd).
  unfold CreateDirectory. rewrite Hreal. unfold bind, query, emit, ret.
  rewrite Hstat, Hd. reflexivity.
Qed.

End Creation.

Lemma createDirectoryStructure_dry_report_witness :
  createDirectoryStructure (OS0 := SampleRun.os) "/work/proj" SampleRun.plan
    SampleRun.dryOps SampleRun.outputMgr SampleRun.occupied
  = (Ok tt,
     mkWorld (fs SampleRun.occupied)
       [wouldCreateDirectory "/work/proj" 493;
        wouldCreateFile "/work/proj/sub" "";
        wouldCreateFile "/work/proj/main.go" ""]).
Proof.
  apply (createDirectoryStructure_dry_report (OS0 := SampleRun.os) false "/work/proj"
           SampleRun.plan SampleRun.outputMgr SampleRun.occupied); reflexivity.
Defined.

Lemma CreateDirectory_again_witness :
  let w1 := snd (CreateDirectory (OS0 := SampleRun.os) SampleRun.fsOps "/work/new" 493
                   (mkWorld ∅ [])) in
  CreateDirectory (OS0 := SampleRun.os) SampleRun.fsOps "/work/new" 493 w1
  = (Ok tt,
     mkWorld (fs w1)
       (out w1 ++ [mkMsg PDebug
                     (Sprintf "Directory already exists: %s" [AStr "/work/new"])])).
Proof.
  apply (CreateDirectory_again (OS0 := SampleRun.os) SampleRun.fsOps "/work/new" 493
           (mkWorld ∅ [])).
  - intros f f'. cbn. unfold Toy.toy_MkdirAll, Toy.toy_Stat.
    destruct (f !! "/work/new") as [[]|] eqn:Hl; intros [= <-].
    + rewrite Hl. eexists. split; reflexivity.
    + rewrite lookup_insert_eq. eexists. split; reflexivity.
  - reflexivity.
  - reflexivity.
Defined.

(* ===================================================================== *)
(** * Saving, and the commands that save                                  *)
(* ===================================================================== *)

Section SavedConfiguration.
Context {F : Type} `{!OS F} `{!Collaborators F} `{!ConfigStore F}.

Lemma leveled_fs om withIcon colour message (w : World F) :
  fs (snd (leveled om withIcon colour message w)) = fs w.
Proof.
  unfold leveled, say, emit, ret.
  destruct (OutputManager.Quiet om); [reflexivity|].
  destruct (OutputManager.Icons om); reflexivity.
Qed.

Lemma leveled_quiet om withIcon colour message (w : World F) :
  OutputManager.Quiet om = true -> leveled om withIcon colour message w = (tt, w).
Proof. intros Hq. unfold leveled. rewrite Hq. reflexivity. Qed.

Lemma filepath_Join_nonempty elem e :
  In e elem -> e <> "" -> filepath.Join elem <> "".
Proof.
  intros Hin Hne. induction elem as [|a elem IH]; [destruct Hin|].
  cbn [filepath.Join]. destruct (String.eqb_spec a "") as [->|Ha].
  - destruct Hin as [<-|Hin]; [congruence | apply IH, Hin].
  - apply Clean_nonempty.
Qed.

Lemma GetConfigPath_nonempty env p : config.GetConfigPath env = Ok p -> p <> "".
Proof.
  unfold config.GetConfigPath. destruct (homedir_Dir env) as [h|]; [|discriminate].
  intros Hp.
  replace p with (filepath.Join [filepath.Join [h; ".config"; "mkcd"]; "mkcd.conf"])
    by congruence.
  apply (filepath_Join_nonempty _ "mkcd.conf"); [|discriminate].
  right. left. reflexivity.
Qed.

(** the path [Save] writes and [Load] reads for a given path *)
Lemma locates_nonempty env configPath located :
  locates env configPath located -> located <> "".
Proof.
  intros [[Hne ->] | [_ Hp]]; [exact Hne | eapply GetConfigPath_nonempty, Hp].
Qed.

Lemma Save_stored env c configPath (w w1 : World F) :
  keepsWhatItEncodes F ->
  Save env c configPath w = (Ok tt, w1) ->
  exists located,
    locates env configPath located
    /\ isOk (os_Stat located (fs w1)) = true
    /\ forall d, toml_DecodeFile located d (fs w1) = Ok (overlay c d).
Proof.
  intros Hstore. unfold Save.
  destruct (String.eqb_spec configPath "") as [He|Hne].
  - destruct (config.GetConfigPath env) as [p|e] eqn:Hp; [|discriminate].
    unfold bind, act, emit, ret.
    destruct (os_MkdirAll _ _ (fs w)) as [[[]|e1] f1]; [|discriminate]. cbn [fs out].
    destruct (os_Create p f1) as [[[]|e2] f2]; [|discriminate]. cbn [fs out].
    destruct (toml_Encode p c f2) as [[[]|e3] f3] eqn:Henc; [|discriminate].
    intros [= <-]. exists p. split; [right; split; assumption|].
    apply (Hstore _ _ _ _ Henc).
  - unfold bind, act, emit, ret.
    destruct (os_MkdirAll _ _ (fs w)) as [[[]|e1] f1]; [|discriminate]. cbn [fs out].
    destruct (os_Create configPath f1) as [[[]|e2] f2]; [|discriminate]. cbn [fs out].
    destruct (toml_Encode configPath c f2) as [[[]|e3] f3] eqn:Henc; [|discriminate].
    intros [= <-]. exists configPath. split; [left; split; [assumption | reflexivity]|].
    apply (Hstore _ _ _ _ Henc).
Qed.

Lemma overlay_valid c d :
  config.Validate c = Ok tt -> config.Validate (overlay c d) = Ok tt.
Proof.
  intros Hvalid. apply Validate_wellFormed in Hvalid as (Hh & Hd & Hp & Hf).
  apply Validate_wellFormed. unfold overlay, wellFormed. cbn.
  repeat split; try assumption.
  destruct Hp as [Hp|[p Hp]]; [left; exact Hp | right].
  exists p. apply lookup_union_Some_l, Hp.
Qed.

Lemma overlay_self c : overlay c c = c.
Proof.
  unfold overlay, Config.withProfiles. destruct c as [? ? ? ? ? profiles]. cbn.
  f_equal. apply (idemp_L (∪)).
Qed.

(** the registry of a configuration laid over another *)
Lemma overlay_lookup c d name :
  Config.Profiles (overlay c d) !! name
  = match Config.Profiles c !! name with
    | Some p => Some p
    | None => Config.Profiles d !! name
    end.
Proof.
  unfold overlay. cbn. rewrite lookup_union.
  destruct (Config.Profiles c !! name), (Config.Profiles d !! name); reflexivity.
Qed.

Lemma Load_after_Save env c configPath (w w1 w2 : World F) :
  keepsWhatItEncodes F ->
  Save env c configPath w = (Ok tt, w1) ->
  fs w2 = fs w1 ->
  fst (Load env configPath w2)
  = match config.Validate (overlay c (config.DefaultConfig env)) with
    | Ok _ => Ok (overlay c (config.DefaultConfig env))
    | Err e => Err (Wrap "invalid configuration" e)
    end.
Proof.
  intros Hstore Hsave Hfs.
  destruct (Save_stored _ _ _ _ _ Hstore Hsave) as (located & Hloc & Hstat & Hdec).
  rewrite (Load_at env configPath located w2 Hloc).
  unfold sourceExists. rewrite Hfs, Hdec.
  destruct (os_Stat located (fs w1)); [|discriminate].
  destruct (config.Validate (overlay c (config.DefaultConfig env))) as [[]|e];
    reflexivity.
Qed.

(** X20.  [Load] decodes the file over the default configuration.  On a
    store that keeps what is encoded into it, what is loaded back from
    the path a configuration was saved to is therefore that
    configuration laid over the default one: its settings are the saved
    ones, and its registry holds the saved profiles and, under the names
    the saved registry lacks, the built-in profiles.  A valid
    configuration is always loaded back; [Save] does not validate, and
    when the configuration laid over the defaults is not valid, loading
    fails. *)
Theorem Save_then_Load
    (env : Env) (c : Config.t) (configPath : string) (w w1 : World F)
    (Hstore : keepsWhatItEncodes F)
    (Hsave : Save env c configPath w = (Ok tt, w1)) :
  let loaded := overlay c (config.DefaultConfig env) in
  fst (Load env configPath w1)
  = match config.Validate loaded with
    | Ok _ => Ok loaded
    | Err e => Err (Wrap "invalid configuration" e)
    end
  /\ (config.Validate c = Ok tt -> fst (Load env configPath w1) = Ok loaded)
  /\ Config.withProfiles loaded (Config.Profiles c) = c
  /\ forall name,
       Config.Profiles loaded !! name
       = match Config.Profiles c !! name with
         | Some p => Some p
         | None => Config.Profiles (config.DefaultConfig env) !! name
         end.
Proof.
  cbv zeta.
  pose proof (Load_after_Save env c configPath w w1 w1 Hstore Hsave eq_refl) as Hload.
  split; [exact Hload|]. split; [|split].
  - intros Hvalid. rewrite Hload, overlay_valid by exact Hvalid. reflexivity.
  - destruct c. reflexivity.
  - intros name. apply overlay_lookup.
Qed.

Lemma saveAndReport_Done env cfg configPath report (w w' : World F) :
  saveAndReport env cfg configPath report w = (Done, w') ->
  exists w1, Save env cfg configPath w = (Ok tt, w1) /\ w' = snd (report w1).
Proof.
  unfold saveAndReport, bind, ret.
  destruct (Save env cfg configPath w) as [[[]|e] w1]; [|discriminate].
  destruct (report w1) as [[] w2] eqn:Hr. intros [= <-]. exists w1.
  rewrite Hr. split; reflexivity.
Qed.

Lemma confirmUnlessForced_forced gf om question cancelled (w : World F) :
  GlobalFlags.force gf = true ->
  confirmUnlessForced gf om question cancelled w = (None, w).
Proof. intros Hf. unfold confirmUnlessForced. rewrite Hf. reflexivity. Qed.

Lemma confirmUnlessForced_quiet gf om question cancelled (w : World F) :
  GlobalFlags.force gf = false -> OutputManager.Quiet om = true ->
  confirmUnlessForced gf om question cancelled w = (Some Done, w).
Proof.
  intros Hf Hq. unfold confirmUnlessForced, om_Confirm, om_Info, bind, ret.
  rewrite Hf, Hq. cbn [negb]. rewrite leveled_quiet by exact Hq. reflexivity.
Qed.

(** X21.  A copied profile persists: on a store that keeps what is
    encoded into it, when the copy command succeeds the configuration
    loaded afterwards is the one loaded before, with the source profile
    set under the destination name, laid over the default configuration;
    it holds the source profile under both names. *)
Theorem profile_copy_persists
    (env : Env) (gf : GlobalFlags.t) (sourceProfile destProfile : string)
    (w w' : World F)
    (Hstore : keepsWhatItEncodes F)
    (Hrun : runProfileCopy env gf sourceProfile destProfile w = (Done, w')) :
  exists cfg profile loaded,
    fst (Load env (GlobalFlags.cfgFile gf) w) = Ok cfg
    /\ Config.Profiles cfg !! sourceProfile = Some profile
    /\ fst (Load env (GlobalFlags.cfgFile gf) w') = Ok loaded
    /\ loaded = overlay (config.SetProfile cfg destProfile profile)
                        (config.DefaultConfig env)
    /\ Config.Profiles loaded !! destProfile = Some profile
    /\ Config.Profiles loaded !! sourceProfile = Some profile.
Proof.
  unfold runProfileCopy, bind in Hrun.
  destruct (Load env (GlobalFlags.cfgFile gf) w) as [[cfg|e] w0] eqn:Hload;
    [|discriminate].
  assert (Hvalid : config.Validate cfg = Ok tt).
  { apply (Load_valid env (GlobalFlags.cfgFile gf) w). rewrite Hload. reflexivity. }
  destruct (Config.Profiles cfg !! sourceProfile) as [p|] eqn:Hp; [|discriminate].
  exists cfg, p, (overlay (config.SetProfile cfg destProfile p) (config.DefaultConfig env)).
  split; [reflexivity|]. split; [exact Hp|].
  assert (Hend : exists w0',
            saveAndReport env (config.SetProfile cfg destProfile p)
              (GlobalFlags.cfgFile gf)
              (om_Success (outputManagerOf cfg gf)
                 (Sprintf "Profile '%s' copied to '%s'"
                    [AStr sourceProfile; AStr destProfile])) w0' = (Done, w')).
  { revert Hrun. unfold ret.
    destruct (bool_decide _).
    - destruct (negb (GlobalFlags.force gf)); [discriminate|].
      destruct (om_Warning _ _ w0) as [[] w0']. eauto.
    - eauto. }
  destruct Hend as (w0' & Hend).
  apply saveAndReport_Done in Hend as (w1 & Hsave & ->).
  rewrite (Load_after_Save env _ _ w0' w1 _ Hstore Hsave)
    by apply leveled_fs.
  rewrite overlay_valid by (apply SetProfile_valid; exact Hvalid).
  split; [reflexivity|]. split; [reflexivity|].
  rewrite !overlay_lookup. unfold config.SetProfile. cbn.
  rewrite lookup_insert_eq. split; [reflexivity|].
  destruct (decide (destProfile = sourceProfile)) as [->|Hne].
  - rewrite lookup_insert_eq. reflexivity.
  - rewrite lookup_insert_ne by exact Hne. rewrite Hp. reflexivity.
Qed.

(** X22.  What a deleted profile is after loading again.  On a store
    that keeps what is encoded into it, when the forced delete command
    succeeds the name was registered and was not the default's, and the
    configuration loaded afterwards is the one loaded before without
    that name, laid over the default configuration.  Under the deleted
    name it holds what the default configuration holds there: nothing
    for a name that is not built in, and the built-in profile again for
    a built-in name, since [Load] decodes the file over the default
    configuration. *)
Theorem profile_delete_reloaded
    (env : Env) (gf : GlobalFlags.t) (profileName : string) (w w' : World F)
    (Hstore : keepsWhatItEncodes F)
    (Hforce : GlobalFlags.force gf = true)
    (Hrun : runProfileDelete env gf profileName w = (Done, w')) :
  exists cfg loaded,
    fst (Load env (GlobalFlags.cfgFile gf) w) = Ok cfg
    /\ is_Some (Config.Profiles cfg !! profileName)
    /\ profileName <> CoreConfig.DefaultProfile (Config.Core cfg)
    /\ fst (Load env (GlobalFlags.cfgFile gf) w') = Ok loaded
    /\ loaded = overlay
                  (Config.withProfiles cfg (delete profileName (Config.Profiles cfg)))
                  (config.DefaultConfig env)
    /\ Config.Profiles loaded !! profileName
       = Config.Profiles (config.DefaultConfig env) !! profileName.
Proof.
  unfold runProfileDelete, bind in Hrun.
  destruct (Load env (GlobalFlags.cfgFile gf) w) as [[cfg|e] w0] eqn:Hload;
    [|discriminate].
  assert (Hvalid : config.Validate cfg = Ok tt).
  { apply (Load_valid env (GlobalFlags.cfgFile gf) w). rewrite Hload. reflexivity. }
  exists cfg,
    (overlay (Config.withProfiles cfg (delete profileName (Config.Profiles cfg)))
       (config.DefaultConfig env)).
  split; [reflexivity|].
  destruct (bool_decide_reflect (is_Some (Config.Profiles cfg !! profileName)))
    as [Hsome|]; [|discriminate].
  cbn [negb] in Hrun. rewrite confirmUnlessForced_forced in Hrun by exact Hforce.
  pose proof (DeleteProfile_valid cfg profileName Hvalid) as Hv'.
  unfold config.DeleteProfile in *.
  destruct (String.eqb_spec profileName (CoreConfig.DefaultProfile (Config.Core cfg)))
    as [|Hne]; [discriminate|].
  destruct (Config.Profiles cfg !! profileName) as [p|] eqn:Hp;
    [|destruct Hsome; discriminate].
  cbn [snd] in Hv'.
  apply saveAndReport_Done in Hrun as (w1 & Hsave & ->).
  split; [eauto|]. split; [exact Hne|].
  rewrite (Load_after_Save env _ _ w0 w1 _ Hstore Hsave) by apply leveled_fs.
  rewrite overlay_valid by exact Hv'.
  split; [reflexivity|]. split; [reflexivity|].
  rewrite overlay_lookup. cbn. rewrite lookup_delete_eq. reflexivity.
Qed.

(** X23.  Under the quiet switch and without the force switch the
    destructive commands decline without a word: the confirmation is
    answered by its default, which is no, so resetting the configuration
    and deleting a registered profile return success and save
    nothing. *)
Theorem quiet_declines
    (env : Env) (gf : GlobalFlags.t)
    (Hquiet : GlobalFlags.quiet gf = true) (Hforce : GlobalFlags.force gf = false) :
  (forall (w : World F) configPath,
     commandConfigPath env gf = inr configPath ->
     runConfigReset env gf w = (Done, w))
  /\ (forall (w w1 : World F) cfg profileName,
        Load env (GlobalFlags.cfgFile gf) w = (Ok cfg, w1) ->
        is_Some (Config.Profiles cfg !! profileName) ->
        runProfileDelete env gf profileName w = (Done, w1)).
Proof.
  split.
  - intros w configPath Hpath. unfold runConfigReset. rewrite Hpath.
    unfold bind. rewrite confirmUnlessForced_quiet by (exact Hforce || exact Hquiet).
    reflexivity.
  - intros w w1 cfg profileName Hload Hsome.
    unfold runProfileDelete, bind. rewrite Hload.
    rewrite bool_decide_eq_true_2 by exact Hsome. cbn [negb].
    rewrite confirmUnlessForced_quiet by (exact Hforce || exact Hquiet).
    reflexivity.
Qed.

(** X24.  The default profile cannot be deleted by the command either,
    even when forced: it fails with the refusal of the registry, after
    loading, and nothing is saved. *)
Theorem default_profile_protected
    (env : Env) (gf : GlobalFlags.t) (profileName : string) (w w1 : World F)
    (cfg : Config.t)
    (Hload : Load env (GlobalFlags.cfgFile gf) w = (Ok cfg, w1))
    (Hdefault : profileName = CoreConfig.DefaultProfile (Config.Core cfg))
    (Hsome : is_Some (Config.Profiles cfg !! profileName))
    (Hforce : GlobalFlags.force gf = true) :
  runProfileDelete env gf profileName w
  = (Failed (Caused "failed to delete profile" (ErrDeleteDefault profileName)), w1).
Proof.
  unfold runProfileDelete, bind. rewrite Hload.
  rewrite bool_decide_eq_true_2 by exact Hsome. cbn [negb].
  rewrite confirmUnlessForced_forced by exact Hforce.
  unfold config.DeleteProfile. rewrite <- Hdefault, String.eqb_refl. reflexivity.
Qed.

(** X25.  Initialising the configuration never overwrites without the
    force switch: on any machine, where a file is found at the
    configuration path the command fails and changes nothing.  And when
    the command succeeds on a store that keeps what is encoded into it,
    the configuration loaded afterwards is the default one. *)
Theorem runConfigInit_guarded (env : Env) (gf : GlobalFlags.t) :
  (forall (w : World F) configPath info,
     commandConfigPath env gf = inr configPath ->
     os_Stat configPath (fs w) = Ok info ->
     GlobalFlags.force gf = false ->
     runConfigInit env gf w = (Failed (ErrConfigExists configPath), w))
  /\ (keepsWhatItEncodes F ->
      forall (w w' : World F),
        runConfigInit env gf w = (Done, w') ->
        fst (Load env (GlobalFlags.cfgFile gf) w') = Ok (config.DefaultConfig env)).
Proof.
  split.
  - intros w configPath info Hpath Hstat Hforce.
    unfold runConfigInit. rewrite Hpath. unfold bind, query, ret.
    rewrite Hstat, Hforce. reflexivity.
  - intros Hstore w w' Hrun. unfold runConfigInit in Hrun.
    destruct (commandConfigPath env gf) as [e|configPath] eqn:Hpath; [discriminate|].
    assert (Hloc : locates env (GlobalFlags.cfgFile gf) configPath).
    { unfold commandConfigPath in Hpath.
      destruct (String.eqb_spec (GlobalFlags.cfgFile gf) "") as [He|Hne].
      - destruct (config.GetConfigPath env) eqn:Hp; [|discriminate].
        injection Hpath as <-. right. split; assumption.
      - injection Hpath as <-. left. split; [assumption | reflexivity]. }
    assert (Hend : exists w0,
              saveAndReport env (config.DefaultConfig env) configPath
                (om_Success
                   (NewOutputManager true true true (GlobalFlags.quiet gf)
                      (GlobalFlags.verbose gf) (GlobalFlags.debug gf))
                   (Sprintf "Configuration initialized at %s" [AStr configPath]);;
                 om_Info
                   (NewOutputManager true true true (GlobalFlags.quiet gf)
                      (GlobalFlags.verbose gf) (GlobalFlags.debug gf))
                   (Sprintf "You can now edit the configuration with: mkcd config edit"
                      [])) w0 = (Done, w')).
    { revert Hrun. unfold bind at 1 2. unfold query, ret.
      destruct (os_Stat configPath (fs w)).
      - destruct (negb (GlobalFlags.force gf)); [discriminate|].
        unfold bind at 1.
        destruct (om_Warning _ _ w) as [[] w0]. eauto.
      - eauto. }
    destruct Hend as (w0 & Hend).
    apply saveAndReport_Done in Hend as (w1 & Hsave & ->).
    assert (Hsame : Load env configPath = Load env (GlobalFlags.cfgFile gf)).
    { destruct Hloc as [[_ ->] | [He Hp]]; [reflexivity|].
      unfold Load. rewrite He, Hp. cbn [String.eqb].
      pose proof (GetConfigPath_nonempty _ _ Hp) as Hne.
      apply String.eqb_neq in Hne. rewrite Hne. reflexivity. }
    rewrite <- Hsame.
    rewrite (Load_after_Save env _ _ w0 w1 _ Hstore Hsave).
    + rewrite overlay_self. reflexivity.
    + unfold bind, om_Success, om_Info.
      destruct (leveled _ PSuccess _ _ w1) as [[] w2] eqn:H1.
      pose proof (leveled_fs
                    (NewOutputManager true true true (GlobalFlags.quiet gf)
                       (GlobalFlags.verbose gf) (GlobalFlags.debug gf))
                    PSuccess PGreen
                    (Sprintf "Configuration initialized at %s" [AStr configPath]) w1)
        as H2.
      rewrite H1 in H2. cbn [snd] in H2. rewrite leveled_fs. exact H2.
Qed.

End SavedConfiguration.

Section ShelfFacts.

#[local] Existing Instance Shelf.os.
#[local] Existing Instance Shelf.store.
#[local] Existing Instance Shelf.collaborators.

Lemma Shelf_keeps : keepsWhatItEncodes Shelf.machine.
Proof.
  intros path c f f' [= <-]. cbn. unfold Shelf.shelf_Stat, Shelf.shelf_DecodeFile.
  rewrite lookup_insert_eq. split; reflexivity.
Qed.

Lemma Save_then_Load_witness :
  let c := snd (config.DeleteProfile (config.DefaultConfig Toy.env) "python") in
  let loaded := overlay c (config.DefaultConfig Toy.env) in
  fst (Load Toy.env "" (snd (Save Toy.env c "" Shelf.empty))) = Ok loaded
  /\ Config.Profiles c !! "python" = None
  /\ Config.Profiles loaded !! "python"
     = Config.Profiles (config.DefaultConfig Toy.env) !! "python".
Proof.
  cbv zeta.
  destruct (Save_then_Load Toy.env
              (snd (config.DeleteProfile (config.DefaultConfig Toy.env) "python"))
              "" Shelf.empty
              (snd (Save Toy.env
                      (snd (config.DeleteProfile (config.DefaultConfig Toy.env) "python"))
                      "" Shelf.empty))
              Shelf_keeps)
    as (_ & Hvalid & _ & Hnames).
  - vm_compute. reflexivity.
  - split; [apply Hvalid; vm_compute; reflexivity|].
    split; [vm_compute; reflexivity|].
    rewrite Hnames. vm_compute. reflexivity.
Defined.

Lemma profile_copy_persists_witness :
  exists cfg profile loaded,
    fst (Load Toy.env "" Shelf.empty) = Ok cfg
    /\ Config.Profiles cfg !! "nodejs" = Some profile
    /\ fst (Load Toy.env ""
              (snd (runProfileCopy Toy.env Shelf.forceFlags "nodejs" "web" Shelf.empty)))
       = Ok loaded
    /\ loaded = overlay (config.SetProfile cfg "web" profile)
                        (config.DefaultConfig Toy.env)
    /\ Config.Profiles loaded !! "web" = Some profile
    /\ Config.Profiles loaded !! "nodejs" = Some profile.
Proof.
  apply (profile_copy_persists Toy.env Shelf.forceFlags "nodejs" "web" Shelf.empty _
           Shelf_keeps).
  vm_compute. reflexivity.
Defined.

Lemma profile_delete_reloaded_witness :
  exists cfg loaded,
    fst (Load Toy.env "" Shelf.empty) = Ok cfg
    /\ is_Some (Config.Profiles cfg !! "python")
    /\ "python" <> CoreConfig.DefaultProfile (Config.Core cfg)
    /\ fst (Load Toy.env ""
              (snd (runProfileDelete Toy.env Shelf.forceFlags "python" Shelf.empty)))
       = Ok loaded
    /\ loaded = overlay
                  (Config.withProfiles cfg (delete "python" (Config.Profiles cfg)))
                  (config.DefaultConfig Toy.env)
    /\ Config.Profiles loaded !! "python"
       = Config.Profiles (config.DefaultConfig Toy.env) !! "python".
Proof.
  apply (profile_delete_reloaded Toy.env Shelf.forceFlags "python" Shelf.empty _
           Shelf_keeps).
  - reflexivity.
  - vm_compute. reflexivity.
Defined.

Lemma quiet_declines_witness :
  (forall (w : World Shelf.machine) configPath,
     commandConfigPath Toy.env Shelf.quietFlags = inr configPath ->
     runConfigReset Toy.env Shelf.quietFlags w = (Done, w))
  /\ (forall (w w1 : World Shelf.machine) cfg profileName,
        Load Toy.env (GlobalFlags.cfgFile Shelf.quietFlags) w = (Ok cfg, w1) ->
        is_Some (Config.Profiles cfg !! profileName) ->
        runProfileDelete Toy.env Shelf.quietFlags profileName w = (Done, w1)).
Proof.
  apply (quiet_declines Toy.env Shelf.quietFlags); reflexivity.
Defined.

Lemma default_profile_protected_witness :
  runProfileDelete Toy.env Shelf.forceFlags "default" Shelf.empty
  = (Failed (Caused "failed to delete profile" (ErrDeleteDefault "default")),
     snd (Load Toy.env "" Shelf.empty)).
Proof.
  apply (default_profile_protected Toy.env Shelf.forceFlags "default" Shelf.empty _
           (config.DefaultConfig Toy.env)).
  - vm_compute. reflexivity.
  - reflexivity.
  - vm_compute. eauto.
  - reflexivity.
Defined.

Lemma runConfigInit_guarded_witness :
  fst (Load Toy.env ""
         (snd (runConfigInit Toy.env Shelf.forceFlags Shelf.empty)))
  = Ok (config.DefaultConfig Toy.env).
Proof.
  destruct (runConfigInit_guarded (F := Shelf.machine) Toy.env Shelf.forceFlags)
    as [_ Hfresh].
  apply (Hfresh Shelf_keeps Shelf.empty). vm_compute. reflexivity.
Defined.

End ShelfFacts.

(* ===================================================================== *)
(** * The detection of the editor                                         *)
(* ===================================================================== *)

Section Detection.

Lemma lookup_In {A} (l : list A) j b : l !! j = Some b -> In b l.
Proof.
  revert j. induction l as [|x l IH]; intros [|j] H; try discriminate.
  - injection H as ->. left. reflexivity.
  - right. apply (IH j H).
Qed.

Lemma descending_lookup l i j a b :
  descending l -> (i < j)%nat -> l !! i = Some a -> l !! j = Some b -> atLeast a b.
Proof.
  intros Hd. revert i j. induction Hd as [|x l Hd IH Hx]; intros i j Hij Hi Hj.
  - discriminate.
  - destruct j as [|j]; [lia|]. cbn in Hj.
    destruct i as [|i]; cbn in Hi.
    + injection Hi as <-. rewrite List.Forall_forall in Hx.
      apply Hx. apply (lookup_In l j b Hj).
    + apply (IH i j); [lia | assumption..].
Qed.

Lemma descending_filter f l : descending l -> descending (List.filter f l).
Proof.
  induction 1 as [|x l Hd IH Hx]; cbn [List.filter]; [constructor|].
  destruct (f x); [|exact IH].
  constructor; [exact IH|].
  rewrite List.Forall_forall in *. intros y Hy.
  apply List.filter_In in Hy as [Hy _]. apply Hx, Hy.
Qed.

Lemma sortInner_descending i j count l :
  descending l -> (i < j)%nat -> editor.sortInner i j count l = l.
Proof.
  intros Hd. revert j. induction count as [|count IH]; intros j Hij; [reflexivity|].
  cbn [editor.sortInner].
  assert (Hsame : editor.compareExchange i j l = l).
  { unfold editor.compareExchange.
    destruct (l !! i) as [a|] eqn:Ha; [|reflexivity].
    destruct (l !! j) as [b|] eqn:Hb; [|reflexivity].
    pose proof (descending_lookup l i j a b Hd Hij Ha Hb) as Hab. unfold atLeast in Hab.
    destruct (Z.ltb_spec (EditorInfo.Priority a) (EditorInfo.Priority b));
      [lia | reflexivity]. }
  rewrite Hsame. apply IH. lia.
Qed.

Lemma sortOuter_descending i count l :
  descending l -> editor.sortOuter i count l = l.
Proof.
  intros Hd. revert i. induction count as [|count IH]; intros i; [reflexivity|].
  cbn [editor.sortOuter]. rewrite sortInner_descending by (assumption || lia).
  apply IH.
Qed.

Lemma editors_descending : descending editor.editors.
Proof.
  unfold descending, editor.editors.
  repeat (constructor; [|repeat constructor; unfold atLeast; cbn; lia]).
  constructor.
Qed.

Lemma GetAvailableEditors_filter pf :
  editor.GetAvailableEditors pf
  = List.filter (editor.isEditorAvailable pf) editor.editors.
Proof.
  unfold editor.GetAvailableEditors, editor.sortByPriority.
  apply sortOuter_descending, descending_filter, editors_descending.
Qed.

(** X26.  On every platform the editors found are the available entries
    of the table in the order of the table: the priorities of the table
    never rise, so the sort moves nothing, and among editors of equal
    priority the one written first in the table comes first. *)
Theorem GetAvailableEditors_table_order (pf : Platform) :
  editor.GetAvailableEditors pf
  = List.filter (editor.isEditorAvailable pf) editor.editors
  /\ descending (editor.GetAvailableEditors pf).
Proof.
  rewrite GetAvailableEditors_filter. split; [reflexivity|].
  apply descending_filter, editors_descending.
Qed.

(** X27.  The editor that detection chooses: the command named by the
    EDITOR variable when it is set, else the one named by VISUAL, in
    both cases without a look at whether the command exists; else the
    first available entry of the table; and the error when there is
    none. *)
Theorem DetectEditor_choice {F : Type} (pf : Platform) (verbose : bool) (w : World F) :
  fst (editor.DetectEditor pf verbose w)
  = if negb (String.eqb (Getenv pf "EDITOR") "") then
      inr (EditorInfo.mk "Environment Editor" (Getenv pf "EDITOR") []
             "Editor from EDITOR environment variable" 1000)
    else if negb (String.eqb (Getenv pf "VISUAL") "") then
      inr (EditorInfo.mk "Visual Editor" (Getenv pf "VISUAL") []
             "Editor from VISUAL environment variable" 999)
    else
      match List.find (editor.isEditorAvailable pf) editor.editors with
      | Some best => inr best
      | None => inl editor.ErrNoEditors
      end.
Proof.
  unfold editor.DetectEditor.
  destruct (negb (String.eqb (Getenv pf "EDITOR") "")).
  { unfold bind, ret, emit. destruct verbose; reflexivity. }
  destruct (negb (String.eqb (Getenv pf "VISUAL") "")).
  { unfold bind, ret, emit. destruct verbose; reflexivity. }
  rewrite GetAvailableEditors_filter.
  assert (Hfind : forall l,
            List.find (editor.isEditorAvailable pf) l
            = match List.filter (editor.isEditorAvailable pf) l with
              | [] => None
              | e :: _ => Some e
              end).
  { induction l as [|e l IH]; [reflexivity|]. cbn [List.find List.filter].
    destruct (editor.isEditorAvailable pf e); [reflexivity | exact IH]. }
  rewrite Hfind.
  destruct (List.filter _ _) as [|best rest]; [reflexivity|].
  unfold bind, ret, emit. destruct verbose; reflexivity.
Qed.

End Detection.

Section SortLoop.

Lemma insert_head_perm {A} (l : list A) j b x :
  l !! j = Some b -> b :: <[j := x]> l ≡ₚ x :: l.
Proof.
  revert j. induction l as [|y l IH]; intros [|j] H; try discriminate.
  - injection H as ->. apply perm_swap.
  - cbn. rewrite perm_swap, (IH j H). apply perm_swap.
Qed.

Lemma exchange_perm {A} (l : list A) i j a b :
  (i < j)%nat -> l !! i = Some a -> l !! j = Some b ->
  <[i := b]> (<[j := a]> l) ≡ₚ l.
Proof.
  revert i j. induction l as [|x l IH]; intros i j Hij Hi Hj; [discriminate|].
  destruct j as [|j]; [lia|]. destruct i as [|i].
  - injection Hi as ->. cbn. apply insert_head_perm, Hj.
  - cbn. apply perm_skip, IH; [lia | assumption..].
Qed.

Lemma compareExchange_length i j l :
  List.length (editor.compareExchange i j l) = List.length l.
Proof.
  unfold editor.compareExchange.
  destruct (l !! i); [|reflexivity]. destruct (l !! j); [|reflexivity].
  destruct (_ <? _)%Z; [|reflexivity]. rewrite !length_insert. reflexivity.
Qed.

Lemma compareExchange_perm i j l :
  (i < j)%nat -> editor.compareExchange i j l ≡ₚ l.
Proof.
  intros Hij. unfold editor.compareExchange.
  destruct (l !! i) as [a|] eqn:Ha; [|reflexivity].
  destruct (l !! j) as [b|] eqn:Hb; [|reflexivity].
  destruct (_ <? _)%Z; [|reflexivity].
  apply exchange_perm; assumption.
Qed.

Lemma compareExchange_before i j k l :
  (k < i)%nat -> (i < j)%nat -> editor.compareExchange i j l !! k = l !! k.
Proof.
  intros Hk Hij. unfold editor.compareExchange.
  destruct (l !! i) as [a|]; [|reflexivity].
  destruct (l !! j) as [b|]; [|reflexivity].
  destruct (_ <? _)%Z; [|reflexivity].
  rewrite !list_lookup_insert_ne by lia. reflexivity.
Qed.

Lemma compareExchange_from i j q b l :
  (i < j)%nat -> (i <= q)%nat -> editor.compareExchange i j l !! q = Some b ->
  exists q', (i <= q')%nat /\ l !! q' = Some b.
Proof.
  intros Hij Hq. unfold editor.compareExchange.
  destruct (l !! i) as [a|] eqn:Ha; [|eauto].
  destruct (l !! j) as [b0|] eqn:Hb; [|eauto].
  destruct (_ <? _)%Z; [|eauto].
  intros H. apply list_lookup_insert_Some in H as [(<- & <- & _) | (Hne & H)].
  - exists j. split; [lia | exact Hb].
  - apply list_lookup_insert_Some in H as [(<- & <- & _) | (Hne' & H)].
    + exists i. split; [lia | exact Ha].
    + exists q. split; [lia | exact H].
Qed.

Lemma compareExchange_leads i j l :
  (i < j)%nat -> leads i j l -> leads i (S j) (editor.compareExchange i j l).
Proof.
  intros Hij Hl k b m Hk. unfold editor.compareExchange.
  destruct (l !! i) as [a|] eqn:Ha.
  2:{ intros _ Hm. congruence. }
  destruct (l !! j) as [b0|] eqn:Hb.
  2:{ intros Hkb Hm. destruct (decide (k = j)) as [->|]; [congruence|].
      apply (Hl k b m); [lia | assumption..]. }
  destruct (Z.ltb_spec (EditorInfo.Priority a) (EditorInfo.Priority b0)) as [Hlt|Hge].
  - intros Hkb Hm.
    assert (Hi : (i < List.length l)%nat) by (eapply lookup_lt_Some, Ha).
    rewrite list_lookup_insert_eq in Hm by (rewrite length_insert; exact Hi).
    injection Hm as <-.
    rewrite list_lookup_insert_ne in Hkb by lia.
    apply list_lookup_insert_Some in Hkb as [(<- & <- & _) | (Hne & Hkb)].
    + unfold atLeast. lia.
    + pose proof (Hl k b a ltac:(lia) Hkb Ha) as H. unfold atLeast in *. lia.
  - intros Hkb Hm. destruct (decide (k = j)) as [->|].
    + assert (b = b0) by congruence. assert (m = a) by congruence. subst.
      unfold atLeast. lia.
    + apply (Hl k b m); [lia | assumption..].
Qed.

Lemma sortInner_spec i count : forall j l,
  (i < j)%nat -> leads i j l ->
  let l' := editor.sortInner i j count l in
  List.length l' = List.length l
  /\ l' ≡ₚ l
  /\ (forall k, (k < i)%nat -> l' !! k = l !! k)
  /\ (forall q b, (i <= q)%nat -> l' !! q = Some b ->
        exists q', (i <= q')%nat /\ l !! q' = Some b)
  /\ leads i (j + count) l'.
Proof.
  induction count as [|count IH]; intros j l Hij Hl; cbn [editor.sortInner].
  - rewrite Nat.add_0_r. repeat split; eauto.
  - destruct (IH (S j) (editor.compareExchange i j l) ltac:(lia)
                (compareExchange_leads i j l Hij Hl))
      as (Hlen & Hperm & Hbefore & Hfrom & Hleads).
    cbv zeta. split; [|split; [|split; [|split]]].
    + rewrite Hlen. apply compareExchange_length.
    + rewrite Hperm. apply compareExchange_perm, Hij.
    + intros k Hk. rewrite Hbefore by exact Hk.
      apply compareExchange_before; assumption.
    + intros q b Hq Hb. destruct (Hfrom q b Hq Hb) as (q1 & Hq1 & Hb1).
      apply (compareExchange_from i j q1 b l Hij Hq1 Hb1).
    + replace (j + S count)%nat with (S j + count)%nat by lia. exact Hleads.
Qed.

Lemma sortOuter_spec count : forall i l,
  settled i l ->
  let l' := editor.sortOuter i count l in
  List.length l' = List.length l /\ l' ≡ₚ l /\ settled (i + count) l'.
Proof.
  induction count as [|count IH]; intros i l Hs; cbn [editor.sortOuter].
  - rewrite Nat.add_0_r. repeat split; eauto.
  - destruct (sortInner_spec i (List.length l - S i) (S i) l ltac:(lia))
      as (Hlen & Hperm & Hbefore & Hfrom & Hleads).
    { intros k b m Hk. lia. }
    set (l1 := editor.sortInner i (S i) (List.length l - S i) l) in *.
    assert (Hs1 : settled (S i) l1).
    { intros p q a b Hpq Hp Ha Hb.
      destruct (decide (p = i)) as [->|Hne].
      - apply (Hleads q b a); [|assumption..].
        assert (q < List.length l1)%nat by (eapply lookup_lt_Some, Hb). lia.
      - rewrite Hbefore in Ha by lia.
        destruct (decide (q < i)%nat) as [Hq|Hq].
        + rewrite Hbefore in Hb by lia. apply (Hs p q a b); [lia | lia | assumption..].
        + destruct (Hfrom q b ltac:(lia) Hb) as (q' & Hq' & Hb').
          apply (Hs p q' a b); [lia | lia | assumption..]. }
    destruct (IH (S i) l1 Hs1) as (Hlen2 & Hperm2 & Hs2).
    cbv zeta. split; [|split].
    + rewrite Hlen2. exact Hlen.
    + rewrite Hperm2. exact Hperm.
    + replace (i + S count)%nat with (S i + count)%nat by lia. exact Hs2.
Qed.

Lemma In_lookup {A} (l : list A) y : In y l -> exists k, l !! k = Some y.
Proof.
  induction l as [|x l IH]; [intros []|]. intros [<-|H].
  - exists 0%nat. reflexivity.
  - destruct (IH H) as [k Hk]. exists (S k). exact Hk.
Qed.

Lemma settled_descending l : settled (List.length l - 1) l -> descending l.
Proof.
  intros Hs.
  assert (Hall : forall p q a b, (p < q)%nat -> l !! p = Some a -> l !! q = Some b ->
                   atLeast a b).
  { intros p q a b Hpq Ha Hb. apply (Hs p q a b); try assumption.
    assert (q < List.length l)%nat by (eapply lookup_lt_Some, Hb). lia. }
  clear Hs. induction l as [|x l IH]; [constructor|].
  constructor.
  - apply IH. intros p q a b Hpq Ha Hb. apply (Hall (S p) (S q)); [lia | assumption..].
  - apply List.Forall_forall. intros y Hy.
    apply In_lookup in Hy as [k Hk].
    apply (Hall 0%nat (S k)); [lia | reflexivity | exact Hk].
Qed.

(** X28.  The sort of [GetAvailableEditors] is a sort: applied to any
    list of editors, its two loops return the same editors, arranged so
    that the priorities never rise. *)
Theorem sortByPriority_sorts (l : list EditorInfo.t) :
  editor.sortByPriority l ≡ₚ l /\ descending (editor.sortByPriority l).
Proof.
  unfold editor.sortByPriority.
  destruct (sortOuter_spec (List.length l - 1) 0 l) as (Hlen & Hperm & Hs).
  { intros p q a b _ Hp. lia. }
  split; [exact Hperm|].
  apply settled_descending. rewrite Hlen. exact Hs.
Qed.

End SortLoop.

(* ===================================================================== *)
(** * The default profile of a loaded configuration                       *)
(* ===================================================================== *)

Section LoadedProfile.
Context {F : Type} `{!OS F} `{!Collaborators F}.

Lemma loaded_default_profile env configPath (w w1 : World F) cfg :
  Load env configPath w = (Ok cfg, w1) ->
  CoreConfig.DefaultProfile (Config.Core cfg) <> "" ->
  exists p,
    Config.Profiles cfg !! CoreConfig.DefaultProfile (Config.Core cfg) = Some p.
Proof.
  intros Hload Hne.
  assert (Hv : config.Validate cfg = Ok tt).
  { apply (Load_valid env configPath w). rewrite Hload. reflexivity. }
  apply Validate_wellFormed in Hv as (_ & _ & [He|Hp] & _); [contradiction | exact Hp].
Qed.

(** X29.  The profile of a run: a profile asked for by name that the
    loaded configuration does not hold fails the run before anything is
    created; with no name given, a configuration that names a default
    profile always supplies it, and the run is the execution of the
    plan merged from that profile. *)
Theorem runMkcd_profile
    (env : Env) (gf : GlobalFlags.t) (fl : MkcdFlags.t) (dirName : string)
    (w w1 : World F) (cfg : Config.t)
    (Hload : Load env (GlobalFlags.cfgFile gf) w = (Ok cfg, w1)) :
  (GlobalFlags.profile gf <> "" ->
   Config.Profiles cfg !! GlobalFlags.profile gf = None ->
   runMkcd env gf fl dirName w
   = (Err (Wrap "failed to get profile" (ErrProfileNotFound (GlobalFlags.profile gf))),
      w1))
  /\ (GlobalFlags.profile gf = "" ->
      CoreConfig.DefaultProfile (Config.Core cfg) <> "" ->
      exists p,
        Config.Profiles cfg !! CoreConfig.DefaultProfile (Config.Core cfg) = Some p
        /\ runMkcd env gf fl dirName w
           = executeMkcd env gf fl dirName cfg (mergeConfigWithFlags fl p)
               (outputManagerOf cfg gf)
               (NewFileSystemOperations (GlobalFlags.dryRun gf)
                  (GlobalFlags.backup gf || CoreConfig.BackupEnabled (Config.Core cfg)))
               (utils.NewPathValidator
                  (SafetyConfig.ForbiddenPaths (Config.Safety cfg))
                  (SafetyConfig.MaxDepth (Config.Safety cfg)))
               w1).
Proof.
  split.
  - intros Hne Hnone. unfold runMkcd, bind. rewrite Hload.
    apply String.eqb_neq in Hne. rewrite Hne. cbn [negb].
    unfold config.GetProfile. rewrite Hne, Hnone. reflexivity.
  - intros He Hne.
    destruct (loaded_default_profile _ _ _ _ _ Hload Hne) as [p Hp].
    exists p. split; [exact Hp|].
    unfold runMkcd, bind. rewrite Hload, He. cbn [String.eqb negb].
    unfold config.GetProfile. apply String.eqb_neq in Hne. rewrite Hne, Hp.
    reflexivity.
Qed.

(** X30.  The validation report never warns of a missing default
    profile: the configuration it examines has been loaded, and a loaded
    configuration holds the default profile it names.  The warnings that
    remain are those of the template directory and of the temporary
    directory. *)
Theorem report_warnings
    (env : Env) (configPath : string) (w w1 w2 : World F) (cfg : Config.t)
    (Hload : Load env configPath w = (Ok cfg, w1)) :
  Forall (fun warning =>
            warning = Sprintf "Template directory does not exist: %s"
                        [AStr (TemplatesConfig.Directory (Config.Templates cfg))]
            \/ warning = Sprintf "Temp directory does not exist: %s"
                           [AStr (CoreConfig.TempDir (Config.Core cfg))])
         (fst (additionalChecks cfg w2)).
Proof.
  assert (Hdead : negb (String.eqb (CoreConfig.DefaultProfile (Config.Core cfg)) "")
                  && negb (bool_decide
                             (is_Some (Config.Profiles cfg
                                         !! CoreConfig.DefaultProfile (Config.Core cfg))))
                  = false).
  { destruct (String.eqb_spec (CoreConfig.DefaultProfile (Config.Core cfg)) "")
      as [|Hne]; [reflexivity|].
    destruct (loaded_default_profile _ _ _ _ _ Hload Hne) as [p Hp].
    rewrite bool_decide_eq_true_2 by eauto. reflexivity. }
  unfold additionalChecks. rewrite Hdead. unfold bind, ret.
  destruct ((if negb (String.eqb (TemplatesConfig.Directory (Config.Templates cfg)) "")
             then statIsNotExist (TemplatesConfig.Directory (Config.Templates cfg))
             else fun s => (false, s)) w2) as [[] w3];
    destruct ((if negb (String.eqb (CoreConfig.TempDir (Config.Core cfg)) "")
               then statIsNotExist (CoreConfig.TempDir (Config.Core cfg))
               else fun s => (false, s)) w3) as [[] w4];
    cbn; repeat (apply List.Forall_cons; [auto|]); apply List.Forall_nil.
Qed.

End LoadedProfile.

Lemma runMkcd_profile_witness :
  runMkcd (OS0 := SampleRun.os) (Collaborators0 := SampleRun.collaborators)
    Toy.env (GlobalFlags.mk "" "rust" false false false false false false false)
    Sample.noFlags "proj" SampleRun.existing
  = (Err (Wrap "failed to get profile" (ErrProfileNotFound "rust")),
     snd (Load (OS0 := SampleRun.os) Toy.env "" SampleRun.existing)).
Proof.
  apply (runMkcd_profile (OS0 := SampleRun.os)
           (Collaborators0 := SampleRun.collaborators)
           Toy.env (GlobalFlags.mk "" "rust" false false false false false false false)
           Sample.noFlags "proj" SampleRun.existing _ (config.DefaultConfig Toy.env)).
  - vm_compute. reflexivity.
  - discriminate.
  - vm_compute. reflexivity.
Defined.

Lemma report_warnings_witness :
  Forall (fun warning =>
            warning = Sprintf "Template directory does not exist: %s"
                        [AStr "/home/user/.config/mkcd/templates"]
            \/ warning = Sprintf "Temp directory does not exist: %s" [AStr "/tmp/mkcd"])
         (fst (additionalChecks (OS0 := SampleRun.os) (config.DefaultConfig Toy.env)
                 SampleRun.existing)).
Proof.
  apply (report_warnings (OS0 := SampleRun.os)
           Toy.env "" SampleRun.existing
           (snd (Load (OS0 := SampleRun.os) Toy.env "" SampleRun.existing))
           SampleRun.existing (config.DefaultConfig Toy.env)).
  vm_compute. reflexivity.
Defined.
